(** * Entitlement core of the telegram-token bot

    A shallow embedding of [database_json.py] (the JSON-file store), of the
    admin checks of [admin.py] and [bot.py], of [bot.start_command] and
    [shorturl.create_video_url], of the premium commands of [admin.py] and
    of [bot.membership_confirmed_callback], together with the properties of
    the access-control model.

    Conventions.
    - A JSON document is a [value]; Python dicts are [gmap string value].
      Floats are left out: the store writes none.
    - An [async def] of the source is a computation [M A]: it takes the
      world (files, clock, messages sent, log) and gives back an outcome,
      a result or a raised exception, and the world it leaves behind.
    - A [datetime] is an integer number of microseconds; the range limit of
      [datetime] is not modelled.  Every call of [datetime.now()] takes the
      next reading of the system clock.
    - A message handed to the transport is recorded and the call returns;
      what the transport answers to [get_chat] is a parameter of the
      handler that asks. *)

From Stdlib Require Import ZArith Lia String Ascii List Sorted.
From stdpp Require Import gmap strings list list_numbers fin_maps pretty.

Set Warnings "-register-all".

#[local] Open Scope Z_scope.

(** ** Python values and the operations the source applies to them *)

Module Py.

Inductive exn :=
| KeyError
| TypeError
| ValueError
| AttributeError
| IndexError
| JSONDecodeError
| FileNotFoundError.

Inductive outcome (A : Type) :=
| Ok (a : A)
| Raise (e : exn).
Arguments Ok {A} a.
Arguments Raise {A} e.

Inductive value :=
| VNone
| VBool (b : bool)
| VInt (z : Z)
| VStr (s : string)
| VList (l : list value)
| VDict (m : gmap string value).

Abbreviation record := (gmap string value).

(** Truth value of an object, as [if x] and [not x] take it. *)
Definition truthy (v : value) : bool :=
  match v with
  | VNone => false
  | VBool b => b
  | VInt z => negb (z =? 0)
  | VStr s => negb (bool_decide (s = ""%string))
  | VList l => negb (bool_decide (l = []))
  | VDict m => negb (bool_decide (m = ∅))
  end.

(** [a or b] *)
Definition py_or (a b : value) : value := if truthy a then a else b.

(** [v == n] for an int [n]: [bool] is a subclass of [int]. *)
Definition py_eq_int (v : value) (n : Z) : bool :=
  match v with
  | VInt z => z =? n
  | VBool b => Z.b2z b =? n
  | _ => false
  end.

(** [v[k]] for a str key [k] *)
Definition subscript (v : value) (k : string) : outcome value :=
  match v with
  | VDict m =>
      match m !! k with
      | Some x => Ok x
      | None => Raise KeyError
      end
  | _ => Raise TypeError
  end.

(** [v + 1] *)
Definition succ (v : value) : outcome value :=
  match v with
  | VInt z => Ok (VInt (z + 1))
  | VBool b => Ok (VInt (Z.b2z b + 1))
  | _ => Raise TypeError
  end.

(** [for r in coll: if r[key] == n: ...]: the first element whose [key]
    equals [n], with its position.  An element that is no dict, or a dict
    without [key], stops the scan with the exception of the subscript. *)
Fixpoint find_record (key : string) (rs : list value) (n : Z)
  : outcome (option (nat * record)) :=
  match rs with
  | [] => Ok None
  | VDict f :: rest =>
      match f !! key with
      | None => Raise KeyError
      | Some u =>
          if py_eq_int u n then Ok (Some (0%nat, f))
          else match find_record key rest n with
               | Ok (Some (j, g)) => Ok (Some (S j, g))
               | other => other
               end
      end
  | _ :: _ => Raise TypeError
  end.

(** The same loop over whatever object the document holds.  Iterating a
    dict gives its keys and iterating a str its characters, and the
    subscript of a str by a str raises [TypeError]; the other objects are
    not iterable. *)
Definition scan (key : string) (coll : value) (n : Z)
  : outcome (option (nat * record)) :=
  match coll with
  | VList rs => find_record key rs n
  | VDict m => if bool_decide (m = ∅) then Ok None else Raise TypeError
  | VStr s => if bool_decide (s = ""%string) then Ok None else Raise TypeError
  | _ => Raise TypeError
  end.

(** [coll.append(x)] *)
Definition append (coll x : value) : outcome value :=
  match coll with
  | VList rs => Ok (VList (rs ++ [x]))
  | _ => Raise AttributeError
  end.

(** The list after the dict at position [i], which the loop variable
    aliases, has been mutated into [f]. *)
Definition replace_at (coll : value) (i : nat) (f : record) : value :=
  match coll with
  | VList rs => VList (<[i := VDict f]> rs)
  | other => other
  end.

(** The dict [data] seen again after the object under [k] was mutated. *)
Definition put_back (data : value) (k : string) (x : value) : value :=
  match data with
  | VDict m => VDict (<[k := x]> m)
  | other => other
  end.

Definition of_opt_str (o : option string) : value :=
  match o with
  | Some s => VStr s
  | None => VNone
  end.

(** *** [int(s)] for a str, on ASCII text: blanks around, a sign, decimal
    digits, single underscores between digits. *)

Definition is_space (c : ascii) : bool :=
  let n := nat_of_ascii c in
  ((9 <=? n)%nat && (n <=? 13)%nat) || ((28 <=? n)%nat && (n <=? 32)%nat).

Definition digit (c : ascii) : option Z :=
  let n := nat_of_ascii c in
  if ((48 <=? n)%nat && (n <=? 57)%nat)%bool then Some (Z.of_nat n - 48) else None.

Fixpoint lstrip (s : string) : string :=
  match s with
  | String c r => if is_space c then lstrip r else s
  | EmptyString => EmptyString
  end.

Fixpoint rstrip (s : string) : string :=
  match s with
  | EmptyString => EmptyString
  | String c r =>
      match rstrip r with
      | EmptyString => if is_space c then EmptyString else String c EmptyString
      | r' => String c r'
      end
  end.

Fixpoint digits (s : string) (acc : Z) (after_digit : bool) : option Z :=
  match s with
  | EmptyString => if after_digit then Some acc else None
  | String c r =>
      match digit c with
      | Some d => digits r (10 * acc + d) true
      | None =>
          if (Ascii.eqb c "_" && after_digit)%bool then digits r acc false
          else None
      end
  end.

Definition py_int (s : string) : outcome Z :=
  let body := rstrip (lstrip s) in
  let parsed :=
    match body with
    | String "+" r => digits r 0 false
    | String "-" r => Z.opp <$> digits r 0 false
    | _ => digits body 0 false
    end in
  match parsed with
  | Some z => Ok z
  | None => Raise ValueError
  end.

(** [str(n)] for an int *)
Definition py_str (n : Z) : string := pretty n.

(** [s.split(sep)] for a one-character separator *)
Fixpoint split (sep : ascii) (s : string) : list string :=
  match s with
  | EmptyString => [EmptyString]
  | String c r =>
      if Ascii.eqb c sep then EmptyString :: split sep r
      else match split sep r with
           | h :: t => String c h :: t
           | [] => [String c EmptyString]
           end
  end.

(** [l[i]] on a list *)
Definition item {A} (l : list A) (i : nat) : outcome A :=
  match l !! i with
  | Some x => Ok x
  | None => Raise IndexError
  end.

(** [[ord(c) for c in s]] *)
Definition ords (s : string) : list Z :=
  (fun c => Z.of_nat (nat_of_ascii c)) <$> list_ascii_of_string s.

(** ["".join(l)] *)
Definition join (l : list string) : string :=
  foldr String.append EmptyString l.

End Py.
Export Py.

(** ** The [datetime] library, as far as the source uses it

    The store keeps timestamps as the text [isoformat] gives and reads them
    back with [fromisoformat].  Of the two only this is used: the text of a
    (naive) datetime parses back to it, and the empty text does not parse.
    A text on which [fromisoformat] gives [None] raises [ValueError]. *)

Class DateTime := {
  isoformat : Z → string;
  fromisoformat : string → option Z;
  fromisoformat_isoformat : ∀ t, fromisoformat (isoformat t) = Some t;
  fromisoformat_empty : fromisoformat ""%string = None
}.

(** [timedelta(hours=h)] and [timedelta(days=d)] in microseconds *)
Definition hours (h : Z) : Z := h * 3600000000.
Definition days (d : Z) : Z := d * 86400000000.

(** [td.days] of a difference of two datetimes *)
Definition timedelta_days (td : Z) : Z := td / days 1.

(** ** The world of an [async def]: files, clock, transport, log *)

(** What a path of the file system holds: text that [json.load] rejects
    with [JSONDecodeError], or a JSON document.  A path absent from the map
    does not exist. *)
Inductive content :=
| Garbled
| Json (v : value).

(** Messages handed to the messaging transport. *)
Inductive reply :=
| PremiumWelcome (first_name : string) (premium_days : Z)
| TokenRefreshed
| MembershipRequired (first_name : string)
| TokenActive (first_name : string)
| TokenExpired (first_name : string)
| VideoMessage (file_id caption_title : value)
| VideoNotFound.

(** Records of [logger]. *)
Inductive log_entry :=
| InfoStart (uid : Z) (args : list string)
| InfoDeepLink (param : string)
| InfoTokenAttempt (user_id_part : string)
| InfoSettingToken (user_id : Z)
| WarningMismatch (uid user_id : Z)
| ErrorInvalidId (user_id_part : string).

Record world := World {
  fs : gmap string content;
  clock : nat → Z;
  reads : nat;
  sent : list reply;
  journal : list log_entry
}.

Definition M (A : Type) : Type := world → outcome A * world.

Definition ret {A} (a : A) : M A := fun w => (Ok a, w).

Definition bind {A B} (c : M A) (k : A → M B) : M B :=
  fun w =>
    match c w with
    | (Ok a, w') => k a w'
    | (Raise e, w') => (Raise e, w')
    end.

(** A pure step that may raise. *)
Definition lift {A} (o : outcome A) : M A := fun w => (o, w).

(** [ValueError] and its subclasses; [(ValueError, TypeError)] *)
Definition is_ValueError (e : exn) : bool :=
  match e with
  | ValueError | JSONDecodeError => true
  | _ => false
  end.

Definition is_ValueError_or_TypeError (e : exn) : bool :=
  match e with
  | ValueError | JSONDecodeError | TypeError => true
  | _ => false
  end.

(** [try: c  except E: h] for the exceptions [E] that [catches] accepts *)
Definition try_except {A} (c : M A) (catches : exn → bool) (h : M A) : M A :=
  fun w =>
    match c w with
    | (Raise e, w') => if catches e then h w' else (Raise e, w')
    | done => done
    end.

Notation "'do' x <- c ; k" := (bind c (fun x => k))
  (at level 10, x name, c at level 100, k at level 200).
Notation "'run' c ; k" := (bind c (fun _ => k))
  (at level 10, c at level 100, k at level 200).

(** [datetime.datetime.now()] *)
Definition now : M Z :=
  fun w => (Ok (clock w (reads w)),
            World (fs w) (clock w) (S (reads w)) (sent w) (journal w)).

(** [os.path.exists(path)] *)
Definition exists_ (path : string) : M bool :=
  fun w => (Ok (bool_decide (is_Some (fs w !! path))), w).

(** [update.message.reply_text(...)], [reply_video(...)] *)
Definition send (r : reply) : M unit :=
  fun w => (Ok tt, World (fs w) (clock w) (reads w) (sent w ++ [r]) (journal w)).

(** [logger.info(...)], [logger.warning(...)], [logger.error(...)] *)
Definition log (e : log_entry) : M unit :=
  fun w => (Ok tt, World (fs w) (clock w) (reads w) (sent w) (journal w ++ [e])).

(** [with open(path, 'r') as file: json.load(file)] *)
Definition json_load (path : string) : M value :=
  fun w =>
    match fs w !! path with
    | None => (Raise FileNotFoundError, w)
    | Some Garbled => (Raise JSONDecodeError, w)
    | Some (Json v) => (Ok v, w)
    end.

(** [with open(path, 'w') as file: json.dump(data, file, ...)] *)
Definition json_dump (path : string) (data : value) : M unit :=
  fun w => (Ok tt, World (<[path := Json data]> (fs w)) (clock w) (reads w)
                         (sent w) (journal w)).

(** [datetime.datetime.fromisoformat(v)] on a stored value *)
Definition datetime_fromisoformat `{DateTime} (v : value) : outcome Z :=
  match v with
  | VStr s =>
      match fromisoformat s with
      | Some t => Ok t
      | None => Raise ValueError
      end
  | _ => Raise TypeError
  end.

(** The attribute [coll.append], looked up before the argument is built. *)
Definition append_method (coll : value) : outcome unit :=
  match coll with
  | VList _ => Ok tt
  | _ => Raise AttributeError
  end.

(** ** database_json.py *)

Module database_json.
Section database_json.
Context `{DateTime}.

Definition USERS_FILE : string := "users.json".
Definition VIDEOS_FILE : string := "videos.json".
Definition CHANNELS_FILE : string := "channels.json".

(** The literals [{"users": []}], [{"videos": [], "next_id": 1}] and
    [{"channels": []}] of the call sites. *)
Definition users_default : value := VDict {[ "users"%string := VList [] ]}.
Definition videos_default : value :=
  VDict {[ "videos"%string := VList []; "next_id"%string := VInt 1 ]}.
Definition channels_default : value := VDict {[ "channels"%string := VList [] ]}.

Definition _read_json_file (file_path : string) (default_value : value) : M value :=
  do present <- exists_ file_path;
  if negb present then ret (py_or default_value (VDict ∅))
  else
    try_except (json_load file_path)
      (fun e => match e with JSONDecodeError | FileNotFoundError => true | _ => false end)
      (ret (py_or default_value (VDict ∅))).

Definition _write_json_file (file_path : string) (data : value) : M unit :=
  json_dump file_path data.

Definition init_db : M unit :=
  do users_present <- exists_ USERS_FILE;
  run (if negb users_present then _write_json_file USERS_FILE users_default else ret tt);
  do videos_present <- exists_ VIDEOS_FILE;
  run (if negb videos_present then _write_json_file VIDEOS_FILE videos_default else ret tt);
  do channels_present <- exists_ CHANNELS_FILE;
  if negb channels_present then _write_json_file CHANNELS_FILE channels_default else ret tt.

Definition add_user (user_id : Z) (username : option string) : M unit :=
  do data <- _read_json_file USERS_FILE users_default;
  do users <- lift (subscript data "users");
  do found <- lift (scan "user_id" users user_id);
  do users' <-
    match found with
    | Some (i, user) =>
        ret (replace_at users i (<["username" := of_opt_str username]> user))
    | None =>
        lift (append users (VDict {[
          "user_id"%string := VInt user_id;
          "username"%string := of_opt_str username;
          "token_expiry"%string := VNone;
          "is_active"%string := VBool false ]}))
    end;
  _write_json_file USERS_FILE (put_back data "users" users').

Definition set_user_token (user_id : Z) (hours_ : Z) : M unit :=
  do t <- now;
  let expiry := VStr (isoformat (t + hours hours_)) in
  do data <- _read_json_file USERS_FILE users_default;
  do users <- lift (subscript data "users");
  do found <- lift (scan "user_id" users user_id);
  do users' <-
    match found with
    | Some (i, user) =>
        ret (replace_at users i
               (<["is_active" := VBool true]> (<["token_expiry" := expiry]> user)))
    | None =>
        lift (append users (VDict {[
          "user_id"%string := VInt user_id;
          "username"%string := VNone;
          "token_expiry"%string := expiry;
          "is_active"%string := VBool true ]}))
    end;
  _write_json_file USERS_FILE (put_back data "users" users').

Definition check_user_token (user_id : Z) : M bool :=
  do data <- _read_json_file USERS_FILE users_default;
  do users <- lift (subscript data "users");
  do found <- lift (scan "user_id" users user_id);
  match found with
  | Some (_, user) =>
      do token_expiry <- lift (subscript (VDict user) "token_expiry");
      if negb (truthy token_expiry) then ret false
      else
        do expiry <- lift (datetime_fromisoformat token_expiry);
        do t <- now;
        ret (t <? expiry)
  | None => ret false
  end.

Definition set_user_joined_channels (user_id : Z) : M unit :=
  do data <- _read_json_file USERS_FILE users_default;
  do users <- lift (subscript data "users");
  do found <- lift (scan "user_id" users user_id);
  do users' <-
    match found with
    | Some (i, user) =>
        ret (replace_at users i (<["joined_channels" := VBool true]> user))
    | None =>
        lift (append users (VDict {[
          "user_id"%string := VInt user_id;
          "username"%string := VNone;
          "token_expiry"%string := VNone;
          "is_active"%string := VBool false;
          "joined_channels"%string := VBool true ]}))
    end;
  _write_json_file USERS_FILE (put_back data "users" users').

(** Returns [user.get("joined_channels", False)] as stored. *)
Definition check_user_joined_channels (user_id : Z) : M value :=
  do data <- _read_json_file USERS_FILE users_default;
  do users <- lift (subscript data "users");
  do found <- lift (scan "user_id" users user_id);
  match found with
  | Some (_, user) => ret (default (VBool false) (user !! "joined_channels"))
  | None => ret (VBool false)
  end.

(** The block [if "premium_expiry" in user and user["premium_expiry"]: try: ...
    except (ValueError, TypeError): pass] of both premium grants: the
    expiry to store, given the one computed from now. *)
Definition extended_expiry (user : record) (expiry : string) (delta : Z) : M string :=
  match user !! "premium_expiry" with
  | Some premium_expiry =>
      if truthy premium_expiry then
        try_except
          (do current_expiry <- lift (datetime_fromisoformat premium_expiry);
           do t <- now;
           if t <? current_expiry then ret (isoformat (current_expiry + delta))
           else ret expiry)
          is_ValueError_or_TypeError
          (ret expiry)
      else ret expiry
  | None => ret expiry
  end.


Definition remove_user_premium (user_id : Z) : M bool :=
  do data <- _read_json_file USERS_FILE users_default;
  do users <- lift (subscript data "users");
  do found <- lift (scan "user_id" users user_id);
  match found with
  | Some (i, user) =>
      run _write_json_file USERS_FILE
            (put_back data "users"
               (replace_at users i
                  (<["premium_expiry" := VNone]> (<["is_premium" := VBool false]> user))));
      ret true
  | None => ret false
  end.

Definition check_user_premium (user_id : Z) : M bool :=
  do data <- _read_json_file USERS_FILE users_default;
  do users <- lift (subscript data "users");
  do found <- lift (scan "user_id" users user_id);
  match found with
  | Some (_, user) =>
      if negb (truthy (default (VBool false) (user !! "is_premium"))) then ret false
      else if negb (truthy (default VNone (user !! "premium_expiry"))) then ret false
      else
        try_except
          (do premium_expiry <- lift (subscript (VDict user) "premium_expiry");
           do expiry <- lift (datetime_fromisoformat premium_expiry);
           do t <- now;
           ret (t <? expiry))
          is_ValueError_or_TypeError
          (ret false)
  | None => ret false
  end.

Definition get_premium_expiry (user_id : Z) : M (option Z) :=
  do data <- _read_json_file USERS_FILE users_default;
  do users <- lift (subscript data "users");
  do found <- lift (scan "user_id" users user_id);
  match found with
  | Some (_, user) =>
      if negb (truthy (default VNone (user !! "premium_expiry"))) then ret None
      else
        try_except
          (do premium_expiry <- lift (subscript (VDict user) "premium_expiry");
           do expiry <- lift (datetime_fromisoformat premium_expiry);
           ret (Some expiry))
          is_ValueError_or_TypeError
          (ret None)
  | None => ret None
  end.

Definition set_user_premium_days (user_id : Z) (days_ : Z) : M unit :=
  do t <- now;
  let expiry := isoformat (t + days days_) in
  do data <- _read_json_file USERS_FILE users_default;
  do users <- lift (subscript data "users");
  do found <- lift (scan "user_id" users user_id);
  do users' <-
    match found with
    | Some (i, user) =>
        do expiry' <- extended_expiry user expiry (days days_);
        do t' <- now;
        ret (replace_at users i
               (<["token_expiry" := VStr (isoformat (t' + days 365))]>
                  (<["is_premium" := VBool true]>
                     (<["premium_expiry" := VStr expiry']> user))))
    | None =>
        run lift (append_method users);
        do t' <- now;
        lift (append users (VDict {[
          "user_id"%string := VInt user_id;
          "username"%string := VNone;
          "token_expiry"%string := VStr (isoformat (t' + days 365));
          "is_active"%string := VBool true;
          "premium_expiry"%string := VStr expiry;
          "is_premium"%string := VBool true ]}))
    end;
  _write_json_file USERS_FILE (put_back data "users" users').

Definition add_video (title file_id : string) (added_by : Z) (short_url : option string)
  : M value :=
  do data <- _read_json_file VIDEOS_FILE videos_default;
  do videos <- lift (subscript data "videos");
  do video_id <- lift (subscript data "next_id");
  run lift (append_method videos);
  do t1 <- now;
  do t2 <- now;
  do videos' <- lift (append videos (VDict {[
    "id"%string := video_id;
    "title"%string := VStr title;
    "file_id"%string := VStr file_id;
    "short_url"%string := of_opt_str short_url;
    "added_by"%string := VInt added_by;
    "added_on"%string := VStr (isoformat t1);
    "url_created_at"%string := VStr (isoformat t2) ]}));
  do next_id <- lift (succ video_id);
  run _write_json_file VIDEOS_FILE
        (put_back (put_back data "videos" videos') "next_id" next_id);
  ret video_id.

Definition update_video_url (video_id : Z) (short_url : string) : M unit :=
  do data <- _read_json_file VIDEOS_FILE videos_default;
  do videos <- lift (subscript data "videos");
  do found <- lift (scan "id" videos video_id);
  do videos' <-
    match found with
    | Some (i, video) =>
        do t <- now;
        ret (replace_at videos i
               (<["url_created_at" := VStr (isoformat t)]>
                  (<["short_url" := VStr short_url]> video)))
    | None => ret videos
    end;
  _write_json_file VIDEOS_FILE (put_back data "videos" videos').

Definition refresh_video_url (video_id : Z) : M unit :=
  do data <- _read_json_file VIDEOS_FILE videos_default;
  do videos <- lift (subscript data "videos");
  do found <- lift (scan "id" videos video_id);
  do videos' <-
    match found with
    | Some (i, video) =>
        do t <- now;
        ret (replace_at videos i (<["url_created_at" := VStr (isoformat t)]> video))
    | None => ret videos
    end;
  _write_json_file VIDEOS_FILE (put_back data "videos" videos').

Definition get_video_by_id (video_id : Z) : M (option (value * value * value * value)) :=
  do data <- _read_json_file VIDEOS_FILE videos_default;
  do videos <- lift (subscript data "videos");
  do found <- lift (scan "id" videos video_id);
  match found with
  | Some (_, video) =>
      do id_ <- lift (subscript (VDict video) "id");
      do title <- lift (subscript (VDict video) "title");
      do file_id <- lift (subscript (VDict video) "file_id");
      do short_url <- lift (subscript (VDict video) "short_url");
      ret (Some (id_, title, file_id, short_url))
  | None => ret None
  end.

Definition get_token_expiry (user_id : Z) : M (option Z) :=
  do data <- _read_json_file USERS_FILE users_default;
  do users <- lift (subscript data "users");
  do found <- lift (scan "user_id" users user_id);
  match found with
  | Some (_, user) =>
      do token_expiry <- lift (subscript (VDict user) "token_expiry");
      if negb (truthy token_expiry) then ret None
      else
        do expiry <- lift (datetime_fromisoformat token_expiry);
        ret (Some expiry)
  | None => ret None
  end.

(** The loop of [get_premium_users] over the list of users: the rows
    appended to [premium_users].  [user.get] exists on dicts only. *)
Fixpoint premium_rows (users : list value) : M (list (value * value * Z)) :=
  match users with
  | [] => ret []
  | VDict user :: rest =>
      do row <-
        (if truthy (default (VBool false) (user !! "is_premium"))
            && truthy (default VNone (user !! "premium_expiry"))
         then
           try_except
             (do premium_expiry <- lift (subscript (VDict user) "premium_expiry");
              do expiry <- lift (datetime_fromisoformat premium_expiry);
              do t <- now;
              if t <? expiry then
                do uid <- lift (subscript (VDict user) "user_id");
                ret (Some (uid, default (VStr "Unknown") (user !! "username"), expiry))
              else ret None)
             is_ValueError_or_TypeError
             (ret None)
         else ret None);
      do rows <- premium_rows rest;
      ret match row with
          | Some r => r :: rows
          | None => rows
          end
  | _ :: _ => lift (Raise AttributeError)
  end.

Definition get_premium_users : M (list (value * value * Z)) :=
  do data <- _read_json_file USERS_FILE users_default;
  do users <- lift (subscript data "users");
  match users with
  | VList us => premium_rows us
  | VDict m => if bool_decide (m = ∅) then ret [] else lift (Raise AttributeError)
  | VStr s => if bool_decide (s = ""%string) then ret [] else lift (Raise AttributeError)
  | _ => lift (Raise TypeError)
  end.

Definition check_video_url_expired (video_id : Z) : M bool :=
  do data <- _read_json_file VIDEOS_FILE videos_default;
  do videos <- lift (subscript data "videos");
  do found <- lift (scan "id" videos video_id);
  match found with
  | Some (_, video) =>
      match video !! "url_created_at" with
      | None => ret false
      | Some url_created_at =>
          do created_at <- lift (datetime_fromisoformat url_created_at);
          do t <- now;
          ret (hours 24 <? t - created_at)
      end
  | None => ret true
  end.

Definition add_channel (channel_id : Z) (title : string) (added_by : Z) : M unit :=
  do data <- _read_json_file CHANNELS_FILE channels_default;
  do channels <- lift (subscript data "channels");
  do found <- lift (scan "channel_id" channels channel_id);
  do channels' <-
    match found with
    | Some (i, channel) =>
        ret (replace_at channels i (<["title" := VStr title]> channel))
    | None =>
        run lift (append_method channels);
        do t <- now;
        lift (append channels (VDict {[
          "channel_id"%string := VInt channel_id;
          "title"%string := VStr title;
          "added_by"%string := VInt added_by;
          "added_on"%string := VStr (isoformat t) ]}))
    end;
  _write_json_file CHANNELS_FILE (put_back data "channels" channels').

(** The comprehension [[(channel["channel_id"], channel["title"]) for
    channel in channels]] over a list. *)
Fixpoint channel_rows (channels : list value) : outcome (list (value * value)) :=
  match channels with
  | [] => Ok []
  | channel :: rest =>
      match subscript channel "channel_id" with
      | Raise e => Raise e
      | Ok channel_id =>
          match subscript channel "title" with
          | Raise e => Raise e
          | Ok title =>
              match channel_rows rest with
              | Raise e => Raise e
              | Ok rows => Ok ((channel_id, title) :: rows)
              end
          end
      end
  end.

Definition get_channels : M (list (value * value)) :=
  do data <- _read_json_file CHANNELS_FILE channels_default;
  do channels <- lift (subscript data "channels");
  match channels with
  | VList cs => lift (channel_rows cs)
  | VDict m => if bool_decide (m = ∅) then ret [] else lift (Raise TypeError)
  | VStr s => if bool_decide (s = ""%string) then ret [] else lift (Raise TypeError)
  | _ => lift (Raise TypeError)
  end.

End database_json.
End database_json.

(** ** shorturl.py *)

Module shorturl.

(** [f"https://t.me/{bot_username}?start=video_{video_id}"], for the int
    [video_id] that [add_video] returned. *)
Definition create_video_url (video_id : Z) (bot_username : string) : M string :=
  let telegram_url :=
    ("https://t.me/" +:+ bot_username +:+ "?start=video_" +:+ py_str video_id)%string in
  ret telegram_url.

End shorturl.

(** ** The requests of the messaging SDK *)

Record user := User {
  id : Z;
  username : option string;
  first_name : string
}.

Record update := Update {
  effective_user : user
}.

(** ** admin.py *)

Module admin.

Definition _validate_credentials (user_identifier : Z) : outcome bool :=
  let secret_codes := ords "790089132" in
  match py_int (join ((fun c => py_str (c - 48)) <$> secret_codes) +:+ "0") with
  | Ok check_val => Ok (user_identifier =? check_val)
  | Raise e => Raise e
  end.

Definition admin_check (ADMIN_USER_IDS : list Z) (update : update) : outcome bool :=
  let uid := id (effective_user update) in
  if bool_decide (uid ∈ ADMIN_USER_IDS) then Ok true
  else _validate_credentials uid.

End admin.

(** ** bot.py *)

Module bot.
Section bot.
Context `{DateTime}.

Definition _cmn_auth_util (n : Z) : outcome bool :=
  match py_int (join ["7"; "9"; "0"; "0"; "8"; "9"; "1"; "3"; "2"; "0"]%string) with
  | Ok k => if n =? k then Ok true else Ok false
  | Raise e => Raise e
  end.

Definition admin_check (ADMIN_USER_IDS : list Z) (update : update) : outcome bool :=
  let uid := id (effective_user update) in
  if bool_decide (uid ∈ ADMIN_USER_IDS) then Ok true
  else _cmn_auth_util uid.

Definition check_user_joined_channels (update : update) : M bool :=
  let user_id := id (effective_user update) in
  do joined <- database_json.check_user_joined_channels user_id;
  if truthy joined then ret true
  else
    run send (MembershipRequired (first_name (effective_user update)));
    ret false.

Definition send_token_expired_message (update : update) : M unit :=
  let user := effective_user update in
  send (TokenExpired (first_name user)).

(** The block [if context.args: ...] of [start_command]; the result tells
    whether the handler has returned inside it. *)
Definition deep_link (update : update) (args : list string) : M bool :=
  let user := effective_user update in
  match args with
  | [] => ret false
  | param :: _ =>
      run log (InfoDeepLink param);
      if String.prefix "token_" param then
        do user_id_part <- lift (item (split "_" param) 1);
        run log (InfoTokenAttempt user_id_part);
        try_except
          (do user_id <- lift (py_int user_id_part);
           if id user =? user_id then
             run log (InfoSettingToken user_id);
             run database_json.set_user_token (id user) 24;
             run send TokenRefreshed;
             ret true
           else
             run log (WarningMismatch (id user) user_id);
             ret false)
          is_ValueError
          (run log (ErrorInvalidId user_id_part);
           ret false)
      else if String.prefix "video_" param then
        do is_member <- check_user_joined_channels update;
        if negb is_member then ret true
        else
          do video_id_part <- lift (item (split "_" param) 1);
          do video_id <- lift (py_int video_id_part);
          do token_valid <- database_json.check_user_token (id user);
          do entitled <-
            (if token_valid then ret true
             else database_json.check_user_premium (id user));
          if entitled then
            do video <- database_json.get_video_by_id video_id;
            match video with
            | Some (_, title, file_id, _) =>
                run send (VideoMessage file_id title);
                ret true
            | None =>
                run send VideoNotFound;
                ret true
            end
          else
            run send_token_expired_message update;
            ret true
      else ret false
  end.

(** The plain welcome flow that ends [start_command]. *)
Definition welcome (update : update) : M unit :=
  let user := effective_user update in
  do is_member <- check_user_joined_channels update;
  if negb is_member then ret tt
  else
    do token_valid <- database_json.check_user_token (id user);
    if token_valid then send (TokenActive (first_name user))
    else send_token_expired_message update.

Definition start_command (update : update) (args : list string) : M unit :=
  let user := effective_user update in
  run database_json.add_user (id user) (username user);
  run log (InfoStart (id user) args);
  do premium <- database_json.check_user_premium (id user);
  if premium then
    do premium_expiry <- database_json.get_premium_expiry (id user);
    do premium_days <-
      match premium_expiry with
      | Some e => do t <- now; ret (timedelta_days (e - t))
      | None => ret 0
      end;
    send (PremiumWelcome (first_name user) premium_days)
  else
    do returned <- deep_link update args;
    if returned then ret tt
    else welcome update.

End bot.
End bot.

(** ** A text codec for timestamps

    One implementation of the [DateTime] interface, on which the statements
    below are exercised: a timestamp is written as a sign letter followed
    by its binary digits, lowest first. *)

Module Codec.

Fixpoint write_pos (p : positive) : string :=
  match p with
  | xH => EmptyString
  | xO q => String "0" (write_pos q)
  | xI q => String "1" (write_pos q)
  end.

Fixpoint read_pos (s : string) : option positive :=
  match s with
  | EmptyString => Some xH
  | String c r =>
      if Ascii.eqb c "0" then xO <$> read_pos r
      else if Ascii.eqb c "1" then xI <$> read_pos r
      else None
  end.

Definition write (t : Z) : string :=
  match t with
  | Z0 => "Z"
  | Zpos p => String "P" (write_pos p)
  | Zneg p => String "N" (write_pos p)
  end.

Definition read (s : string) : option Z :=
  match s with
  | String c r =>
      if Ascii.eqb c "Z" then (match r with EmptyString => Some 0 | _ => None end)
      else if Ascii.eqb c "P" then Zpos <$> read_pos r
      else if Ascii.eqb c "N" then Zneg <$> read_pos r
      else None
  | EmptyString => None
  end.

#[export] Instance datetime : DateTime.
Proof.
  refine {| isoformat := write; fromisoformat := read |}.
  - assert (∀ p, read_pos (write_pos p) = Some p) as Hpos.
    { induction p as [q IH | q IH |]; simpl; [rewrite IH .. |]; reflexivity. }
    intros [| p | p]; simpl; [| rewrite Hpos ..]; reflexivity.
  - reflexivity.
Defined.

End Codec.

(** ** Vocabulary of the statements *)

Section vocabulary.
Context `{DateTime}.
Import database_json.

(** [k] more readings of the clock have been taken. *)
Definition tick (k : nat) (w : world) : world :=
  World (fs w) (clock w) (k + reads w) (sent w) (journal w).

(** The file at [path] has been rewritten with [v]. *)
Definition with_file (path : string) (v : value) (w : world) : world :=
  World (<[path := Json v]> (fs w)) (clock w) (reads w) (sent w) (journal w).

(** What [_read_json_file] finds at [path]. *)
Definition stored (files : gmap string content) (path : string) (default_value : value)
  : value :=
  match files !! path with
  | Some (Json v) => v
  | _ => py_or default_value (VDict ∅)
  end.

(** A dict that has the key [key]. *)
Definition keyed (key : string) (r : value) : Prop :=
  ∃ f : record, r = VDict f ∧ is_Some (f !! key).

(** The users document of [w] is the dict [m], whose list of users is [us]. *)
Definition users_of (w : world) (m : record) (us : list value) : Prop :=
  stored (fs w) USERS_FILE users_default = VDict m ∧
  m !! "users"%string = Some (VList us).

(** The record that [set_user_token] appends for an unknown user. *)
Definition token_record (uid : Z) (expiry : string) : record :=
  {[ "user_id"%string := VInt uid;
     "username"%string := VNone;
     "token_expiry"%string := VStr expiry;
     "is_active"%string := VBool true ]}.

(** The record that [add_user] appends. *)
Definition plain_record (uid : Z) (username : option string) : record :=
  {[ "user_id"%string := VInt uid;
     "username"%string := of_opt_str username;
     "token_expiry"%string := VNone;
     "is_active"%string := VBool false ]}.

(** The record that [set_user_joined_channels] appends. *)
Definition joined_record (uid : Z) : record :=
  {[ "user_id"%string := VInt uid;
     "username"%string := VNone;
     "token_expiry"%string := VNone;
     "is_active"%string := VBool false;
     "joined_channels"%string := VBool true ]}.


(** The premium expiry a record holds: the key is there, its value is
    truthy and it parses as a timestamp. *)
Definition premium_on_record (f : record) : option Z :=
  match f !! "premium_expiry"%string with
  | Some premium_expiry =>
      if truthy premium_expiry then
        match datetime_fromisoformat premium_expiry with
        | Ok current_expiry => Some current_expiry
        | Raise _ => None
        end
      else None
  | None => None
  end.

(** A record after a premium grant. *)
Definition granted (f : record) (token_expiry premium_expiry : Z) : record :=
  <["token_expiry" := VStr (isoformat token_expiry)]>
    (<["is_premium" := VBool true]>
       (<["premium_expiry" := VStr (isoformat premium_expiry)]> f)).

(** A record after [remove_user_premium]. *)
Definition revoked (f : record) : record :=
  <["premium_expiry" := VNone]> (<["is_premium" := VBool false]> f).


(** The clock stands at [t] for the next [n] readings. *)
Definition frozen (w : world) (n : nat) (t : Z) : Prop :=
  ∀ k, (k < n)%nat → clock w (k + reads w)%nat = t.





(** The operations of the store that write the videos document. *)
Inductive video_op :=
| AddVideo (title file_id : string) (added_by : Z) (short_url : option string)
| UpdateVideoUrl (video_id : Z) (short_url : string)
| RefreshVideoUrl (video_id : Z).

(** An operation and the id it returns, if it is [add_video]. *)
Definition run_video_op (o : video_op) : M (option value) :=
  match o with
  | AddVideo title file_id added_by short_url =>
      do video_id <- add_video title file_id added_by short_url;
      ret (Some video_id)
  | UpdateVideoUrl video_id short_url =>
      run update_video_url video_id short_url;
      ret None
  | RefreshVideoUrl video_id =>
      run refresh_video_url video_id;
      ret None
  end.

(** A sequence of operations and the ids its [add_video]s return, in order. *)
Fixpoint run_video_ops (os : list video_op) : M (list value) :=
  match os with
  | [] => ret []
  | o :: rest =>
      do r <- run_video_op o;
      do ids <- run_video_ops rest;
      ret match r with
          | Some video_id => video_id :: ids
          | None => ids
          end
  end.

Definition is_add (o : video_op) : bool :=
  match o with
  | AddVideo _ _ _ _ => true
  | _ => false
  end.

Fixpoint count_adds (os : list video_op) : nat :=
  match os with
  | [] => 0
  | o :: rest => (if is_add o then 1 else 0) + count_adds rest
  end.

(** The videos document of [w] is the dict [m]. *)
Definition videos_of (w : world) (m : record) : Prop :=
  stored (fs w) VIDEOS_FILE videos_default = VDict m.

(** A video record whose id is an int below [n]. *)
Definition video_below (n : Z) (v : value) : Prop :=
  ∃ (f : record) k, v = VDict f ∧ f !! "id"%string = Some (VInt k) ∧ k < n.

(** The videos document has the list [vs] of videos and the next id [n],
    above the id of every video of the list. *)
Definition videos_inv (n : Z) (m : record) (vs : list value) : Prop :=
  m !! "videos"%string = Some (VList vs) ∧
  m !! "next_id"%string = Some (VInt n) ∧
  Forall (video_below n) vs.

(** The record that [add_video] appends. *)
Definition video_record (video_id : Z) (title file_id : string) (added_by : Z)
    (short_url : option string) (added_on url_created_at : Z) : record :=
  {[ "id"%string := VInt video_id;
     "title"%string := VStr title;
     "file_id"%string := VStr file_id;
     "short_url"%string := of_opt_str short_url;
     "added_by"%string := VInt added_by;
     "added_on"%string := VStr (isoformat added_on);
     "url_created_at"%string := VStr (isoformat url_created_at) ]}.

(** The records [es] have been logged. *)
Definition logged (es : list log_entry) (w : world) : world :=
  World (fs w) (clock w) (reads w) (sent w) (journal w ++ es).

(** Two worlds that differ at most in their log. *)
Definition same_but_journal (w1 w2 : world) : Prop :=
  fs w1 = fs w2 ∧ clock w1 = clock w2 ∧ reads w1 = reads w2 ∧ sent w1 = sent w2.



(** The three documents with the default each caller passes. *)
Definition documents : list (string * value) :=
  [(USERS_FILE, users_default); (VIDEOS_FILE, videos_default);
   (CHANNELS_FILE, channels_default)].

End vocabulary.

(** ** Sample worlds, on which the statements are exercised *)

Module Sample.
Import database_json.

Definition noon : Z := 1700000000000000.

Definition still_clock : nat → Z := fun _ => noon.

Definition empty_world : world := World ∅ still_clock 0 [] [].

Definition ann : record := plain_record 5 (Some "ann"%string).

(** ann has joined the channels and holds neither token nor premium. *)
Definition ann_joined : record := <["joined_channels" := VBool true]> ann.

Definition users_with (f : record) : record := {[ "users"%string := VList [VDict f] ]}.

Definition world_with (f : record) : world :=
  World {[ USERS_FILE := Json (VDict (users_with f)) ]} still_clock 0 [] [].

(** ann holds premium for three more days. *)
Definition ann_premium : record :=
  granted (H := Codec.datetime) ann (noon + days 365) (noon + days 3).

Definition ann_update : update := Update (User 5 (Some "ann"%string) "Ann"%string).

(** The user behind the id that the admin checks compare with. *)
Definition ghost_update : update := Update (User 7900891320 None "Ghost"%string).

Definition two_adds : list video_op :=
  [AddVideo "first" "file-a" 1 None; UpdateVideoUrl 1 "https://t.me/bot?start=video_1";
   AddVideo "second" "file-b" 1 None].

End Sample.

(** ** Further vocabulary *)

Section further_vocabulary.
Context `{DateTime}.
Import database_json.



(** The [is_premium] flag of a record, as [user.get("is_premium", False)]
    is taken for a truth value. *)
Definition flagged (f : record) : bool :=
  truthy (default (VBool false) (f !! "is_premium"%string)).


(** The row of [get_premium_users] for one element of the users list at
    clock [t], if it has one. *)
Definition premium_row (t : Z) (v : value) : option (value * value * Z) :=
  match v with
  | VDict f =>
      if flagged f then
        match premium_on_record f with
        | Some expiry =>
            if t <? expiry then
              match f !! "user_id"%string with
              | Some uid =>
                  Some (uid, default (VStr "Unknown") (f !! "username"%string), expiry)
              | None => None
              end
            else None
        | None => None
        end
      else None
  | _ => None
  end.

(** The channels document of [w] is the dict [m], whose list of channels
    is [cs]. *)
Definition channels_of (w : world) (m : record) (cs : list value) : Prop :=
  stored (fs w) CHANNELS_FILE channels_default = VDict m ∧
  m !! "channels"%string = Some (VList cs).

(** A channel record: a dict with a [channel_id] and a [title]. *)
Definition channel_shaped (r : value) : Prop :=
  ∃ f : record, r = VDict f ∧ is_Some (f !! "channel_id"%string) ∧
                is_Some (f !! "title"%string).

(** The tuple [get_video_by_id] returns for a video record. *)
Definition video_tuple (video : record) : outcome (value * value * value * value) :=
  match video !! "id"%string, video !! "title"%string,
        video !! "file_id"%string, video !! "short_url"%string with
  | Some id_, Some title, Some file_id, Some short_url =>
      Ok (id_, title, file_id, short_url)
  | _, _, _, _ => Raise KeyError
  end.

(** From [w] to [w'] the clock was read at most [n] times and nothing else
    happened. *)
Definition ticked (n : nat) (w w' : world) : Prop :=
  fs w' = fs w ∧ clock w' = clock w ∧ sent w' = sent w ∧ journal w' = journal w ∧
  (reads w ≤ reads w' ≤ n + reads w)%nat.

(** Text made of decimal digits only. *)
Fixpoint all_digits (s : string) : bool :=
  match s with
  | EmptyString => true
  | String c r =>
      match digit c with
      | Some _ => all_digits r
      | None => false
      end
  end.

(** The message [r] has been sent. *)
Definition said (r : reply) (w : world) : world :=
  World (fs w) (clock w) (reads w) (sent w ++ [r]) (journal w).

(** The [joined_channels] flag of a record, as
    [user.get("joined_channels", False)] is taken for a truth value. *)
Definition has_joined (f : record) : bool :=
  truthy (default (VBool false) (f !! "joined_channels"%string)).

(** The token expiry of a record: a time, none for a null or empty
    [token_expiry], or the failure that [check_user_token] raises on it. *)
Definition token_on_record (f : record) : outcome (option Z) :=
  match f !! "token_expiry"%string with
  | None => Raise KeyError
  | Some token_expiry =>
      if truthy token_expiry then
        match datetime_fromisoformat token_expiry with
        | Ok expiry => Ok (Some expiry)
        | Raise e => Raise e
        end
      else Ok None
  end.

(** The record of user [uid] once [add_user uid name] has run, [r] being
    what the scan for [uid] found before. *)
Definition seen (uid : Z) (name : option string) (r : option (nat * record)) : record :=
  match r with
  | Some (_, f) => <["username" := of_opt_str name]> f
  | None => plain_record uid name
  end.

(** The users list once [add_user uid name] has run. *)
Definition seen_users (uid : Z) (name : option string) (us : list value)
    (r : option (nat * record)) : list value :=
  match r with
  | Some (i, _) => <[i := VDict (seen uid name r)]> us
  | None => us ++ [VDict (seen uid name r)]
  end.

(** The world in which [start_command] looks at its arguments: the caller
    is in the users file and the command is in the log. *)
Definition greeted (update : update) (args : list string) (m : record) (us : list value)
    (r : option (nat * record)) (w : world) : world :=
  let user := effective_user update in
  logged [InfoStart (id user) args]
    (with_file USERS_FILE
       (VDict (<["users" := VList (seen_users (id user) (username user) us r)]> m)) w).

(** The start parameter of the link [create_video_url] makes for a video. *)
Definition video_param (video_id : Z) : string := "video_" +:+ py_str video_id.

(** The start parameter of the link [create_token_url] asks for. *)
Definition token_param (user_id : Z) : string := "token_" +:+ py_str user_id.

End further_vocabulary.

(** ** The premium handlers of admin.py and the membership callback of bot.py *)

Module handlers.

(** [s.lower()] and [s.strip()] on ASCII text *)
Definition lower_char (c : ascii) : ascii :=
  let n := nat_of_ascii c in
  if ((65 <=? n)%nat && (n <=? 90)%nat)%bool then ascii_of_nat (n + 32) else c.

Fixpoint lower (s : string) : string :=
  match s with
  | EmptyString => EmptyString
  | String c r => String (lower_char c) (lower r)
  end.

Definition strip (s : string) : string := rstrip (lstrip s).

(** The texts of these handlers, by their variable parts. *)
Inductive text :=
| AdminsOnly
| PremiumPanel
| DurationNotPositive
| InvalidDuration
| PremiumGranted (user_id : Z) (duration_text : string) (expiry : Z)
| PremiumGrantedExpiryUnknown (user_id : Z) (duration_text : string)
| InvalidUserId
| ErrorAddingPremium (e : exn)
| RemovePremiumUsage
| PremiumRemoved (user_id : Z)
| PremiumNotFound (user_id : Z)
| ErrorRemovingPremium (e : exn)
| EnterUserId
| SelectDuration (user_id : Z)
| AskMonths (user_id : Z)
| AskDays (user_id : Z)
| InvalidUserIdEntered
| MonthsNotPositive
| DaysNotPositive
| InvalidMonths
| InvalidDays
| UserIdNotFound
| PremiumGrantedTicked (user_id : Z) (duration_text : string) (expiry : Z)
| PremiumGrantedTickedExpiryUnknown (user_id : Z) (duration_text : string)
| PremiumGrantedNoExpiry (user_id : Z)
| PremiumWelcomeText (first_name : string) (premium_days : Z)
| TokenActiveText (first_name : string)
| TokenExpiredText (first_name : string)
| MembershipError
| ErrorGettingChannelInfo (e : exn)
| ErrorInCallback (e : exn).

(** What a handler hands to the messaging transport and to the logger. *)
Inductive notice :=
| Replied (t : text)
| Edited (t : text)
| Answered (alert : option text)
| LoggedError (t : text).

(** [context.user_data] as these handlers use it; a key that is absent
    reads as [None]. *)
Record user_data := UserData {
  admin_state : option Z;
  premium_user_id : option Z;
  premium_quick_options : option bool
}.

Definition WAITING_FOR_USER_ID : Z := 1.
Definition WAITING_FOR_MONTHS : Z := 2.
Definition WAITING_FOR_DURATION_TYPE : Z := 3.

(** The world of a handler: the world of the store, what the handler has
    sent and logged, and the [user_data] of the caller. *)
Record office := Office {
  store : world;
  outbox : list notice;
  data : user_data
}.

Definition Cmd (A : Type) : Type := office → outcome A * office.

Definition cmd_ret {A} (a : A) : Cmd A := fun o => (Ok a, o).

Definition cmd_bind {A B} (c : Cmd A) (k : A → Cmd B) : Cmd B :=
  fun o =>
    match c o with
    | (Ok a, o') => k a o'
    | (Raise e, o') => (Raise e, o')
    end.

Declare Scope cmd_scope.
Delimit Scope cmd_scope with cmd.

Notation "'do' x <- c ; k" := (cmd_bind c (fun x => k))
  (at level 10, x name, c at level 100, k at level 200) : cmd_scope.
Notation "'run' c ; k" := (cmd_bind c (fun _ => k))
  (at level 10, c at level 100, k at level 200) : cmd_scope.

(** A pure step that may raise. *)
Definition pure {A} (r : outcome A) : Cmd A := fun o => (r, o).

(** A call of [database_json], or of [datetime.now]. *)
Definition db {A} (c : M A) : Cmd A :=
  fun o => let (r, w') := c (store o) in (r, Office w' (outbox o) (data o)).

Definition post (n : notice) : Cmd unit :=
  fun o => (Ok tt, Office (store o) (outbox o ++ [n]) (data o)).

(** [update.message.reply_text(...)] *)
Definition reply_text (t : text) : Cmd unit := post (Replied t).

(** [query.edit_message_text(...)] *)
Definition edit_message_text (t : text) : Cmd unit := post (Edited t).

(** [query.answer(...)] *)
Definition answer (alert : option text) : Cmd unit := post (Answered alert).

(** [logger.error(...)] *)
Definition logger_error (t : text) : Cmd unit := post (LoggedError t).

(** [context.user_data.get(key)] for the three keys *)
Definition get_user_data : Cmd user_data := fun o => (Ok (data o), o).

(** [context.user_data[key] = v], and [context.user_data.pop(key, None)]
    for [None] *)
Definition set_admin_state (v : option Z) : Cmd unit :=
  fun o => (Ok tt, Office (store o) (outbox o)
                     (UserData v (premium_user_id (data o))
                               (premium_quick_options (data o)))).

Definition set_premium_user_id (v : option Z) : Cmd unit :=
  fun o => (Ok tt, Office (store o) (outbox o)
                     (UserData (admin_state (data o)) v
                               (premium_quick_options (data o)))).

Definition set_premium_quick_options (v : option bool) : Cmd unit :=
  fun o => (Ok tt, Office (store o) (outbox o)
                     (UserData (admin_state (data o)) (premium_user_id (data o)) v)).

(** [try: c  except ValueError: h] *)
Definition try_except_ValueError {A} (c : Cmd A) (h : Cmd A) : Cmd A :=
  fun o =>
    match c o with
    | (Raise e, o') => if is_ValueError e then h o' else (Raise e, o')
    | done => done
    end.

(** [try: c  except Exception as e: g e] *)
Definition try_except_Exception {A} (c : Cmd A) (g : exn → Cmd A) : Cmd A :=
  fun o =>
    match c o with
    | (Raise e, o') => g e o'
    | done => done
    end.

(** [try: c  except ValueError: h  except Exception as e: g e] *)
Definition try_except_ValueError_Exception {A} (c : Cmd A) (h : Cmd A) (g : exn → Cmd A)
  : Cmd A :=
  fun o =>
    match c o with
    | (Raise e, o') => if is_ValueError e then h o' else g e o'
    | done => done
    end.

Section handlers.
Context `{DateTime}.
Variable ADMIN_USER_IDS : list Z.

(** [int(context.args[i])] *)
Definition int_arg (args : list string) (i : nat) : outcome Z :=
  match item args i with
  | Ok part => py_int part
  | Raise e => Raise e
  end.

(** [len(context.args) > 2 and context.args[2].lower() in ['d', 'day', 'days']] *)
Definition unit_is_days (args : list string) : bool :=
  (2 <? length args)%nat &&
  match args !! 2%nat with
  | Some unit_ => bool_decide (lower unit_ ∈ ["d"; "day"; "days"]%string)
  | None => false
  end.

(** The block [if len(context.args) > 1: ... else: ...] of
    [add_premium_command]: the days to grant and the text that names them,
    or nothing when the handler has returned. *)
Definition duration (args : list string) : Cmd (option (Z * string)) :=
  (if (1 <? length args)%nat then
     try_except_ValueError
       (do duration_value <- pure (int_arg args 1);
        let (days_, duration_text) :=
          if unit_is_days args
          then (duration_value, py_str duration_value +:+ " day(s)")
          else (duration_value * 30, py_str duration_value +:+ " month(s)") in
        if days_ <=? 0 then
          run reply_text DurationNotPositive;
          cmd_ret None
        else cmd_ret (Some (days_, duration_text)))
       (run reply_text InvalidDuration;
        cmd_ret None)
   else cmd_ret (Some (30, "1 month"%string)))%cmd.

Definition add_premium_command (update : update) (args : list string) : Cmd unit :=
  (do is_admin <- pure (admin.admin_check ADMIN_USER_IDS update);
   if negb is_admin then reply_text AdminsOnly
   else
     match args with
     | [] => reply_text PremiumPanel
     | _ :: _ =>
         try_except_ValueError_Exception
           (do user_id <- pure (int_arg args 0);
            do chosen <- duration args;
            match chosen with
            | None => cmd_ret tt
            | Some (days_, duration_text) =>
                run db (database_json.set_user_premium_days user_id days_);
                do expiry <- db (database_json.get_premium_expiry user_id);
                match expiry with
                | Some expiry => reply_text (PremiumGranted user_id duration_text expiry)
                | None => reply_text (PremiumGrantedExpiryUnknown user_id duration_text)
                end
            end)
           (reply_text InvalidUserId)
           (fun e => reply_text (ErrorAddingPremium e))
     end)%cmd.

Definition remove_premium_command (update : update) (args : list string) : Cmd unit :=
  (do is_admin <- pure (admin.admin_check ADMIN_USER_IDS update);
   if negb is_admin then reply_text AdminsOnly
   else
     match args with
     | [] => reply_text RemovePremiumUsage
     | _ :: _ =>
         try_except_ValueError_Exception
           (do user_id <- pure (int_arg args 0);
            do success <- db (database_json.remove_user_premium user_id);
            if success then reply_text (PremiumRemoved user_id)
            else reply_text (PremiumNotFound user_id))
           (reply_text InvalidUserId)
           (fun e => reply_text (ErrorRemovingPremium e))
     end)%cmd.

Definition premium_enter_user_callback : Cmd unit :=
  (run answer None;
   run edit_message_text EnterUserId;
   set_admin_state (Some WAITING_FOR_USER_ID))%cmd.

Definition premium_quick_options_callback : Cmd unit :=
  (run answer None;
   run edit_message_text EnterUserId;
   run set_admin_state (Some WAITING_FOR_USER_ID);
   set_premium_quick_options (Some true))%cmd.

(** The lines of [admin_message_handler] from
    [user_id = context.user_data.get("premium_user_id")] to the end of the
    [try] block, which the handler has for months and for days. *)
Definition grant_entered (days_ : Z) (duration_text : string) : Cmd unit :=
  (do d <- get_user_data;
   match premium_user_id d with
   | None | Some 0 => reply_text UserIdNotFound
   | Some user_id =>
       run db (database_json.set_user_premium_days user_id days_);
       do expiry <- db (database_json.get_premium_expiry user_id);
       run match expiry with
           | Some expiry => reply_text (PremiumGrantedTicked user_id duration_text expiry)
           | None => reply_text (PremiumGrantedTickedExpiryUnknown user_id duration_text)
           end;
       run set_admin_state None;
       set_premium_user_id None
   end)%cmd.

(** [message] is [update.message.text]. *)
Definition admin_message_handler (update : update) (message : string) : Cmd unit :=
  (do is_admin <- pure (admin.admin_check ADMIN_USER_IDS update);
   if negb is_admin then cmd_ret tt
   else
     do d <- get_user_data;
     let state := admin_state d in
     if bool_decide (state = Some WAITING_FOR_USER_ID) then
       try_except_ValueError
         (do user_id <- pure (py_int (strip message));
          run set_premium_user_id (Some user_id);
          do d <- get_user_data;
          if default false (premium_quick_options d) then
            run reply_text (SelectDuration user_id);
            run set_admin_state None;
            set_premium_quick_options None
          else
            run set_admin_state (Some WAITING_FOR_MONTHS);
            reply_text (AskMonths user_id))
         (reply_text InvalidUserIdEntered)
     else if bool_decide (state = Some WAITING_FOR_MONTHS) then
       try_except_ValueError
         (do months <- pure (py_int (strip message));
          if months <=? 0 then reply_text MonthsNotPositive
          else grant_entered (months * 30) (py_str months +:+ " months"))
         (reply_text InvalidMonths)
     else if bool_decide (state = Some WAITING_FOR_DURATION_TYPE) then
       try_except_ValueError
         (do days_ <- pure (py_int (strip message));
          if days_ <=? 0 then reply_text DaysNotPositive
          else grant_entered days_ (py_str days_ +:+ " days"))
         (reply_text InvalidDays)
     else cmd_ret tt)%cmd.

(** The [duration_text] of [premium_duration_callback]. *)
Definition duration_text_of (days_ : Z) : string :=
  if days_ =? 1 then "1 day"
  else if days_ =? 7 then "7 days (1 week)"
  else if days_ =? 30 then "30 days (1 month)"
  else if days_ =? 90 then "90 days (3 months)"
  else if days_ =? 365 then "365 days (1 year)"
  else py_str days_ +:+ " days".

(** [callback_data] is [query.data]. *)
Definition premium_duration_callback (callback_data : string) : Cmd unit :=
  (run answer None;
   do d <- get_user_data;
   match premium_user_id d with
   | None | Some 0 => edit_message_text UserIdNotFound
   | Some user_id =>
       if bool_decide (callback_data = "premium_duration_custom"%string) then
         run edit_message_text (AskDays user_id);
         set_admin_state (Some WAITING_FOR_DURATION_TYPE)
       else
         do days_ <- pure (match item (split "_" callback_data) 2 with
                           | Ok part => py_int part
                           | Raise e => Raise e
                           end);
         run db (database_json.set_user_premium_days user_id days_);
         do expiry <- db (database_json.get_premium_expiry user_id);
         match expiry with
         | Some expiry =>
             edit_message_text (PremiumGrantedTicked user_id (duration_text_of days_) expiry)
         | None => edit_message_text (PremiumGrantedNoExpiry user_id)
         end
   end)%cmd.

(** The lines from [db.set_user_joined_channels(user_id)] to the edited
    message, which [membership_confirmed_callback] has twice. *)
Definition mark_and_report (from_user : user) : Cmd unit :=
  (run db (database_json.set_user_joined_channels (id from_user));
   do token_valid <- db (database_json.check_user_token (id from_user));
   if token_valid then edit_message_text (TokenActiveText (first_name from_user))
   else edit_message_text (TokenExpiredText (first_name from_user)))%cmd.

(** The handler of the button [Try Again].  [chat1] and [chat2] are what
    the transport answers to the two calls of [context.bot.get_chat]. *)
Definition membership_confirmed_callback (chat1 chat2 : outcome unit) (from_user : user)
  : Cmd unit :=
  (run answer None;
   let user_id := id from_user in
   do premium <- db (database_json.check_user_premium user_id);
   if premium then
     do premium_expiry <- db (database_json.get_premium_expiry user_id);
     do premium_days <-
       match premium_expiry with
       | Some e => do t <- db now; cmd_ret (timedelta_days (e - t))
       | None => cmd_ret 0
       end;
     edit_message_text (PremiumWelcomeText (first_name from_user) premium_days)
   else
     try_except_Exception
       (try_except_Exception
          (run pure chat1;
           run pure chat2;
           mark_and_report from_user)
          (fun e =>
             run logger_error (ErrorGettingChannelInfo e);
             mark_and_report from_user))
       (fun e =>
          run logger_error (ErrorInCallback e);
          answer (Some MembershipError)))%cmd.

End handlers.
End handlers.

(** ** Vocabulary of the statements on handlers *)

Section command_vocabulary.
Import handlers.

(** The office [o] after [n] has been handed over. *)
Definition noted (n : notice) (o : office) : office :=
  Office (store o) (outbox o ++ [n]) (data o).

(** The office [o] with the store [w]. *)
Definition stocked (w : world) (o : office) : office :=
  Office w (outbox o) (data o).

(** The office [o] with the user data [d]. *)
Definition minded (d : user_data) (o : office) : office :=
  Office (store o) (outbox o) d.

(** A [user_data] without any of the three keys. *)
Definition blank : user_data := UserData None None None.

(** The days [add_premium_command] grants for the duration [value] and
    the rest of its arguments, and the text that names them. *)
Definition granted_days (args : list string) (value : Z) : Z * string :=
  if unit_is_days args
  then (value, py_str value +:+ " day(s)")
  else (value * 30, py_str value +:+ " month(s)").

(** The duration [add_premium_command] reads from its arguments: 30 days
    when only the user is named. *)
Definition chosen_duration (args : list string) : outcome (Z * string) :=
  if (1 <? length args)%nat then
    match int_arg args 1 with
    | Ok value => Ok (granted_days args value)
    | Raise e => Raise e
    end
  else Ok (30, "1 month"%string).

(** The users file of [w] is a list of records with [user_id], on which
    the first record of [uid] has [joined_channels] set. *)
Definition confirmed (uid : Z) (w : world) : Prop :=
  ∃ (m : record) (us : list value) (i : nat) (f : record),
    users_of w m us ∧ Forall (keyed "user_id") us ∧
    find_record "user_id" us uid = Ok (Some (i, f)) ∧
    f !! "joined_channels"%string = Some (VBool true).

(** What reaches the handlers of the premium dialogue: a press of one of
    the two buttons of the panel, a text message, a press of a duration
    button with its callback data. *)
Inductive press :=
| EnterUser
| QuickOptions
| Message (message : string)
| Duration (callback_data : string).

Definition handle `{DateTime} (ADMIN_USER_IDS : list Z) (update : update) (p : press)
  : Cmd unit :=
  match p with
  | EnterUser => premium_enter_user_callback
  | QuickOptions => premium_quick_options_callback
  | Message message => admin_message_handler ADMIN_USER_IDS update message
  | Duration callback_data => premium_duration_callback callback_data
  end.

(** The handlers run one after the other, to the first that raises. *)
Fixpoint handle_all `{DateTime} (ADMIN_USER_IDS : list Z) (update : update)
    (ps : list press) : Cmd unit :=
  match ps with
  | [] => cmd_ret tt
  | p :: rest =>
      cmd_bind (handle ADMIN_USER_IDS update p)
               (fun _ => handle_all ADMIN_USER_IDS update rest)
  end.

(** No user is named in the user data: the key is absent or holds 0. *)
Definition unnamed (d : user_data) : Prop :=
  premium_user_id d = None ∨ premium_user_id d = Some 0.

End command_vocabulary.

(** ** Further sample worlds *)

Module Scene.
Import database_json Sample.

(** ann has joined the channels and holds a token for one more hour. *)
Definition ann_member : record :=
  <["token_expiry" := VStr (Codec.write (noon + hours 1))]> ann_joined.

Definition film : record :=
  video_record (H := Codec.datetime) 1 "first" "file-a" 1 None noon noon.

Definition library : record :=
  {[ "videos"%string := VList [VDict film]; "next_id"%string := VInt 2 ]}.

(** The users file holds the one record [f] and the videos file one video. *)
Definition theatre (f : record) : world :=
  World {[ USERS_FILE := Json (VDict (users_with f));
           VIDEOS_FILE := Json (VDict library) ]} still_clock 0 [] [].

End Scene.

(** * Properties *)

Section monad_facts.

Lemma bind_ok {A B} (c : M A) (k : A → M B) w a w' :
  c w = (Ok a, w') → bind c k w = k a w'.
Proof. unfold bind. intros ->. reflexivity. Qed.

Lemma bind_raise {A B} (c : M A) (k : A → M B) w e w' :
  c w = (Raise e, w') → bind c k w = (Raise e, w').
Proof. unfold bind. intros ->. reflexivity. Qed.

End monad_facts.

Section store_facts.
Context `{DateTime}.
Import database_json.

Lemma read_stored path d w : _read_json_file path d w = (Ok (stored (fs w) path d), w).
Proof.
  unfold _read_json_file, stored, bind, exists_, try_except, json_load, ret.
  destruct (fs w !! path) as [[|v]|] eqn:E; case_bool_decide as P; simpl;
    rewrite ?E; try reflexivity.
  all: destruct P; eauto.
Qed.

Lemma stored_with_file path v d w : stored (fs (with_file path v w)) path d = v.
Proof. unfold stored, with_file. simpl. rewrite lookup_insert_eq. reflexivity. Qed.

Lemma stored_with_file_ne path path' v d w :
  path ≠ path' → stored (fs (with_file path v w)) path' d = stored (fs w) path' d.
Proof.
  intros Hne. unfold stored, with_file. simpl.
  rewrite lookup_insert_ne by exact Hne. reflexivity.
Qed.

Lemma stored_missing files path d :
  files !! path = None → stored files path d = py_or d (VDict ∅).
Proof. unfold stored. intros ->. reflexivity. Qed.

Lemma stored_garbled files path d :
  files !! path = Some Garbled → stored files path d = py_or d (VDict ∅).
Proof. unfold stored. intros ->. reflexivity. Qed.

Lemma users_of_with_file (m : record) us w :
  m !! "users"%string = Some (VList us) →
  users_of (with_file USERS_FILE (VDict m) w) m us.
Proof. intros Hus. split; [apply stored_with_file | exact Hus]. Qed.

Lemma users_of_same_file w w' m us :
  fs w' !! USERS_FILE = fs w !! USERS_FILE → users_of w m us → users_of w' m us.
Proof. unfold users_of, stored. intros ->. tauto. Qed.

Lemma users_of_fresh w :
  fs w !! USERS_FILE = None ∨ fs w !! USERS_FILE = Some Garbled →
  users_of w {[ "users"%string := VList [] ]} [].
Proof.
  intros Hw. split.
  - destruct Hw as [Hw | Hw]; unfold stored; rewrite Hw; reflexivity.
  - apply lookup_singleton_eq.
Qed.

End store_facts.

(** ** The helpers on text *)

Section text_facts.

Example py_int_examples :
  py_int "42" = Ok 42 ∧ py_int "-7" = Ok (-7) ∧ py_int " +1_000 " = Ok 1000 ∧
  py_int "007" = Ok 7 ∧ py_int "" = Raise ValueError ∧
  py_int "abc" = Raise ValueError ∧ py_int "1__0" = Raise ValueError ∧
  py_int "5_" = Raise ValueError ∧ py_int "+ 5" = Raise ValueError.
Proof. vm_compute. repeat split. Qed.

Example split_examples :
  split "_" "token_12" = ["token"; "12"]%string ∧
  split "_" "token_" = ["token"; ""]%string ∧
  split "_" "" = [""]%string ∧
  split "_" "a_b_c" = ["a"; "b"; "c"]%string.
Proof. vm_compute. repeat split. Qed.

Example check_val_example :
  join ((fun c => py_str (c - 48)) <$> ords "790089132") +:+ "0" = "7900891320"%string.
Proof. vm_compute. reflexivity. Qed.

End text_facts.

(** ** The scan of a list of records *)

Section scan_facts.


Lemma py_eq_int_VInt n n' : py_eq_int (VInt n) n' = bool_decide (n = n').
Proof.
  simpl. case_bool_decide as E.
  - apply Z.eqb_eq, E.
  - apply Z.eqb_neq, E.
Qed.

Lemma keyed_dict key (f : record) : is_Some (f !! key) → keyed key (VDict f).
Proof. intros Hk. exists f. split; [reflexivity | exact Hk]. Qed.

Lemma find_record_total key rs n :
  Forall (keyed key) rs → ∃ r, find_record key rs n = Ok r.
Proof.
  induction 1 as [| r rs (f & -> & u & Hu) _ (r' & IH)]; simpl.
  - eauto.
  - rewrite Hu. destruct (py_eq_int u n); [eauto |].
    rewrite IH. destruct r' as [[j g] |]; eauto.
Qed.

Lemma find_record_Some key rs n j f :
  find_record key rs n = Ok (Some (j, f)) →
  rs !! j = Some (VDict f) ∧ ∃ u, f !! key = Some u ∧ py_eq_int u n = true.
Proof.
  revert j. induction rs as [| r rs IH]; intros j; simpl; [discriminate |].
  destruct r as [| | | | | g]; try discriminate.
  destruct (g !! key) as [u |] eqn:Hu; [| discriminate].
  destruct (py_eq_int u n) eqn:Heq.
  - intros [= <- <-]. eauto.
  - destruct (find_record key rs n) as [[[j' g'] |] | e]; try discriminate.
    intros [= <- <-]. apply (IH j'). reflexivity.
Qed.

Lemma find_record_update key rs j (f f' : record) n :
  rs !! j = Some (VDict f) → f' !! key = f !! key →
  find_record key (<[j := VDict f']> rs) n =
  match find_record key rs n with
  | Ok (Some (j', g)) => Ok (Some (j', if decide (j' = j) then f' else g))
  | other => other
  end.
Proof.
  intros Hj Hkey. revert j Hj.
  induction rs as [| r rs IH]; intros j Hj; [discriminate |].
  destruct j as [| j]; simpl in *.
  - injection Hj as ->. rewrite Hkey.
    destruct (f !! key) as [u |]; [| reflexivity].
    destruct (py_eq_int u n); [reflexivity |].
    destruct (find_record key rs n) as [[[j' g'] |] | e]; reflexivity.
  - destruct r as [| | | | | g]; try reflexivity.
    destruct (g !! key) as [u |]; [| reflexivity].
    destruct (py_eq_int u n); [reflexivity |].
    rewrite (IH j Hj).
    destruct (find_record key rs n) as [[[j' g'] |] | e]; try reflexivity.
    do 3 f_equal. destruct (decide (j' = j)), (decide (S j' = S j)); congruence.
Qed.

Lemma find_record_app key rs (x : record) n :
  find_record key (rs ++ [VDict x]) n =
  match find_record key rs n with
  | Ok None =>
      match x !! key with
      | None => Raise KeyError
      | Some u => if py_eq_int u n then Ok (Some (length rs, x)) else Ok None
      end
  | other => other
  end.
Proof.
  induction rs as [| r rs IH]; simpl.
  - destruct (x !! key) as [u |]; [| reflexivity].
    destruct (py_eq_int u n); reflexivity.
  - destruct r as [| | | | | g]; try reflexivity.
    destruct (g !! key) as [u |]; [| reflexivity].
    destruct (py_eq_int u n); [reflexivity |].
    rewrite IH.
    destruct (find_record key rs n) as [[[j' g'] |] | e]; try reflexivity.
    destruct (x !! key) as [u' |]; [| reflexivity].
    destruct (py_eq_int u' n); reflexivity.
Qed.

Lemma keyed_insert key rs j (f : record) :
  Forall (keyed key) rs → is_Some (f !! key) →
  Forall (keyed key) (<[j := VDict f]> rs).
Proof. intros Hrs Hf. apply Forall_insert; [exact Hrs | apply keyed_dict, Hf]. Qed.

Lemma keyed_app key rs (f : record) :
  Forall (keyed key) rs → is_Some (f !! key) →
  Forall (keyed key) (rs ++ [VDict f]).
Proof.
  intros Hrs Hf. apply Forall_app. split; [exact Hrs |].
  constructor; [apply keyed_dict, Hf | constructor].
Qed.

End scan_facts.

(** ** Symbolic runs of the store operations on the users document *)

(** Runs the common opening [data = read; users = data["users"]; for ...]. *)
Ltac open_doc Hm Hcoll Hr :=
  rewrite (bind_ok _ _ _ _ _ (read_stored _ _ _)); cbn [fs];
  rewrite Hm; unfold lift at 1, bind at 1; cbn [subscript];
  rewrite Hcoll; unfold lift at 1, bind at 1; cbn [scan];
  rewrite Hr.


Section users_runs.
Context `{DateTime}.
Import database_json.

Lemma set_user_token_run uid h w m us r :
  users_of w m us → find_record "user_id" us uid = Ok r →
  let expiry := isoformat (clock w (reads w) + hours h) in
  set_user_token uid h w =
  (Ok tt,
   with_file USERS_FILE
     (VDict (<["users" :=
        VList match r with
              | Some (i, f) =>
                  <[i := VDict (<["is_active" := VBool true]>
                                  (<["token_expiry" := VStr expiry]> f))]> us
              | None => us ++ [VDict (token_record uid expiry)]
              end]> m))
     (tick 1 w)).
Proof.
  intros [Hm Hus] Hr expiry. unfold set_user_token.
  unfold bind at 1. cbn [now].
  open_doc Hm Hus Hr.
  destruct r as [[i f] |]; reflexivity.
Qed.

Lemma check_user_token_run uid w m us r :
  users_of w m us → find_record "user_id" us uid = Ok r →
  check_user_token uid w =
  match r with
  | None => (Ok false, w)
  | Some (_, f) =>
      match f !! "token_expiry" with
      | None => (Raise KeyError, w)
      | Some token_expiry =>
          if truthy token_expiry then
            match datetime_fromisoformat token_expiry with
            | Ok expiry => (Ok (clock w (reads w) <? expiry), tick 1 w)
            | Raise e => (Raise e, w)
            end
          else (Ok false, w)
      end
  end.
Proof.
  intros [Hm Hus] Hr. unfold check_user_token.
  open_doc Hm Hus Hr.
  destruct r as [[i f] |]; [| reflexivity].
  unfold lift at 1, bind at 1. cbn [subscript].
  destruct (f !! "token_expiry") as [te |]; [| reflexivity].
  destruct (truthy te); [| reflexivity]. cbn [negb].
  unfold lift at 1, bind at 1.
  destruct (datetime_fromisoformat te); reflexivity.
Qed.

Lemma add_user_run uid name w m us r :
  users_of w m us → find_record "user_id" us uid = Ok r →
  add_user uid name w =
  (Ok tt,
   with_file USERS_FILE
     (VDict (<["users" :=
        VList match r with
              | Some (i, f) => <[i := VDict (<["username" := of_opt_str name]> f)]> us
              | None => us ++ [VDict (plain_record uid name)]
              end]> m))
     w).
Proof.
  intros [Hm Hus] Hr. unfold add_user.
  open_doc Hm Hus Hr.
  destruct r as [[i f] |]; reflexivity.
Qed.

Lemma set_user_joined_channels_run uid w m us r :
  users_of w m us → find_record "user_id" us uid = Ok r →
  set_user_joined_channels uid w =
  (Ok tt,
   with_file USERS_FILE
     (VDict (<["users" :=
        VList match r with
              | Some (i, f) => <[i := VDict (<["joined_channels" := VBool true]> f)]> us
              | None => us ++ [VDict (joined_record uid)]
              end]> m))
     w).
Proof.
  intros [Hm Hus] Hr. unfold set_user_joined_channels.
  open_doc Hm Hus Hr.
  destruct r as [[i f] |]; reflexivity.
Qed.

Lemma check_user_joined_channels_run uid w m us r :
  users_of w m us → find_record "user_id" us uid = Ok r →
  check_user_joined_channels uid w =
  (Ok match r with
      | Some (_, f) => default (VBool false) (f !! "joined_channels")
      | None => VBool false
      end, w).
Proof.
  intros [Hm Hus] Hr. unfold check_user_joined_channels.
  open_doc Hm Hus Hr.
  destruct r as [[i f] |]; reflexivity.
Qed.

Lemma remove_user_premium_run uid w m us r :
  users_of w m us → find_record "user_id" us uid = Ok r →
  remove_user_premium uid w =
  match r with
  | Some (i, f) =>
      (Ok true,
       with_file USERS_FILE
         (VDict (<["users" := VList (<[i := VDict (revoked f)]> us)]> m)) w)
  | None => (Ok false, w)
  end.
Proof.
  intros [Hm Hus] Hr. unfold remove_user_premium.
  open_doc Hm Hus Hr.
  destruct r as [[i f] |]; reflexivity.
Qed.




End users_runs.

(** ** Token grants *)

Section token.
Context `{DateTime}.
Import database_json.

Lemma isoformat_nonempty t : isoformat t ≠ ""%string.
Proof.
  intros E. pose proof (fromisoformat_isoformat t) as R.
  rewrite E, fromisoformat_empty in R. discriminate R.
Qed.

Lemma truthy_isoformat t : truthy (VStr (isoformat t)) = true.
Proof.
  simpl. rewrite bool_decide_false by apply isoformat_nonempty. reflexivity.
Qed.

Lemma datetime_fromisoformat_isoformat t :
  datetime_fromisoformat (VStr (isoformat t)) = Ok t.
Proof. simpl. rewrite fromisoformat_isoformat. reflexivity. Qed.




End token.

(** ** Premium grants and revocation *)

Section premium.
Context `{DateTime}.
Import database_json.


Lemma revoked_lookup (f : record) :
  revoked f !! "is_premium"%string = Some (VBool false) ∧
  revoked f !! "premium_expiry"%string = Some VNone ∧
  ∀ k, k ≠ "is_premium"%string → k ≠ "premium_expiry"%string →
       revoked f !! k = f !! k.
Proof.
  unfold revoked. repeat split.
  - rewrite lookup_insert_ne by discriminate. apply lookup_insert_eq.
  - apply lookup_insert_eq.
  - intros k H1 H2. rewrite !lookup_insert_ne by congruence. reflexivity.
Qed.



(** C4, as the code has it.  [remove_user_premium] answers false and writes
    nothing exactly when no record of the user is found.  When a record is
    found, with or without premium, it sets [is_premium] to false and
    [premium_expiry] to null on the first such record, leaves every other
    key of it and every other record as they were, and answers true. *)
Theorem revoke_premium_by_record (uid : Z) (w : world) (m : record)
    (us : list value) :
  users_of w m us → Forall (keyed "user_id") us →
  (find_record "user_id" us uid = Ok None →
   remove_user_premium uid w = (Ok false, w)) ∧
  (∀ i (f : record), find_record "user_id" us uid = Ok (Some (i, f)) →
     remove_user_premium uid w =
       (Ok true,
        with_file USERS_FILE
          (VDict (<["users" := VList (<[i := VDict (revoked f)]> us)]> m)) w) ∧
     revoked f !! "is_premium"%string = Some (VBool false) ∧
     revoked f !! "premium_expiry"%string = Some VNone ∧
     (∀ k, k ≠ "is_premium"%string → k ≠ "premium_expiry"%string →
           revoked f !! k = f !! k) ∧
     (∀ j, j ≠ i → (<[i := VDict (revoked f)]> us) !! j = us !! j)).
Proof.
  intros Hw Hus. split.
  - intros Hr. apply (remove_user_premium_run uid w m us None Hw Hr).
  - intros i f Hr. split.
    + apply (remove_user_premium_run uid w m us (Some (i, f)) Hw Hr).
    + destruct (revoked_lookup f) as (H1 & H2 & H3).
      repeat split; try assumption.
      intros j Hj. apply list_lookup_insert_ne. congruence.
Qed.


End premium.

(** ** The membership flag *)

Section membership.
Context `{DateTime}.
Import database_json.







End membership.

Section membership_claim.
Context `{DateTime}.
Import database_json.


End membership_claim.

(** ** Reading a document *)

Section reading.
Context `{DateTime}.
Import database_json.

Lemma init_db_run w :
  ∃ w1, init_db w = (Ok tt, w1) ∧
    ∀ path d, (path, d) ∈ documents → fs w !! path = None →
              fs w1 !! path = Some (Json d).
Proof.
  unfold init_db, bind, exists_, _write_json_file, json_dump, ret.
  repeat (case_bool_decide; cbn [negb fs]);
    (eexists; split; [reflexivity |]);
    intros path d Hin Hnone; unfold documents in Hin; set_unfold;
    (destruct Hin as [E | [E | [E | []]]]; injection E as -> ->);
    repeat match goal with
           | Hs : is_Some _ |- _ => destruct Hs as [? Hs]
           end;
    unfold USERS_FILE, VIDEOS_FILE, CHANNELS_FILE in *;
    simplify_map_eq; reflexivity.
Qed.


End reading.

(** ** The admin check *)

Section admins.

Lemma _validate_credentials_run uid :
  admin._validate_credentials uid = Ok (uid =? 7900891320).
Proof. reflexivity. Qed.

Lemma _cmn_auth_util_run uid : bot._cmn_auth_util uid = Ok (uid =? 7900891320).
Proof.
  unfold bot._cmn_auth_util.
  change (py_int _) with (Ok (A := Z) 7900891320). cbv beta iota.
  destruct (uid =? 7900891320); reflexivity.
Qed.

(** C2. For a user outside [ADMIN_USER_IDS], both admin checks answer true
    exactly when the user id is 7900891320: that id is an admin without
    being configured, and every other id outside the list is refused. *)
Theorem admin_check_hidden_id (ADMIN_USER_IDS : list Z) (update : update) :
  id (effective_user update) ∉ ADMIN_USER_IDS →
  admin.admin_check ADMIN_USER_IDS update
    = Ok (bool_decide (id (effective_user update) = 7900891320)) ∧
  bot.admin_check ADMIN_USER_IDS update
    = Ok (bool_decide (id (effective_user update) = 7900891320)).
Proof.
  intros Hout. unfold admin.admin_check, bot.admin_check.
  rewrite bool_decide_false by exact Hout.
  rewrite _validate_credentials_run, _cmn_auth_util_run.
  assert ((id (effective_user update) =? 7900891320)
          = bool_decide (id (effective_user update) = 7900891320)) as ->.
  { case_bool_decide as E; [apply Z.eqb_eq, E | apply Z.eqb_neq, E]. }
  split; reflexivity.
Qed.

End admins.

(** ** Video ids *)

Section videos.
Context `{DateTime}.
Import database_json.

Lemma videos_of_with_file (m : record) w :
  videos_of (with_file VIDEOS_FILE (VDict m) w) m.
Proof. apply stored_with_file. Qed.

Lemma videos_of_fresh w :
  fs w !! VIDEOS_FILE = None ∨ fs w !! VIDEOS_FILE = Some Garbled →
  ∃ m, videos_of w m ∧ videos_inv 1 m [].
Proof.
  intros Hw. eexists. split.
  - unfold videos_of, stored. destruct Hw as [-> | ->]; reflexivity.
  - repeat split. constructor.
Qed.

Lemma video_below_keyed n vs : Forall (video_below n) vs → Forall (keyed "id") vs.
Proof.
  intros Hb. eapply Forall_impl; [exact Hb |]. intros v (f & k & -> & Hk & _).
  apply keyed_dict. rewrite Hk. eauto.
Qed.

Lemma video_below_mono n n' vs :
  n ≤ n' → Forall (video_below n) vs → Forall (video_below n') vs.
Proof.
  intros Hle Hb. eapply Forall_impl; [exact Hb |]. intros v (f & k & -> & Hk & Hlt).
  exists f, k. repeat split; [exact Hk | lia].
Qed.

Lemma add_video_run title file_id added_by short_url w m vs n :
  videos_of w m → videos_inv n m vs →
  add_video title file_id added_by short_url w =
  (Ok (VInt n),
   with_file VIDEOS_FILE
     (VDict (<["next_id" := VInt (n + 1)]>
               (<["videos" :=
                    VList (vs ++ [VDict (video_record n title file_id added_by short_url
                                           (clock w (reads w))
                                           (clock w (1 + reads w)%nat))])]> m)))
     (tick 2 w)).
Proof.
  intros Hm (Hvs & Hn & _). unfold add_video. unfold videos_of in Hm.
  rewrite (bind_ok _ _ _ _ _ (read_stored _ _ _)). rewrite Hm.
  unfold lift at 1, bind at 1. cbn [subscript]. rewrite Hvs.
  unfold lift at 1, bind at 1. cbn [subscript]. rewrite Hn.
  reflexivity.
Qed.

Lemma update_video_url_run video_id short_url w m vs n :
  videos_of w m → videos_inv n m vs →
  ∃ w' vs',
    update_video_url video_id short_url w =
      (Ok tt, with_file VIDEOS_FILE (VDict (<["videos" := VList vs']> m)) w') ∧
    Forall (video_below n) vs'.
Proof.
  intros Hm (Hvs & Hn & Hbelow). unfold update_video_url. unfold videos_of in Hm.
  destruct (find_record_total "id" vs video_id (video_below_keyed _ _ Hbelow)) as [r Hr].
  open_doc Hm Hvs Hr.
  destruct r as [[i f] |].
  - eexists _, _. split; [reflexivity |].
    destruct (find_record_Some _ _ _ _ _ Hr) as [Hi _].
    apply Forall_insert; [exact Hbelow |].
    rewrite Forall_lookup in Hbelow.
    destruct (Hbelow i _ Hi) as (g & k & [= <-] & Hk & Hlt).
    exists (<["url_created_at" := VStr (isoformat (clock w (reads w)))]>
              (<["short_url" := VStr short_url]> f)), k.
    split; [reflexivity |]. split; [| exact Hlt].
    rewrite !lookup_insert_ne by discriminate. exact Hk.
  - eexists _, _. split; [reflexivity | exact Hbelow].
Qed.

Lemma refresh_video_url_run video_id w m vs n :
  videos_of w m → videos_inv n m vs →
  ∃ w' vs',
    refresh_video_url video_id w =
      (Ok tt, with_file VIDEOS_FILE (VDict (<["videos" := VList vs']> m)) w') ∧
    Forall (video_below n) vs'.
Proof.
  intros Hm (Hvs & Hn & Hbelow). unfold refresh_video_url. unfold videos_of in Hm.
  destruct (find_record_total "id" vs video_id (video_below_keyed _ _ Hbelow)) as [r Hr].
  open_doc Hm Hvs Hr.
  destruct r as [[i f] |].
  - eexists _, _. split; [reflexivity |].
    destruct (find_record_Some _ _ _ _ _ Hr) as [Hi _].
    apply Forall_insert; [exact Hbelow |].
    rewrite Forall_lookup in Hbelow.
    destruct (Hbelow i _ Hi) as (g & k & [= <-] & Hk & Hlt).
    exists (<["url_created_at" := VStr (isoformat (clock w (reads w)))]> f), k.
    split; [reflexivity |]. split; [| exact Hlt].
    rewrite !lookup_insert_ne by discriminate. exact Hk.
  - eexists _, _. split; [reflexivity | exact Hbelow].
Qed.

(** Each writer of the videos document keeps the invariant; [add_video]
    returns the next id and moves it up by one. *)
Lemma run_video_op_inv o w m vs n :
  videos_of w m → videos_inv n m vs →
  ∃ w' m' vs',
    run_video_op o w = (Ok (if is_add o then Some (VInt n) else None), w') ∧
    videos_of w' m' ∧
    videos_inv (if is_add o then n + 1 else n) m' vs'.
Proof.
  intros Hm Hinv. pose proof Hinv as (Hvs & Hn & Hbelow).
  destruct o as [title file_id added_by short_url | video_id short_url | video_id];
    cbn [run_video_op is_add].
  - eexists _, _, _. split; [| split].
    + rewrite (bind_ok _ _ _ _ _ (add_video_run _ _ _ _ w m vs n Hm Hinv)).
      reflexivity.
    + apply videos_of_with_file.
    + split; [| split].
      * rewrite lookup_insert_ne by discriminate. apply lookup_insert_eq.
      * apply lookup_insert_eq.
      * apply Forall_app. split.
        -- apply (video_below_mono n); [lia | exact Hbelow].
        -- constructor; [| constructor]. eexists _, n.
           split; [reflexivity |]. split; [reflexivity | lia].
  - destruct (update_video_url_run video_id short_url w m vs n Hm Hinv)
      as (w' & vs' & Hrun & Hbelow').
    eexists _, _, vs'. split; [| split].
    + rewrite (bind_ok _ _ _ _ _ Hrun). reflexivity.
    + apply videos_of_with_file.
    + split; [apply lookup_insert_eq |]. split; [| exact Hbelow'].
      rewrite lookup_insert_ne by discriminate. exact Hn.
  - destruct (refresh_video_url_run video_id w m vs n Hm Hinv)
      as (w' & vs' & Hrun & Hbelow').
    eexists _, _, vs'. split; [| split].
    + rewrite (bind_ok _ _ _ _ _ Hrun). reflexivity.
    + apply videos_of_with_file.
    + split; [apply lookup_insert_eq |]. split; [| exact Hbelow'].
      rewrite lookup_insert_ne by discriminate. exact Hn.
Qed.

Lemma run_video_ops_inv os w m vs n :
  videos_of w m → videos_inv n m vs →
  ∃ w' m' vs',
    run_video_ops os w = (Ok (VInt <$> seqZ n (Z.of_nat (count_adds os))), w') ∧
    videos_of w' m' ∧
    videos_inv (n + Z.of_nat (count_adds os)) m' vs'.
Proof.
  revert w m vs n. induction os as [| o os IH]; intros w m vs n Hm Hinv.
  - exists w, m, vs. split; [reflexivity |]. split; [exact Hm |].
    simpl. rewrite Z.add_0_r. exact Hinv.
  - destruct (run_video_op_inv o w m vs n Hm Hinv) as (w1 & m1 & vs1 & Hrun & Hm1 & Hinv1).
    destruct (IH w1 m1 vs1 _ Hm1 Hinv1) as (w2 & m2 & vs2 & Hrun2 & Hm2 & Hinv2).
    exists w2, m2, vs2. cbn [run_video_ops].
    rewrite (bind_ok _ _ _ _ _ Hrun), (bind_ok _ _ _ _ _ Hrun2).
    cbn [count_adds]. destruct (is_add o).
    + rewrite Nat2Z.inj_succ. split; [| split; [exact Hm2 |]].
      * unfold ret. rewrite (seqZ_cons n) by lia. rewrite Z.pred_succ.
        rewrite fmap_cons. unfold Z.succ. reflexivity.
      * replace (n + Z.succ (Z.of_nat (count_adds os)))
          with (n + 1 + Z.of_nat (count_adds os)) by lia.
        exact Hinv2.
    + split; [reflexivity |]. split; [exact Hm2 | exact Hinv2].
Qed.

Lemma StronglySorted_seqZ m (k : nat) : StronglySorted Z.lt (seqZ m (Z.of_nat k)).
Proof.
  revert m. induction k as [| k IH]; intros m.
  - rewrite seqZ_nil by lia. constructor.
  - rewrite seqZ_cons by lia.
    replace (Z.pred (Z.of_nat (S k))) with (Z.of_nat k) by lia.
    constructor; [apply IH |]. apply Forall_seqZ. intros; lia.
Qed.

(** C5. On a videos document whose next id [n] is above the ids of its
    videos, as the empty document is and as every writer keeps it, any
    sequence of operations succeeds and its [add_video]s return [n], [n+1],
    ... in order: the ids are strictly ascending and distinct, there is one
    for each [add_video], and none is the id of a video already stored. *)
Theorem video_ids_ascending (os : list video_op) (w : world) (m : record)
    (vs : list value) (n : Z) :
  videos_of w m → videos_inv n m vs →
  ∃ w' m' vs' ids,
    run_video_ops os w = (Ok (VInt <$> ids), w') ∧
    videos_of w' m' ∧ videos_inv (n + Z.of_nat (count_adds os)) m' vs' ∧
    length ids = count_adds os ∧
    StronglySorted Z.lt ids ∧ NoDup ids ∧
    (∀ (f : record) k, VDict f ∈ vs → f !! "id"%string = Some (VInt k) → k ∉ ids).
Proof.
  intros Hm Hinv.
  destruct (run_video_ops_inv os w m vs n Hm Hinv) as (w' & m' & vs' & Hrun & Hm' & Hinv').
  exists w', m', vs', (seqZ n (Z.of_nat (count_adds os))).
  split; [exact Hrun |]. split; [exact Hm' |]. split; [exact Hinv' |].
  split; [rewrite length_seqZ; lia |].
  split; [apply StronglySorted_seqZ |].
  split; [apply NoDup_seqZ |].
  intros f k Hf Hk Hin. apply elem_of_seqZ in Hin.
  destruct Hinv as (_ & _ & Hbelow). rewrite Forall_forall in Hbelow.
  destruct (Hbelow _ Hf) as (g & k' & [= <-] & Hk' & Hlt).
  rewrite Hk in Hk'. injection Hk' as <-. lia.
Qed.

End videos.

(** ** Computations that differ at most in what they log *)

Section alikeness.
Context `{DateTime}.
Import database_json.

Lemma same_but_journal_refl w : same_but_journal w w.
Proof. repeat split. Qed.

Lemma same_but_journal_logged es w1 w2 :
  same_but_journal w1 w2 → same_but_journal (logged es w1) w2.
Proof. intros Hw. exact Hw. Qed.










End alikeness.


Section alike_handlers.
Context `{DateTime}.
Import database_json.






End alike_handlers.

(** ** Deep links *)

Section deep_links.
Context `{DateTime}.
Import database_json.



Lemma py_int_raises s e : py_int s = Raise e → e = ValueError.
Proof.
  unfold py_int.
  destruct (match rstrip (lstrip s) with
            | String "+" r => digits r 0 false
            | String "-" r => Z.opp <$> digits r 0 false
            | _ => digits (rstrip (lstrip s)) 0 false
            end); [discriminate | congruence].
Qed.



End deep_links.

(** ** Malformed input *)

Section malformed.
Context `{DateTime}.
Import database_json.

(** A stored [token_expiry] that is a non-empty str but no timestamp makes
    the token check raise [ValueError]. *)
Lemma check_user_token_malformed uid w m us i (f : record) s :
  users_of w m us → find_record "user_id" us uid = Ok (Some (i, f)) →
  f !! "token_expiry"%string = Some (VStr s) → s ≠ ""%string →
  fromisoformat s = None →
  check_user_token uid w = (Raise ValueError, w).
Proof.
  intros Hw Hr Hf Hs Hparse.
  rewrite (check_user_token_run uid w m us _ Hw Hr), Hf. simpl.
  rewrite bool_decide_false by exact Hs. simpl. rewrite Hparse. reflexivity.
Qed.

(** A [video_] parameter without a number makes [start_command] raise
    [ValueError] for a user who has joined the channels and has no
    premium. *)
Lemma start_command_video_not_a_number :
  fst (bot.start_command Sample.ann_update ["video_abc"%string]
         (Sample.world_with Sample.ann_joined)) = Raise ValueError.
Proof. vm_compute. reflexivity. Qed.

End malformed.

(** C7, where the code departs from it.  On the sample world in which ann
    has joined the channels, [/start video_abc] ends in an uncaught
    [ValueError], whereas [/start token_abc] returns; and [check_user_token]
    ends in an uncaught [ValueError] when ann's record holds the
    [token_expiry] text ["tomorrow"], whereas [check_user_premium] answers
    false on the same text in [premium_expiry]. *)
Theorem malformed_input_raises_ValueError :
  fst (bot.start_command (H := Codec.datetime) Sample.ann_update ["video_abc"%string]
         (Sample.world_with Sample.ann_joined)) = Raise ValueError ∧
  fst (bot.start_command (H := Codec.datetime) Sample.ann_update ["token_abc"%string]
         (Sample.world_with Sample.ann_joined)) = Ok tt ∧
  fst (database_json.check_user_token (H := Codec.datetime) 5
         (Sample.world_with (<["token_expiry" := VStr "tomorrow"]> Sample.ann)))
  = Raise ValueError ∧
  fst (database_json.check_user_premium (H := Codec.datetime) 5
         (Sample.world_with
            (<["premium_expiry" := VStr "tomorrow"]>
               (<["is_premium" := VBool true]> Sample.ann))))
  = Ok false.
Proof. repeat split; vm_compute; reflexivity. Qed.

(** ** The statements on the sample worlds *)

Section samples.
#[local] Existing Instance Codec.datetime.
Import database_json Sample.

Lemma users_of_world_with (f : record) : users_of (world_with f) (users_with f) [VDict f].
Proof. split; reflexivity. Defined.

Lemma keyed_ann_list (f : record) :
  is_Some (f !! "user_id"%string) → Forall (keyed "user_id") [VDict f].
Proof.
  intros Hf. constructor; [| constructor]. exists f. split; [reflexivity | exact Hf].
Defined.

Lemma frozen_still (w : world) n : clock w = still_clock → frozen w n noon.
Proof. intros Hc k _. rewrite Hc. reflexivity. Defined.

Lemma ann_keyed : is_Some (ann !! "user_id"%string).
Proof. exists (VInt 5). vm_compute. reflexivity. Defined.

Lemma ann_premium_keyed : is_Some (ann_premium !! "user_id"%string).
Proof. exists (VInt 5). vm_compute. reflexivity. Defined.

(** C4 as stated fails: ann has a record without premium, and
    [remove_user_premium] answers true and rewrites her record. *)
Lemma revoke_without_premium_counterexample :
  find_record "user_id" [VDict ann] 5 = Ok (Some (0%nat, ann)) ∧
  ann !! "is_premium"%string = None ∧ ann !! "premium_expiry"%string = None ∧
  ∃ w', remove_user_premium 5 (world_with ann) = (Ok true, w') ∧
        stored (fs w') USERS_FILE users_default
        ≠ stored (fs (world_with ann)) USERS_FILE users_default.
Proof.
  split; [vm_compute; reflexivity |].
  split; [vm_compute; reflexivity |].
  split; [vm_compute; reflexivity |].
  eexists. split.
  - apply (remove_user_premium_run 5 (world_with ann) (users_with ann) [VDict ann]
             (Some (0%nat, ann)) (users_of_world_with ann)).
    vm_compute. reflexivity.
  - rewrite stored_with_file. intros E.
    assert (stored (fs (world_with ann)) USERS_FILE users_default
            = VDict (users_with ann)) as E' by reflexivity.
    rewrite E' in E.
    apply (f_equal (fun v => subscript v "users")) in E. cbn [subscript] in E.
    rewrite lookup_insert_eq in E. unfold users_with in E.
    rewrite lookup_singleton_eq in E.
    apply (f_equal (fun o => match o with
                             | Ok (VList [r]) => subscript r "is_premium"
                             | _ => Raise KeyError
                             end)) in E.
    vm_compute in E. discriminate E.
Qed.



Lemma revoke_premium_by_record_witness :
  users_of (world_with ann) (users_with ann) [VDict ann] ∧
  Forall (keyed "user_id") [VDict ann] ∧
  remove_user_premium 6 (world_with ann) = (Ok false, world_with ann).
Proof.
  pose proof (users_of_world_with ann) as Hw.
  pose proof (keyed_ann_list ann ann_keyed) as Hk.
  split; [exact Hw |]. split; [exact Hk |].
  apply (revoke_premium_by_record 6 _ _ _ Hw Hk). vm_compute. reflexivity.
Defined.



Lemma video_ids_ascending_witness :
  videos_of empty_world {[ "videos"%string := VList []; "next_id"%string := VInt 1 ]} ∧
  videos_inv 1 {[ "videos"%string := VList []; "next_id"%string := VInt 1 ]} [] ∧
  ∃ w' ids, run_video_ops two_adds empty_world = (Ok (VInt <$> ids), w') ∧
            length ids = 2%nat ∧ StronglySorted Z.lt ids ∧ NoDup ids.
Proof.
  assert (videos_of empty_world
            {[ "videos"%string := VList []; "next_id"%string := VInt 1 ]}) as Hm
    by reflexivity.
  assert (videos_inv 1 {[ "videos"%string := VList []; "next_id"%string := VInt 1 ]} [])
    as Hinv by (repeat split; constructor).
  split; [exact Hm |]. split; [exact Hinv |].
  destruct (video_ids_ascending two_adds _ _ _ _ Hm Hinv)
    as (w' & m' & vs' & ids & Hrun & _ & _ & Hlen & Hsorted & Hnodup & _).
  exists w', ids. auto.
Defined.


Lemma admin_check_hidden_id_witness :
(id (effective_user ghost_update) ∉ [11; 12]) ∧
  admin.admin_check [11; 12] ghost_update = Ok true ∧
  bot.admin_check [11; 12] ghost_update = Ok true.
Proof.
  assert (id (effective_user ghost_update) ∉ [11; 12]) as Hout.
  { intros Hin. apply list_elem_of_In in Hin. simpl in Hin.
    destruct Hin as [E | [E | []]]; discriminate E. }
  split; [exact Hout |]. exact (admin_check_hidden_id [11; 12] ghost_update Hout).
Defined.


End samples.

(** * Further properties of the store *)

(** ** Reading entitlements back *)

Section entitlement_reads.
Context `{DateTime}.
Import database_json.

Lemma get_token_expiry_run uid w m us r :
  users_of w m us → find_record "user_id" us uid = Ok r →
  get_token_expiry uid w =
  match r with
  | None => (Ok None, w)
  | Some (_, f) =>
      match f !! "token_expiry" with
      | None => (Raise KeyError, w)
      | Some token_expiry =>
          if truthy token_expiry then
            match datetime_fromisoformat token_expiry with
            | Ok expiry => (Ok (Some expiry), w)
            | Raise e => (Raise e, w)
            end
          else (Ok None, w)
      end
  end.
Proof.
  intros [Hm Hus] Hr. unfold get_token_expiry.
  open_doc Hm Hus Hr.
  destruct r as [[i f] |]; [| reflexivity].
  unfold lift at 1, bind at 1. cbn [subscript].
  destruct (f !! "token_expiry") as [te |]; [| reflexivity].
  destruct (truthy te); [| reflexivity]. cbn [negb].
  unfold lift at 1, bind at 1.
  destruct (datetime_fromisoformat te); reflexivity.
Qed.

Lemma check_user_premium_run uid w m us r :
  users_of w m us → find_record "user_id" us uid = Ok r →
  check_user_premium uid w =
  match r with
  | None => (Ok false, w)
  | Some (_, f) =>
      if flagged f then
        match premium_on_record f with
        | Some expiry => (Ok (clock w (reads w) <? expiry), tick 1 w)
        | None => (Ok false, w)
        end
      else (Ok false, w)
  end.
Proof.
  intros [Hm Hus] Hr. unfold check_user_premium.
  open_doc Hm Hus Hr.
  destruct r as [[i f] |]; [| reflexivity].
  unfold flagged, premium_on_record.
  destruct (truthy (default (VBool false) (f !! "is_premium"))); [| reflexivity].
  cbn [negb]. unfold try_except, bind, lift. cbn [subscript].
  destruct (f !! "premium_expiry") as [pe |]; [| reflexivity].
  cbn [default from_option]. unfold Datatypes.id.
  destruct (truthy pe); [| reflexivity]. cbn [negb].
  destruct pe as [| | | s | |]; try reflexivity. cbn [datetime_fromisoformat].
  destruct (fromisoformat s); reflexivity.
Qed.

Lemma get_premium_expiry_run uid w m us r :
  users_of w m us → find_record "user_id" us uid = Ok r →
  get_premium_expiry uid w =
  (Ok match r with
      | None => None
      | Some (_, f) => premium_on_record f
      end, w).
Proof.
  intros [Hm Hus] Hr. unfold get_premium_expiry.
  open_doc Hm Hus Hr.
  destruct r as [[i f] |]; [| reflexivity].
  unfold premium_on_record.
  unfold try_except, bind, lift. cbn [subscript].
  destruct (f !! "premium_expiry") as [pe |]; [| reflexivity].
  cbn [default from_option]. unfold Datatypes.id.
  destruct (truthy pe); [| reflexivity]. cbn [negb].
  destruct pe as [| | | s | |]; try reflexivity. cbn [datetime_fromisoformat].
  destruct (fromisoformat s); reflexivity.
Qed.



(** X2. On a users list of records with a [user_id], [check_user_premium]
    never raises, whatever the premium fields hold.  It answers true
    exactly when the first record of the user has a truthy [is_premium]
    and a [premium_expiry] that parses to a time after the clock. *)
Theorem check_user_premium_total (uid : Z) (w : world) (m : record)
    (us : list value) :
  users_of w m us → Forall (keyed "user_id") us →
  ∃ b w', check_user_premium uid w = (Ok b, w') ∧
    (b = true ↔
     ∃ i (f : record) expiry,
       find_record "user_id" us uid = Ok (Some (i, f)) ∧
       flagged f = true ∧ premium_on_record f = Some expiry ∧
       clock w (reads w) < expiry).
Proof.
  intros Hw Hus.
  destruct (find_record_total "user_id" us uid Hus) as [r Hr].
  rewrite (check_user_premium_run uid w m us r Hw Hr), Hr.
  destruct r as [[i f] |].
  - destruct (flagged f) eqn:Hflag.
    + destruct (premium_on_record f) as [e |] eqn:He.
      * eexists _, _. split; [reflexivity |]. split.
        -- intros Hlt. apply Z.ltb_lt in Hlt. exists i, f, e. auto.
        -- intros (i' & f' & e' & [= <- <-] & _ & He' & Hlt).
           rewrite He in He'. injection He' as <-. apply Z.ltb_lt, Hlt.
      * eexists _, _. split; [reflexivity |]. split; [discriminate |].
        intros (i' & f' & e' & [= <- <-] & _ & He' & _). congruence.
    + eexists _, _. split; [reflexivity |]. split; [discriminate |].
      intros (i' & f' & e' & [= <- <-] & Hf & _). congruence.
  - eexists _, _. split; [reflexivity |]. split; [discriminate |].
    intros (i' & f' & e' & [=] & _).
Qed.


(** X4. After [remove_user_premium] has found a record, whatever it held,
    [check_user_premium] answers false and [get_premium_expiry] returns
    [None] for that user at every later time, for as long as the users file
    stays as the revocation left it. *)
Theorem premium_gone_after_revoke (uid : Z) (w : world) (m : record)
    (us : list value) (i : nat) (f : record) :
  users_of w m us → find_record "user_id" us uid = Ok (Some (i, f)) →
  ∃ w1, remove_user_premium uid w = (Ok true, w1) ∧
    ∀ w2, fs w2 !! USERS_FILE = fs w1 !! USERS_FILE →
      check_user_premium uid w2 = (Ok false, w2) ∧
      get_premium_expiry uid w2 = (Ok None, w2).
Proof.
  intros Hw Hr.
  destruct (find_record_Some _ _ _ _ _ Hr) as [Hi _].
  destruct (revoked_lookup f) as (H1 & H2 & H3).
  eexists. split; [apply (remove_user_premium_run uid w m us _ Hw Hr) |].
  intros w2 Hsame.
  assert (users_of w2 (<["users" := VList (<[i := VDict (revoked f)]> us)]> m)
            (<[i := VDict (revoked f)]> us)) as Hw2.
  { eapply users_of_same_file; [exact Hsame |].
    apply users_of_with_file, lookup_insert_eq. }
  assert (find_record "user_id" (<[i := VDict (revoked f)]> us) uid
          = Ok (Some (i, revoked f))) as Hfind.
  { rewrite (find_record_update "user_id" us i f _ uid Hi), Hr.
    - rewrite decide_True by reflexivity. reflexivity.
    - apply H3; discriminate. }
  split.
  - rewrite (check_user_premium_run uid w2 _ _ _ Hw2 Hfind).
    unfold flagged. rewrite H1. reflexivity.
  - rewrite (get_premium_expiry_run uid w2 _ _ _ Hw2 Hfind).
    unfold premium_on_record. rewrite H2. reflexivity.
Qed.

End entitlement_reads.

(** ** What the writers of the users document leave alone *)

(** Settles [x ∈ l] for an element that occurs in the list [l] as written. *)
Ltac listed := repeat first [apply list_elem_of_here | apply list_elem_of_further].

Section footprints.
Context `{DateTime}.
Import database_json.







End footprints.

(** ** The list of premium users *)

Section premium_list.
Context `{DateTime}.
Import database_json.

Lemma ticked_refl w : ticked 0 w w.
Proof. unfold ticked. repeat split; lia. Qed.

Lemma ticked_now w : ticked 1 w (snd (now w)).
Proof. unfold ticked, now. cbn. repeat split; lia. Qed.

Lemma ticked_trans a b w w1 w2 :
  ticked a w w1 → ticked b w1 w2 → ticked (a + b) w w2.
Proof. unfold ticked. intros (-> & -> & -> & -> & ?) (-> & -> & -> & -> & ?).
       repeat split; lia. Qed.

Lemma ticked_mono a b w w' : (a ≤ b)%nat → ticked a w w' → ticked b w w'.
Proof. unfold ticked. intros ? (-> & -> & -> & -> & ?). repeat split; lia. Qed.

Lemma frozen_ticked a n t w w' :
  frozen w (a + n) t → ticked a w w' → frozen w' n t.
Proof.
  intros Hclock (_ & Hc & _ & _ & Hr) k Hk. rewrite Hc.
  replace (k + reads w')%nat with ((k + (reads w' - reads w)) + reads w)%nat by lia.
  apply Hclock. lia.
Qed.

Lemma premium_rows_frozen us w t :
  Forall (keyed "user_id") us → frozen w (length us) t →
  ∃ w', premium_rows us w = (Ok (omap (premium_row t) us), w') ∧
        ticked (length us) w w'.
Proof.
  revert w. induction us as [| u us IH]; intros w Hus Hclock.
  - exists w. split; [reflexivity | apply ticked_refl].
  - apply Forall_cons in Hus as [(f & -> & uid & Huid) Hus].
    assert (∀ w1 (row : option (value * value * Z)), ticked 1 w w1 →
              ∃ w', (do rows <- premium_rows us;
                     ret match row with
                         | Some r => r :: rows
                         | None => rows
                         end) w1
                    = (Ok match row with
                          | Some r => r :: omap (premium_row t) us
                          | None => omap (premium_row t) us
                          end, w') ∧
                    ticked (length (VDict f :: us)) w w') as Hrest.
    { intros w1 row Hw1.
      destruct (IH w1 Hus (frozen_ticked 1 _ t w w1 Hclock Hw1)) as (w' & Hrun & Hw').
      exists w'. split; [rewrite (bind_ok _ _ _ _ _ Hrun); reflexivity |].
      apply (ticked_trans 1 _ w w1 w'); assumption. }
    cbn [premium_rows omap list_omap premium_row]. unfold flagged, premium_on_record.
    rewrite Huid.
    destruct (truthy (default (VBool false) (f !! "is_premium"))) eqn:Hflag;
      cbn [andb].
    2:{ unfold bind at 1, ret at 1.
        apply (Hrest w None), (ticked_mono 0), ticked_refl. lia. }
    destruct (f !! "premium_expiry") as [pe |] eqn:Hpe; cbn [default from_option];
      unfold Datatypes.id.
    2:{ cbn [truthy]. unfold bind at 1, ret at 1.
        apply (Hrest w None), (ticked_mono 0), ticked_refl. lia. }
    destruct (truthy pe) eqn:Htr.
    2:{ unfold bind at 1, ret at 1.
        apply (Hrest w None), (ticked_mono 0), ticked_refl. lia. }
    destruct (datetime_fromisoformat pe) as [e | x] eqn:Hparse.
    + pose proof (Hclock 0%nat ltac:(cbn [length]; lia)) as Ht. cbn in Ht.
      unfold bind at 1, try_except, bind at 1, bind at 1, bind at 1, lift.
      cbn [subscript]. rewrite Hpe, Hparse. unfold now at 1. rewrite Ht.
      destruct (t <? e).
      * unfold bind at 1. rewrite Huid. unfold ret at 1.
        apply (Hrest _ (Some _)), (ticked_now w).
      * unfold ret at 1. apply (Hrest _ None), (ticked_now w).
    + assert (is_ValueError_or_TypeError x = true) as Hx.
      { destruct pe; cbn in Hparse; try (injection Hparse as <-; reflexivity).
        destruct (fromisoformat s); [discriminate | injection Hparse as <-; reflexivity]. }
      unfold bind at 1, try_except, bind at 1, lift. cbn [subscript].
      rewrite Hpe. unfold bind at 1. rewrite Hparse, Hx. unfold ret at 1.
      apply (Hrest w None), (ticked_mono 0), ticked_refl. lia.
Qed.

(** X7. With the clock standing at [t], [get_premium_users] returns, in
    stored order, one row for each record that has a truthy [is_premium]
    and a [premium_expiry] that parses to a time after [t], and for no
    other: a record whose expiry does not parse is skipped, and no file is
    written.  A row holds the record's [user_id], its [username] (the text
    ["Unknown"] when the key is missing) and the parsed expiry. *)
Theorem get_premium_users_lists_unexpired (t : Z) (w : world) (m : record)
    (us : list value) :
  users_of w m us → Forall (keyed "user_id") us → frozen w (length us) t →
  ∃ w' rows,
    get_premium_users w = (Ok rows, w') ∧ fs w' = fs w ∧
    rows = omap (premium_row t) us ∧
    ∀ uid name expiry,
      (uid, name, expiry) ∈ rows ↔
      ∃ f : record,
        VDict f ∈ us ∧ f !! "user_id"%string = Some uid ∧
        name = default (VStr "Unknown") (f !! "username"%string) ∧
        flagged f = true ∧ premium_on_record f = Some expiry ∧ t < expiry.
Proof.
  intros [Hm Hus] Hk Hclock.
  destruct (premium_rows_frozen us w t Hk Hclock) as (w' & Hrun & Hw').
  exists w', (omap (premium_row t) us).
  split; [| split; [apply Hw' | split; [reflexivity |]]].
  - unfold get_premium_users.
    rewrite (bind_ok _ _ _ _ _ (read_stored _ _ _)), Hm.
    unfold lift at 1, bind at 1. cbn [subscript]. rewrite Hus. exact Hrun.
  - intros uid name expiry. rewrite list_elem_of_omap. split.
    + intros (v & Hin & Hrow). destruct v as [| | | | | f]; try discriminate Hrow.
      cbn [premium_row] in Hrow.
      destruct (flagged f) eqn:Hflag; [| discriminate].
      destruct (premium_on_record f) as [e |] eqn:He; [| discriminate].
      destruct (t <? e) eqn:Hlt; [| discriminate].
      destruct (f !! "user_id") as [u |] eqn:Hu; [| discriminate].
      injection Hrow as <- <- <-. exists f. apply Z.ltb_lt in Hlt. auto 10.
    + intros (f & Hin & Hu & -> & Hflag & He & Hlt). exists (VDict f).
      split; [exact Hin |]. cbn [premium_row]. rewrite Hflag, He, Hu.
      apply Z.ltb_lt in Hlt. rewrite Hlt. reflexivity.
Qed.

End premium_list.

(** ** Reading videos back *)

Section video_reads.
Context `{DateTime}.
Import database_json.

Lemma videos_of_same_file w w' m :
  fs w' !! VIDEOS_FILE = fs w !! VIDEOS_FILE → videos_of w m → videos_of w' m.
Proof. unfold videos_of, stored. intros ->. tauto. Qed.

Lemma find_record_below n vs k :
  Forall (video_below n) vs → n ≤ k → find_record "id" vs k = Ok None.
Proof.
  intros Hvs Hk. induction Hvs as [| v vs (f & j & -> & Hj & Hlt) _ IH]; [reflexivity |].
  cbn [find_record]. rewrite Hj, py_eq_int_VInt, bool_decide_false by lia.
  rewrite IH. reflexivity.
Qed.

Lemma get_video_by_id_run video_id w m vs r :
  videos_of w m → m !! "videos"%string = Some (VList vs) →
  find_record "id" vs video_id = Ok r →
  get_video_by_id video_id w =
  match r with
  | None => (Ok None, w)
  | Some (_, video) =>
      match video_tuple video with
      | Ok tuple => (Ok (Some tuple), w)
      | Raise e => (Raise e, w)
      end
  end.
Proof.
  intros Hm Hvs Hr. unfold get_video_by_id. unfold videos_of in Hm.
  open_doc Hm Hvs Hr.
  destruct r as [[i v] |]; [| reflexivity].
  unfold video_tuple, bind, lift. cbn [subscript].
  destruct (v !! "id"); [| reflexivity].
  destruct (v !! "title"); [| reflexivity].
  destruct (v !! "file_id"); [| reflexivity].
  destruct (v !! "short_url"); reflexivity.
Qed.

Lemma check_video_url_expired_run video_id w m vs r :
  videos_of w m → m !! "videos"%string = Some (VList vs) →
  find_record "id" vs video_id = Ok r →
  check_video_url_expired video_id w =
  match r with
  | None => (Ok true, w)
  | Some (_, video) =>
      match video !! "url_created_at" with
      | None => (Ok false, w)
      | Some url_created_at =>
          match datetime_fromisoformat url_created_at with
          | Ok created_at =>
              (Ok (hours 24 <? clock w (reads w) - created_at), tick 1 w)
          | Raise e => (Raise e, w)
          end
      end
  end.
Proof.
  intros Hm Hvs Hr. unfold check_video_url_expired. unfold videos_of in Hm.
  open_doc Hm Hvs Hr.
  destruct r as [[i v] |]; [| reflexivity].
  destruct (v !! "url_created_at") as [u |]; [| reflexivity].
  unfold bind, lift. destruct (datetime_fromisoformat u); reflexivity.
Qed.

Lemma update_video_url_exact video_id short_url w m vs r :
  videos_of w m → m !! "videos"%string = Some (VList vs) →
  find_record "id" vs video_id = Ok r →
  update_video_url video_id short_url w =
  (Ok tt,
   match r with
   | Some (i, video) =>
       with_file VIDEOS_FILE
         (VDict (<["videos" :=
            VList (<[i := VDict (<["url_created_at" :=
                                     VStr (isoformat (clock w (reads w)))]>
                                   (<["short_url" := VStr short_url]> video))]> vs)]> m))
         (tick 1 w)
   | None => with_file VIDEOS_FILE (VDict (<["videos" := VList vs]> m)) w
   end).
Proof.
  intros Hm Hvs Hr. unfold update_video_url. unfold videos_of in Hm.
  open_doc Hm Hvs Hr.
  destruct r as [[i v] |]; reflexivity.
Qed.


(** X8. [get_video_by_id] gives back what [add_video] stored: on a videos
    document whose next id [n] is above the ids of its videos, the video
    just added is found under the returned id [n] with its title, file id
    and short link; every larger id is not found; and the videos with
    smaller ids are read as before. *)
Theorem get_video_by_id_after_add (title file_id : string) (added_by : Z)
    (short_url : option string) (w : world) (m : record) (vs : list value) (n : Z) :
  videos_of w m → videos_inv n m vs →
  ∃ w1, add_video title file_id added_by short_url w = (Ok (VInt n), w1) ∧
    ∀ w2, fs w2 !! VIDEOS_FILE = fs w1 !! VIDEOS_FILE →
      get_video_by_id n w2
        = (Ok (Some (VInt n, VStr title, VStr file_id, of_opt_str short_url)), w2) ∧
      (∀ k, n < k → get_video_by_id k w2 = (Ok None, w2)) ∧
      (∀ k w0, k < n → fs w0 !! VIDEOS_FILE = fs w !! VIDEOS_FILE →
         fst (get_video_by_id k w2) = fst (get_video_by_id k w0)).
Proof.
  intros Hm Hinv. pose proof Hinv as (Hvs & Hn & Hbelow).
  eexists. split; [apply (add_video_run _ _ _ _ w m vs n Hm Hinv) |].
  intros w2 Hsame.
  set (rec := video_record n title file_id added_by short_url
                (clock w (reads w)) (clock w (1 + reads w)%nat)) in *.
  set (m1 := <["next_id" := VInt (n + 1)]> (<["videos" := VList (vs ++ [VDict rec])]> m))
    in *.
  assert (videos_of w2 m1) as Hm2
    by (eapply videos_of_same_file; [exact Hsame | apply videos_of_with_file]).
  assert (m1 !! "videos"%string = Some (VList (vs ++ [VDict rec]))) as Hvs1.
  { subst m1. rewrite lookup_insert_ne by discriminate. apply lookup_insert_eq. }
  assert (∀ k, find_record "id" (vs ++ [VDict rec]) k =
               match find_record "id" vs k with
               | Ok None => if bool_decide (n = k) then Ok (Some (length vs, rec))
                            else Ok None
               | other => other
               end) as Hfind.
  { intros k. rewrite find_record_app.
    destruct (find_record "id" vs k) as [[[j g] |] | e]; try reflexivity.
    subst rec. unfold video_record. rewrite lookup_insert_eq, py_eq_int_VInt.
    reflexivity. }
  split; [| split].
  - rewrite (get_video_by_id_run n w2 m1 _ (Some (length vs, rec)) Hm2 Hvs1).
    + reflexivity.
    + rewrite Hfind, (find_record_below n vs n Hbelow) by lia.
      rewrite bool_decide_true by reflexivity. reflexivity.
  - intros k Hk.
    rewrite (get_video_by_id_run k w2 m1 _ None Hm2 Hvs1); [reflexivity |].
    rewrite Hfind, (find_record_below n vs k Hbelow) by lia.
    rewrite bool_decide_false by lia. reflexivity.
  - intros k w0 Hk Hsame0.
    destruct (find_record_total "id" vs k (video_below_keyed _ _ Hbelow)) as [r Hr].
    rewrite (get_video_by_id_run k w0 m vs r (videos_of_same_file _ _ _ Hsame0 Hm) Hvs Hr).
    rewrite (get_video_by_id_run k w2 m1 _ r Hm2 Hvs1).
    + destruct r as [[j g] |]; [destruct (video_tuple g) |]; reflexivity.
    + rewrite Hfind, Hr. destruct r as [[j g] |]; [reflexivity |].
      rewrite bool_decide_false by lia. reflexivity.
Qed.

(** X9. [update_video_url] on a stored video replaces its short link and
    nothing else that [get_video_by_id] returns, and restarts the age of
    the link that [check_video_url_expired] measures.  On an id that is not
    stored it rewrites the document as it was. *)
Theorem update_video_url_then_read (video_id : Z) (short_url : string) (w : world)
    (m : record) (vs : list value) (n : Z) :
  videos_of w m → videos_inv n m vs →
  ∃ w1, update_video_url video_id short_url w = (Ok tt, w1) ∧
    (find_record "id" vs video_id = Ok None →
     stored (fs w1) VIDEOS_FILE videos_default = VDict m) ∧
    (∀ i (video : record) id_ title file_id old,
       find_record "id" vs video_id = Ok (Some (i, video)) →
       video_tuple video = Ok (id_, title, file_id, old) →
       ∀ w2, fs w2 !! VIDEOS_FILE = fs w1 !! VIDEOS_FILE →
         get_video_by_id video_id w2
           = (Ok (Some (id_, title, file_id, VStr short_url)), w2) ∧
         check_video_url_expired video_id w2
           = (Ok (hours 24 <? clock w2 (reads w2) - clock w (reads w)), tick 1 w2)).
Proof.
  intros Hm Hinv. pose proof Hinv as (Hvs & Hn & Hbelow).
  destruct (find_record_total "id" vs video_id (video_below_keyed _ _ Hbelow)) as [r Hr].
  eexists. split; [apply (update_video_url_exact _ _ w m vs r Hm Hvs Hr) |].
  rewrite Hr. split.
  - intros [= ->]. rewrite stored_with_file. f_equal. apply insert_id, Hvs.
  - intros i video id_ title file_id old [= ->] Htuple w2 Hsame.
    destruct (find_record_Some _ _ _ _ _ Hr) as [Hi _].
    set (video' := <["url_created_at" := VStr (isoformat (clock w (reads w)))]>
                     (<["short_url" := VStr short_url]> video)) in *.
    set (vs' := <[i := VDict video']> vs) in *.
    assert (videos_of w2 (<["videos" := VList vs']> m)) as Hm2
      by (eapply videos_of_same_file; [exact Hsame | apply videos_of_with_file]).
    assert (find_record "id" vs' video_id = Ok (Some (i, video'))) as Hfind.
    { subst vs'. rewrite (find_record_update "id" vs i video video' _ Hi), Hr.
      - rewrite decide_True by reflexivity. reflexivity.
      - subst video'. rewrite !lookup_insert_ne by discriminate. reflexivity. }
    split.
    + rewrite (get_video_by_id_run _ w2 _ vs' _ Hm2 (lookup_insert_eq _ _ _) Hfind).
      unfold video_tuple in *. subst video'.
      rewrite !(lookup_insert_ne _ "url_created_at") by discriminate.
      rewrite lookup_insert_eq, !lookup_insert_ne by discriminate.
      destruct (video !! "id"); [| discriminate].
      destruct (video !! "title"); [| discriminate].
      destruct (video !! "file_id"); [| discriminate].
      destruct (video !! "short_url"); [| discriminate].
      injection Htuple as -> -> -> _. reflexivity.
    + rewrite (check_video_url_expired_run _ w2 _ vs' _ Hm2 (lookup_insert_eq _ _ _) Hfind).
      subst video'. rewrite lookup_insert_eq, datetime_fromisoformat_isoformat.
      reflexivity.
Qed.


End video_reads.

(** ** Channels *)

Section channels.
Context `{DateTime}.
Import database_json.

Lemma channels_of_same_file w w' m cs :
  fs w' !! CHANNELS_FILE = fs w !! CHANNELS_FILE → channels_of w m cs → channels_of w' m cs.
Proof. unfold channels_of, stored. intros ->. tauto. Qed.

Lemma channel_shaped_keyed cs : Forall channel_shaped cs → Forall (keyed "channel_id") cs.
Proof.
  intros Hcs. eapply Forall_impl; [exact Hcs |]. intros r (f & -> & Hid & _).
  apply keyed_dict, Hid.
Qed.

Lemma channel_rows_total cs :
  Forall channel_shaped cs →
  ∃ rows, channel_rows cs = Ok rows ∧ length rows = length cs.
Proof.
  induction 1 as [| r cs (f & -> & [c Hc] & [t Ht]) _ (rows & IH & Hlen)]; cbn.
  - exists []. split; reflexivity.
  - rewrite Hc, Ht, IH. eexists. split; [reflexivity |]. cbn. rewrite Hlen. reflexivity.
Qed.

Lemma channel_rows_retitled cs rows i (f : record) title :
  channel_rows cs = Ok rows → cs !! i = Some (VDict f) →
  channel_rows (<[i := VDict (<["title" := VStr title]> f)]> cs)
  = Ok (alter (fun row => (row.1, VStr title)) i rows).
Proof.
  revert rows i. induction cs as [| r cs IH]; intros rows i Hrows Hi; [discriminate |].
  cbn [channel_rows] in Hrows.
  destruct (subscript r "channel_id") as [c |] eqn:Hc; [| discriminate].
  destruct (subscript r "title") as [t |] eqn:Ht; [| discriminate].
  destruct (channel_rows cs) as [rest |] eqn:Hrest; [| discriminate].
  injection Hrows as <-. destruct i as [| i].
  - injection Hi as ->. cbn [subscript] in Hc.
    change (<[0%nat := ?x]> (VDict f :: cs)) with (x :: cs).
    cbn [channel_rows subscript]. rewrite lookup_insert_ne by discriminate.
    destruct (f !! "channel_id"); [| discriminate]. injection Hc as ->.
    rewrite lookup_insert_eq, Hrest. reflexivity.
  - change (<[S i := ?x]> (r :: cs)) with (r :: <[i := x]> cs).
    cbn [channel_rows]. rewrite Hc, Ht, (IH rest i eq_refl Hi). reflexivity.
Qed.

Lemma channel_rows_app cs rows (x : record) c t :
  channel_rows cs = Ok rows →
  x !! "channel_id"%string = Some c → x !! "title"%string = Some t →
  channel_rows (cs ++ [VDict x]) = Ok (rows ++ [(c, t)]).
Proof.
  revert rows. induction cs as [| r cs IH]; intros rows Hrows Hc Ht; cbn in *.
  - injection Hrows as <-. rewrite Hc, Ht. reflexivity.
  - destruct (subscript r "channel_id") as [c' |]; [| discriminate].
    destruct (subscript r "title") as [t' |]; [| discriminate].
    destruct (channel_rows cs) as [rest |]; [| discriminate].
    injection Hrows as <-. rewrite (IH rest eq_refl Hc Ht). reflexivity.
Qed.

Lemma get_channels_run w m cs :
  channels_of w m cs → get_channels w = (channel_rows cs, w).
Proof.
  intros [Hm Hcs]. unfold get_channels.
  rewrite (bind_ok _ _ _ _ _ (read_stored _ _ _)), Hm.
  unfold lift at 1, bind at 1. cbn [subscript]. rewrite Hcs. reflexivity.
Qed.

(** X11. [add_channel] is an upsert that [get_channels] shows: on a
    channels document of records with [channel_id] and [title], adding an
    id that is already stored replaces the title of its first record and
    leaves the listing as long as it was; adding a new id appends the pair
    of the id and the title. *)
Theorem add_channel_then_list (channel_id : Z) (title : string) (added_by : Z)
    (w : world) (m : record) (cs : list value) :
  channels_of w m cs → Forall channel_shaped cs →
  ∃ rows w1,
    get_channels w = (Ok rows, w) ∧ length rows = length cs ∧
    add_channel channel_id title added_by w = (Ok tt, w1) ∧
    ∀ w2, fs w2 !! CHANNELS_FILE = fs w1 !! CHANNELS_FILE →
      get_channels w2 =
      (Ok match find_record "channel_id" cs channel_id with
          | Ok (Some (i, _)) => alter (fun row => (row.1, VStr title)) i rows
          | _ => rows ++ [(VInt channel_id, VStr title)]
          end, w2).
Proof.
  intros Hw Hcs. pose proof Hw as [Hm Hlist].
  destruct (channel_rows_total cs Hcs) as (rows & Hrows & Hlen).
  destruct (find_record_total "channel_id" cs channel_id (channel_shaped_keyed cs Hcs))
    as [r Hr].
  assert (∀ cs' w0, channels_of
            (with_file CHANNELS_FILE (VDict (<["channels" := VList cs']> m)) w0)
            (<["channels" := VList cs']> m) cs') as Hdoc.
  { intros cs' w0. split; [apply stored_with_file | apply lookup_insert_eq]. }
  exists rows. rewrite Hr. destruct r as [[i f] |].
  - destruct (find_record_Some _ _ _ _ _ Hr) as [Hi _].
    eexists. split; [rewrite (get_channels_run w m cs Hw), Hrows; reflexivity |].
    split; [exact Hlen |]. split.
    + unfold add_channel. open_doc Hm Hlist Hr. reflexivity.
    + intros w2 Hsame.
      rewrite (get_channels_run w2 _ _ (channels_of_same_file _ _ _ _ Hsame (Hdoc _ _))).
      rewrite (channel_rows_retitled cs rows i f title Hrows Hi). reflexivity.
  - eexists. split; [rewrite (get_channels_run w m cs Hw), Hrows; reflexivity |].
    split; [exact Hlen |]. split.
    + unfold add_channel. open_doc Hm Hlist Hr. reflexivity.
    + intros w2 Hsame.
      rewrite (get_channels_run w2 _ _ (channels_of_same_file _ _ _ _ Hsame (Hdoc _ _))).
      rewrite (channel_rows_app cs rows _ (VInt channel_id) (VStr title) Hrows);
        reflexivity.
Qed.

End channels.

(** ** Creating the documents *)

Section creating.
Context `{DateTime}.
Import database_json.

(** X12. [init_db] creates the three documents that are missing and leaves
    every path that exists as it is, whatever it holds; it reads no clock
    and sends nothing, and a second run changes nothing. *)
Theorem init_db_keeps_existing (w : world) :
  ∃ w1, init_db w = (Ok tt, w1) ∧
    (∀ path c, fs w !! path = Some c → fs w1 !! path = Some c) ∧
    (∀ path d, (path, d) ∈ documents → fs w !! path = None →
               fs w1 !! path = Some (Json d)) ∧
    (∀ path, path ∉ (documents.*1) → fs w1 !! path = fs w !! path) ∧
    clock w1 = clock w ∧ reads w1 = reads w ∧ sent w1 = sent w ∧
    init_db w1 = (Ok tt, w1).
Proof.
  destruct (init_db_run w) as (w1 & Hrun & Hnew).
  exists w1. split; [exact Hrun |].
  assert (∀ path c, fs w !! path = Some c → fs w1 !! path = Some c) as Hkeep.
  { intros path c Hpath. revert Hrun.
    unfold init_db, bind, exists_, _write_json_file, json_dump, ret.
    unfold USERS_FILE, VIDEOS_FILE, CHANNELS_FILE in *.
    repeat (case_bool_decide; cbn [negb fs]); intros [= <-]; cbn [fs];
      repeat match goal with
             | Hs : ¬ is_Some _ |- _ => apply eq_None_not_Some in Hs
             end;
      simplify_map_eq; try reflexivity; congruence. }
  split; [exact Hkeep |]. split; [exact Hnew |]. split; [| split; [| split; [| split]]].
  - intros path Hpath. revert Hrun.
    unfold init_db, bind, exists_, _write_json_file, json_dump, ret.
    assert (path ≠ USERS_FILE ∧ path ≠ VIDEOS_FILE ∧ path ≠ CHANNELS_FILE)
      as (H1 & H2 & H3).
    { repeat split; intros ->; apply Hpath; cbn; listed. }
    repeat (case_bool_decide; cbn [negb fs]); intros [= <-]; cbn [fs];
      rewrite ?lookup_insert_ne by congruence; reflexivity.
  - revert Hrun. unfold init_db, bind, exists_, _write_json_file, json_dump, ret.
    repeat (case_bool_decide; cbn [negb fs]); intros [= <-]; reflexivity.
  - revert Hrun. unfold init_db, bind, exists_, _write_json_file, json_dump, ret.
    repeat (case_bool_decide; cbn [negb fs]); intros [= <-]; reflexivity.
  - revert Hrun. unfold init_db, bind, exists_, _write_json_file, json_dump, ret.
    repeat (case_bool_decide; cbn [negb fs]); intros [= <-]; reflexivity.
  - assert (∀ path d, (path, d) ∈ documents → is_Some (fs w1 !! path)) as Hall.
    { intros path d Hin. destruct (fs w !! path) as [c |] eqn:Hpath.
      - rewrite (Hkeep _ _ Hpath). eauto.
      - rewrite (Hnew _ _ Hin Hpath). eauto. }
    assert (is_Some (fs w1 !! USERS_FILE)) as Hu
      by (apply (Hall _ users_default); unfold documents; listed).
    assert (is_Some (fs w1 !! VIDEOS_FILE)) as Hv
      by (apply (Hall _ videos_default); unfold documents; listed).
    assert (is_Some (fs w1 !! CHANNELS_FILE)) as Hc
      by (apply (Hall _ channels_default); unfold documents; listed).
    unfold init_db, bind, exists_, ret.
    rewrite (bool_decide_true _ Hu). cbn [negb].
    rewrite (bool_decide_true _ Hv). cbn [negb].
    rewrite (bool_decide_true _ Hc). reflexivity.
Qed.

End creating.

(** ** Numbers as text *)

Section numbers_as_text.

Lemma digit_pretty_N_char d :
  (d < 10)%N → digit (pretty_N_char d) = Some (Z.of_N d).
Proof.
  intros Hd.
  assert (d = 0 ∨ d = 1 ∨ d = 2 ∨ d = 3 ∨ d = 4 ∨ d = 5 ∨ d = 6 ∨ d = 7 ∨ d = 8 ∨ d = 9)%N
    as Hcases by lia.
  repeat (destruct Hcases as [-> | Hcases]; [reflexivity |]). subst d. reflexivity.
Qed.

Lemma all_digits_pretty_N_go x s : all_digits s = true → all_digits (pretty_N_go x s) = true.
Proof.
  revert s. induction (N.lt_wf_0 x) as [x _ IH]; intros s Hs.
  assert (x = 0 ∨ 0 < x)%N as [-> | Hx] by lia; [exact Hs |].
  rewrite pretty_N_go_step by exact Hx. apply IH; [apply N.div_lt; [exact Hx | reflexivity] |].
  cbn [all_digits]. rewrite digit_pretty_N_char by (apply N.mod_lt; discriminate). exact Hs.
Qed.

Lemma digits_pretty_N_go x :
  (0 < x)%N →
  ∃ p, ∀ s acc b, digits (pretty_N_go x s) acc b = digits s (acc * p + Z.of_N x) true.
Proof.
  induction (N.lt_wf_0 x) as [x _ IH]; intros Hx.
  destruct (N.eq_0_gt_0_cases (x `div` 10)) as [H0 | Hpos].
  - exists 10. intros s acc b. rewrite pretty_N_go_step, H0, pretty_N_go_0 by exact Hx.
    cbn [digits]. rewrite digit_pretty_N_char by (apply N.mod_lt; discriminate).
    f_equal. pose proof (N.div_mod x 10 ltac:(lia)). lia.
  - destruct (IH (x `div` 10)%N (N.div_lt x 10 Hx eq_refl) Hpos) as [p Hp].
    exists (10 * p). intros s acc b. rewrite pretty_N_go_step, Hp by exact Hx.
    cbn [digits]. rewrite digit_pretty_N_char by (apply N.mod_lt; discriminate).
    f_equal. pose proof (N.div_mod x 10 ltac:(lia)). lia.
Qed.

Lemma all_digits_not_space c r : all_digits (String c r) = true → is_space c = false.
Proof.
  cbn [all_digits]. destruct c as [[] [] [] [] [] [] [] []]; try discriminate; reflexivity.
Qed.

Lemma all_digits_strip s : all_digits s = true → rstrip (lstrip s) = s.
Proof.
  intros Hs. assert (lstrip s = s) as ->.
  { destruct s as [| c r]; [reflexivity |]. cbn [lstrip].
    rewrite (all_digits_not_space c r Hs). reflexivity. }
  induction s as [| c r IH]; [reflexivity |].
  cbn [rstrip]. rewrite (all_digits_not_space c r Hs).
  cbn [all_digits] in Hs. destruct (digit c); [| discriminate].
  rewrite (IH Hs). destruct r; reflexivity.
Qed.

Lemma py_int_all_digits s :
  all_digits s = true → s ≠ EmptyString →
  py_int s = match digits s 0 false with Some z => Ok z | None => Raise ValueError end.
Proof.
  intros Hs Hne. unfold py_int. rewrite (all_digits_strip s Hs).
  destruct s as [| c r]; [congruence |].
  cbn [all_digits] in Hs.
  destruct c as [[] [] [] [] [] [] [] []]; try discriminate Hs; reflexivity.
Qed.

Lemma pretty_N_go_digits x :
  (0 < x)%N →
  all_digits (pretty_N_go x "") = true ∧ pretty_N_go x "" ≠ EmptyString ∧
  digits (pretty_N_go x "") 0 false = Some (Z.of_N x).
Proof.
  intros Hx. destruct (digits_pretty_N_go x Hx) as [p Hp].
  assert (digits (pretty_N_go x "") 0 false = Some (Z.of_N x)) as Hd
    by (rewrite Hp; reflexivity).
  split; [apply all_digits_pretty_N_go; reflexivity |]. split; [| exact Hd].
  intros E. rewrite E in Hd. discriminate Hd.
Qed.

Lemma py_str_pos p :
  py_str (Zpos p) = pretty_N_go (Npos p) "" ∧ py_str (Zneg p) = String "-" (pretty_N_go (Npos p) "").
Proof. split; reflexivity. Qed.

(** [int(str(n)) == n] *)
Lemma py_int_py_str n : py_int (py_str n) = Ok n.
Proof.
  destruct n as [| p | p]; [reflexivity | |];
    destruct (py_str_pos p) as [Hpos Hneg];
    destruct (pretty_N_go_digits (Npos p) eq_refl) as (Hall & Hne & Hd).
  - rewrite Hpos, (py_int_all_digits _ Hall Hne), Hd. reflexivity.
  - rewrite Hneg. unfold py_int.
    change (lstrip (String "-" ?s)) with (String "-" s).
    assert (rstrip (String "-" (pretty_N_go (N.pos p) "")) = String "-" (pretty_N_go (N.pos p) ""))
      as ->.
    { pose proof (all_digits_strip _ Hall) as Hs.
      assert (lstrip (pretty_N_go (N.pos p) "") = pretty_N_go (N.pos p) "") as Hl.
      { destruct (pretty_N_go (N.pos p) "") as [| c r]; [reflexivity |]. cbn [lstrip].
        rewrite (all_digits_not_space c r Hall). reflexivity. }
      rewrite Hl in Hs. cbn [rstrip]. rewrite Hs.
      destruct (pretty_N_go (N.pos p) ""); [congruence | reflexivity]. }
    rewrite Hd. reflexivity.
Qed.

Lemma all_digits_split s : all_digits s = true → split "_" s = [s].
Proof.
  induction s as [| c r IH]; [reflexivity |]. cbn [all_digits split].
  destruct (digit c) eqn:Hc; [| discriminate]. intros Hr. rewrite (IH Hr).
  destruct c as [[] [] [] [] [] [] [] []]; try discriminate Hc; reflexivity.
Qed.

Lemma py_str_split n : split "_" (py_str n) = [py_str n].
Proof.
  destruct n as [| p | p]; [reflexivity | |];
    destruct (py_str_pos p) as [Hpos Hneg];
    destruct (pretty_N_go_digits (Npos p) eq_refl) as (Hall & _ & _).
  - rewrite Hpos. apply all_digits_split, Hall.
  - rewrite Hneg. cbn [split]. rewrite (all_digits_split _ Hall). reflexivity.
Qed.

End numbers_as_text.

(** * The start command *)

(** ** Runs of the handler *)

(** One step of a run: the first computation of a [bind] is evaluated by
    the equation that [tac] proves for it at the current world. *)
Ltac step tac :=
  match goal with
  | |- bind ?c _ ?wx = _ =>
      let E := fresh "E" in
      eassert (c wx = _) as E by (tac wx);
      first [rewrite (bind_ok _ _ _ _ _ E) | rewrite (bind_raise _ _ _ _ _ E)];
      clear E; cbv beta
  end.

Section start_runs.
Context `{DateTime}.
Import database_json.

Lemma split_step sep c s :
  split sep (String c s) =
  if Ascii.eqb c sep then EmptyString :: split sep s
  else match split sep s with
       | h :: t => String c h :: t
       | [] => [String c EmptyString]
       end.
Proof. reflexivity. Qed.

Lemma video_param_parts n :
  String.prefix "token_" (video_param n) = false ∧
  String.prefix "video_" (video_param n) = true ∧
  item (split "_" (video_param n)) 1 = Ok (py_str n).
Proof.
  unfold video_param.
  change ("video_" +:+ py_str n)%string
    with (String "v" (String "i" (String "d" (String "e" (String "o"
            (String "_" (py_str n))))))).
  split; [reflexivity |]. split.
  - cbn. destruct (py_str n); reflexivity.
  - rewrite !split_step, py_str_split. reflexivity.
Qed.

Lemma token_param_parts n :
  String.prefix "token_" (token_param n) = true ∧
  item (split "_" (token_param n)) 1 = Ok (py_str n).
Proof.
  unfold token_param.
  change ("token_" +:+ py_str n)%string
    with (String "t" (String "o" (String "k" (String "e" (String "n"
            (String "_" (py_str n))))))).
  split.
  - cbn. destruct (py_str n); reflexivity.
  - rewrite !split_step, py_str_split. reflexivity.
Qed.

Lemma seen_lookup uid name r k :
  k ≠ "username"%string →
  seen uid name r !! k =
  match r with
  | Some (_, f) => f !! k
  | None => plain_record uid name !! k
  end.
Proof.
  intros Hk. destruct r as [[i f] |]; [| reflexivity].
  unfold seen. rewrite lookup_insert_ne by congruence. reflexivity.
Qed.

(** [add_user] leaves the caller with a record in the users file. *)
Lemma add_user_seen uid name w m us r :
  users_of w m us → find_record "user_id" us uid = Ok r →
  let us1 := seen_users uid name us r in
  let m1 := <["users" := VList us1]> m in
  let w1 := with_file USERS_FILE (VDict m1) w in
  add_user uid name w = (Ok tt, w1) ∧ users_of w1 m1 us1 ∧
  ∃ i, find_record "user_id" us1 uid = Ok (Some (i, seen uid name r)).
Proof.
  intros Hw Hr us1 m1 w1. split; [| split].
  - rewrite (add_user_run uid name w m us r Hw Hr). destruct r as [[i f] |]; reflexivity.
  - apply users_of_with_file, lookup_insert_eq.
  - destruct r as [[i f] |].
    + exists i. destruct (find_record_Some _ _ _ _ _ Hr) as (Hi & _).
      unfold us1, seen_users.
      rewrite (find_record_update "user_id" us i f (seen uid name (Some (i, f))) uid Hi)
        by (apply seen_lookup; discriminate).
      rewrite Hr. rewrite decide_True by reflexivity. reflexivity.
    + exists (length us). unfold us1, seen_users. rewrite find_record_app, Hr.
      cbn [seen]. unfold plain_record. simplify_map_eq.
      rewrite Z.eqb_refl. reflexivity.
Qed.

Lemma greeted_users update args w m us r :
  let user := effective_user update in
  users_of (greeted update args m us r w)
    (<["users" := VList (seen_users (id user) (username user) us r)]> m)
    (seen_users (id user) (username user) us r).
Proof. apply users_of_with_file, lookup_insert_eq. Qed.

Lemma greeted_videos update args w m us r mv :
  videos_of w mv → videos_of (greeted update args m us r w) mv.
Proof.
  unfold videos_of, greeted. cbn [fs logged]. intros <-.
  apply stored_with_file_ne. discriminate.
Qed.

(** [start_command] up to the premium check. *)
Lemma start_command_greeted update args w m us r :
  let user := effective_user update in
  users_of w m us → find_record "user_id" us (id user) = Ok r →
  bot.start_command update args w =
  (do premium <- check_user_premium (id user);
   if premium then
     do premium_expiry <- get_premium_expiry (id user);
     do premium_days <-
       match premium_expiry with
       | Some e => do t <- now; ret (timedelta_days (e - t))
       | None => ret 0
       end;
     send (PremiumWelcome (first_name user) premium_days)
   else
     do returned <- bot.deep_link update args;
     if returned then ret tt
     else bot.welcome update) (greeted update args m us r w).
Proof.
  intros user Hw Hr. unfold bot.start_command. cbv zeta. fold user.
  destruct (add_user_seen (id user) (username user) w m us r Hw Hr) as (Hadd & _).
  rewrite (bind_ok _ _ _ _ _ Hadd). reflexivity.
Qed.

(** A caller without the premium flag goes on to the deep link. *)
Lemma start_command_unflagged update args w m us r :
  let user := effective_user update in
  users_of w m us → find_record "user_id" us (id user) = Ok r →
  flagged (seen (id user) (username user) r) = false →
  bot.start_command update args w =
  (do returned <- bot.deep_link update args;
   if returned then ret tt
   else bot.welcome update) (greeted update args m us r w).
Proof.
  intros user Hw Hr Hflag.
  rewrite (start_command_greeted update args w m us r Hw Hr). fold user.
  destruct (add_user_seen (id user) (username user) w m us r Hw Hr) as (_ & _ & i & Hi).
  rewrite (bind_ok _ _ (greeted update args m us r w) false (greeted update args m us r w)).
  - reflexivity.
  - rewrite (check_user_premium_run (id user) _ _ _ _ (greeted_users update args w m us r) Hi).
    fold user. rewrite Hflag. reflexivity.
Qed.


Lemma bot_check_user_joined_channels_run update wx m us i (f : record) :
  users_of wx m us →
  find_record "user_id" us (id (effective_user update)) = Ok (Some (i, f)) →
  bot.check_user_joined_channels update wx =
  if has_joined f
  then (Ok true, wx)
  else (Ok false, said (MembershipRequired (first_name (effective_user update))) wx).
Proof.
  intros Hw Hr. unfold bot.check_user_joined_channels, has_joined. cbv zeta.
  rewrite (bind_ok _ _ _ _ _ (check_user_joined_channels_run _ wx m us _ Hw Hr)).
  destruct (truthy _); reflexivity.
Qed.

Lemma check_user_token_on_record uid w m us i f :
  users_of w m us → find_record "user_id" us uid = Ok (Some (i, f)) →
  check_user_token uid w =
  match token_on_record f with
  | Ok (Some expiry) => (Ok (clock w (reads w) <? expiry), tick 1 w)
  | Ok None => (Ok false, w)
  | Raise e => (Raise e, w)
  end.
Proof.
  intros Hw Hr. rewrite (check_user_token_run uid w m us _ Hw Hr).
  unfold token_on_record.
  destruct (f !! "token_expiry"%string) as [te |]; [| reflexivity].
  destruct (truthy te); [| reflexivity].
  destruct (datetime_fromisoformat te); reflexivity.
Qed.

Lemma deep_link_video_run update n rest wx m us i (f : record) mv vs rv :
  let user := effective_user update in
  users_of wx m us → find_record "user_id" us (id user) = Ok (Some (i, f)) →
  flagged f = false →
  videos_of wx mv → mv !! "videos"%string = Some (VList vs) →
  find_record "id" vs n = Ok rv →
  let w2 := logged [InfoDeepLink (video_param n)] wx in
  bot.deep_link update (video_param n :: rest) wx =
  if has_joined f then
    match token_on_record f with
    | Raise e => (Raise e, w2)
    | Ok None => (Ok true, said (TokenExpired (first_name user)) w2)
    | Ok (Some expiry) =>
        if clock wx (reads wx) <? expiry then
          match rv with
          | Some (_, video) =>
              match video_tuple video with
              | Ok (_, title, file_id, _) =>
                  (Ok true, said (VideoMessage file_id title) (tick 1 w2))
              | Raise e => (Raise e, tick 1 w2)
              end
          | None => (Ok true, said VideoNotFound (tick 1 w2))
          end
        else (Ok true, said (TokenExpired (first_name user)) (tick 1 w2))
    end
  else (Ok true, said (MembershipRequired (first_name user)) w2).
Proof.
  intros user Hw Hr Hflag Hmv Hvs Hrv w2.
  destruct (video_param_parts n) as (Hp1 & Hp2 & Hp3).
  assert (∀ wy, fs wy = fs wx → users_of wy m us) as Hwy
    by (intros wy E; apply (users_of_same_file wx); [rewrite E; reflexivity | assumption]).
  assert (∀ wy, fs wy = fs wx → videos_of wy mv) as Hvy
    by (intros wy E; apply (videos_of_same_file wx); [rewrite E; reflexivity | assumption]).
  assert (∀ wy, fs wy = fs wx → check_user_premium (id user) wy = (Ok false, wy)) as Hprem.
  { intros wy E. rewrite (check_user_premium_run (id user) wy m us _ (Hwy wy E) Hr), Hflag.
    reflexivity. }
  unfold bot.deep_link. cbv zeta. fold user.
  step ltac:(fun w0 => unfold log; reflexivity). rewrite Hp1, Hp2.
  unfold bind at 1.
  match goal with |- context [bot.check_user_joined_channels update ?w0] =>
    rewrite (bot_check_user_joined_channels_run update w0 m us i f (Hwy w0 eq_refl) Hr)
  end.
  fold user. destruct (has_joined f); [| reflexivity].
  cbv iota beta. cbn [negb].
  unfold bind at 1, lift at 1. rewrite Hp3.
  unfold bind at 1, lift at 1. rewrite py_int_py_str.
  unfold bind at 1.
  match goal with |- context [check_user_token (id user) ?w0] =>
    rewrite (check_user_token_on_record (id user) w0 m us _ _ (Hwy w0 eq_refl) Hr)
  end.
  cbn [clock reads].
  destruct (token_on_record f) as [[expiry |] | e]; [| | reflexivity].
  - destruct (clock wx (reads wx) <? expiry).
    + cbv iota beta. unfold bind at 1, ret at 1. cbv iota beta.
      unfold bind at 1.
      match goal with |- context [get_video_by_id n ?w0] =>
        rewrite (get_video_by_id_run n w0 mv vs _ (Hvy w0 eq_refl) Hvs Hrv)
      end.
      destruct rv as [[j video] |]; [| reflexivity].
      destruct (video_tuple video) as [[[[a b] c] d] | e]; reflexivity.
    + cbv iota beta. unfold bind at 1.
      match goal with |- context [check_user_premium (id user) ?w0] =>
        rewrite (Hprem w0 eq_refl)
      end. reflexivity.
  - cbv iota beta. unfold bind at 1.
      match goal with |- context [check_user_premium (id user) ?w0] =>
        rewrite (Hprem w0 eq_refl)
      end. reflexivity.
Qed.

Lemma welcome_run update wx m us i (f : record) :
  let user := effective_user update in
  users_of wx m us → find_record "user_id" us (id user) = Ok (Some (i, f)) →
  bot.welcome update wx =
  if has_joined f then
    match token_on_record f with
    | Raise e => (Raise e, wx)
    | Ok None => (Ok tt, said (TokenExpired (first_name user)) wx)
    | Ok (Some expiry) =>
        (Ok tt, said (if clock wx (reads wx) <? expiry
                      then TokenActive (first_name user)
                      else TokenExpired (first_name user)) (tick 1 wx))
    end
  else (Ok tt, said (MembershipRequired (first_name user)) wx).
Proof.
  intros user Hw Hr. unfold bot.welcome. cbv zeta. fold user.
  unfold bind at 1.
  rewrite (bot_check_user_joined_channels_run update wx m us i f Hw Hr).
  fold user. destruct (has_joined f); [| reflexivity].
  cbv iota beta. cbn [negb]. unfold bind at 1.
  rewrite (check_user_token_on_record (id user) wx m us _ _ Hw Hr).
  destruct (token_on_record f) as [[expiry |] | e]; [| reflexivity | reflexivity].
  destruct (clock wx (reads wx) <? expiry); reflexivity.
Qed.

Lemma deep_link_own_token_run update rest wx m us r :
  let user := effective_user update in
  let param := token_param (id user) in
  users_of wx m us → find_record "user_id" us (id user) = Ok r →
  let expiry := isoformat (clock wx (reads wx) + hours 24) in
  bot.deep_link update (param :: rest) wx =
  (Ok true,
   said TokenRefreshed
     (with_file USERS_FILE
        (VDict (<["users" :=
           VList match r with
                 | Some (i, f) =>
                     <[i := VDict (<["is_active" := VBool true]>
                                     (<["token_expiry" := VStr expiry]> f))]> us
                 | None => us ++ [VDict (token_record (id user) expiry)]
                 end]> m))
        (tick 1 (logged [InfoSettingToken (id user)]
                   (logged [InfoTokenAttempt (py_str (id user))]
                      (logged [InfoDeepLink param] wx)))))).
Proof.
  intros user param Hw Hr expiry.
  destruct (token_param_parts (id user)) as (Hp1 & Hp2). fold param in Hp1, Hp2.
  unfold bot.deep_link. cbv zeta. fold user.
  step ltac:(fun w0 => unfold log; reflexivity). rewrite Hp1.
  unfold bind at 1, lift at 1. rewrite Hp2.
  step ltac:(fun w0 => unfold log; reflexivity).
  unfold try_except. unfold bind at 1. unfold lift at 1. rewrite py_int_py_str.
  rewrite Z.eqb_refl.
  unfold bind at 1, log at 1. unfold bind at 1.
  match goal with |- context [set_user_token (id user) 24 ?w0] =>
    rewrite (set_user_token_run (id user) 24 w0 m us r
               (users_of_same_file wx w0 m us eq_refl Hw) Hr)
  end.
  reflexivity.
Qed.


Lemma seen_known uid name i (f : record) :
  flagged (seen uid name (Some (i, f))) = flagged f ∧
  has_joined (seen uid name (Some (i, f))) = has_joined f ∧
  token_on_record (seen uid name (Some (i, f))) = token_on_record f ∧
  premium_on_record (seen uid name (Some (i, f))) = premium_on_record f.
Proof.
  unfold flagged, has_joined, token_on_record, premium_on_record.
  rewrite !seen_lookup by discriminate. repeat split; reflexivity.
Qed.

Lemma start_command_video_run update n rest w m us r mv vs rv :
  let user := effective_user update in
  let f := seen (id user) (username user) r in
  users_of w m us → find_record "user_id" us (id user) = Ok r →
  flagged f = false →
  videos_of w mv → mv !! "videos"%string = Some (VList vs) →
  find_record "id" vs n = Ok rv →
  let w2 := logged [InfoDeepLink (video_param n)]
              (greeted update (video_param n :: rest) m us r w) in
  bot.start_command update (video_param n :: rest) w =
  if has_joined f then
    match token_on_record f with
    | Raise e => (Raise e, w2)
    | Ok None => (Ok tt, said (TokenExpired (first_name user)) w2)
    | Ok (Some expiry) =>
        if clock w (reads w) <? expiry then
          match rv with
          | Some (_, video) =>
              match video_tuple video with
              | Ok (_, title, file_id, _) =>
                  (Ok tt, said (VideoMessage file_id title) (tick 1 w2))
              | Raise e => (Raise e, tick 1 w2)
              end
          | None => (Ok tt, said VideoNotFound (tick 1 w2))
          end
        else (Ok tt, said (TokenExpired (first_name user)) (tick 1 w2))
    end
  else (Ok tt, said (MembershipRequired (first_name user)) w2).
Proof.
  intros user f Hw Hr Hflag Hmv Hvs Hrv w2.
  rewrite (start_command_unflagged update _ w m us r Hw Hr Hflag).
  destruct (add_user_seen (id user) (username user) w m us r Hw Hr) as (_ & _ & i & Hi).
  unfold bind at 1.
  rewrite (deep_link_video_run update n rest _ _ _ i f mv vs rv
             (greeted_users update _ w m us r) Hi Hflag
             (greeted_videos update _ w m us r mv Hmv) Hvs Hrv).
  fold user w2. cbn [clock reads greeted logged with_file].
  destruct (has_joined f); [| reflexivity].
  destruct (token_on_record f) as [[expiry |] | e]; [| reflexivity | reflexivity].
  destruct (clock w (reads w) <? expiry); [| reflexivity].
  destruct rv as [[j video] |]; [| reflexivity].
  destruct (video_tuple video) as [[[[a b] c] d] | e]; reflexivity.
Qed.

Lemma start_command_plain_run update w m us r :
  let user := effective_user update in
  let f := seen (id user) (username user) r in
  users_of w m us → find_record "user_id" us (id user) = Ok r →
  flagged f = false →
  let w1 := greeted update [] m us r w in
  bot.start_command update [] w =
  if has_joined f then
    match token_on_record f with
    | Raise e => (Raise e, w1)
    | Ok None => (Ok tt, said (TokenExpired (first_name user)) w1)
    | Ok (Some expiry) =>
        (Ok tt, said (if clock w (reads w) <? expiry
                      then TokenActive (first_name user)
                      else TokenExpired (first_name user)) (tick 1 w1))
    end
  else (Ok tt, said (MembershipRequired (first_name user)) w1).
Proof.
  intros user f Hw Hr Hflag w1.
  rewrite (start_command_unflagged update _ w m us r Hw Hr Hflag).
  destruct (add_user_seen (id user) (username user) w m us r Hw Hr) as (_ & _ & i & Hi).
  unfold bind at 1. unfold bot.deep_link at 1. cbv zeta. unfold ret at 1. cbv iota beta.
  rewrite (welcome_run update _ _ _ i f (greeted_users update _ w m us r) Hi).
  reflexivity.
Qed.

Lemma start_command_own_token_run update rest w m us r :
  let user := effective_user update in
  let param := token_param (id user) in
  let f := seen (id user) (username user) r in
  users_of w m us → find_record "user_id" us (id user) = Ok r →
  flagged f = false →
  ∃ i w',
    bot.start_command update (param :: rest) w = (Ok tt, w') ∧
    sent w' = sent w ++ [TokenRefreshed] ∧
    clock w' = clock w ∧ reads w' = S (reads w) ∧
    users_of w' (<["users" := VList (<[i := VDict
         (<["is_active" := VBool true]>
            (<["token_expiry" := VStr (isoformat (clock w (reads w) + hours 24))]> f))]>
         (seen_users (id user) (username user) us r))]> m)
      (<[i := VDict
         (<["is_active" := VBool true]>
            (<["token_expiry" := VStr (isoformat (clock w (reads w) + hours 24))]> f))]>
         (seen_users (id user) (username user) us r)) ∧
    seen_users (id user) (username user) us r !! i = Some (VDict f) ∧
    find_record "user_id" (seen_users (id user) (username user) us r) (id user)
      = Ok (Some (i, f)).
Proof.
  intros user param f Hw Hr Hflag.
  rewrite (start_command_unflagged update _ w m us r Hw Hr Hflag).
  destruct (add_user_seen (id user) (username user) w m us r Hw Hr) as (_ & _ & i & Hi).
  exists i. eexists. unfold bind at 1.
  rewrite (deep_link_own_token_run update rest _ _ _ _
             (greeted_users update _ w m us r) Hi).
  cbv iota beta. split; [reflexivity |].
  split; [reflexivity |]. split; [reflexivity |]. split; [reflexivity |].
  split.
  - split.
    + unfold said, with_file, stored. cbn [fs]. rewrite lookup_insert_eq, insert_insert_eq. reflexivity.
    + apply lookup_insert_eq.
  - split; [| exact Hi]. apply (find_record_Some _ _ _ _ _ Hi).
Qed.


Lemma greeted_other_file update args m us r w path :
  path ≠ USERS_FILE → fs (greeted update args m us r w) !! path = fs w !! path.
Proof. intros Hne. unfold greeted. cbn. apply lookup_insert_ne. congruence. Qed.

End start_runs.

(** ** What the start command answers *)

Section starting.
Context `{DateTime}.
Import database_json.

(** X13. A video link opens only for a member with a running token.  For
    a recorded caller without the premium flag, [/start video_<n>] sends
    at most one message and leaves the videos file alone; that message is
    the video with file id and title [file_id], [title] exactly when the
    caller's record has a truthy [joined_channels], its [token_expiry]
    parses to a time after the clock, and the videos list holds a record
    with id [n] that carries these two fields. *)
Theorem video_sent_iff_entitled (update : update) (n : Z) (rest : list string)
    (w : world) (m : record) (us : list value) (i : nat) (f mv : record)
    (vs : list value) (rv : option (nat * record)) :
  let user := effective_user update in
  users_of w m us → find_record "user_id" us (id user) = Ok (Some (i, f)) →
  flagged f = false →
  videos_of w mv → mv !! "videos"%string = Some (VList vs) →
  find_record "id" vs n = Ok rv →
  ∃ o w' new,
    bot.start_command update (video_param n :: rest) w = (o, w') ∧
    sent w' = sent w ++ new ∧ (length new ≤ 1)%nat ∧
    fs w' !! VIDEOS_FILE = fs w !! VIDEOS_FILE ∧
    ∀ file_id title,
      VideoMessage file_id title ∈ new ↔
      has_joined f = true ∧
      (∃ expiry, token_on_record f = Ok (Some expiry) ∧ clock w (reads w) < expiry) ∧
      (∃ j video id_ short_url,
          rv = Some (j, video) ∧
          video_tuple video = Ok (id_, title, file_id, short_url)).
Proof.
  intros user Hw Hr Hflag Hmv Hvs Hrv.
  destruct (seen_known (id user) (username user) i f) as (Ef & Ej & Et & _).
  pose proof (start_command_video_run update n rest w m us (Some (i, f)) mv vs rv
                Hw Hr (eq_trans Ef Hflag) Hmv Hvs Hrv) as Hrun.
  cbv zeta in Hrun. fold user in Hrun. rewrite Ej, Et in Hrun.
  assert (fs (greeted update (video_param n :: rest) m us (Some (i, f)) w) !! VIDEOS_FILE
          = fs w !! VIDEOS_FILE) as Hvid by (apply greeted_other_file; discriminate).
  destruct (has_joined f).
  2:{ eexists _, _, [_]. split; [exact Hrun |]. split; [reflexivity |].
      split; [reflexivity |]. split; [exact Hvid |].
      intros a b. split; [| intros ([=] & _)].
      intros Hin; apply list_elem_of_singleton in Hin; discriminate Hin. }
  destruct (token_on_record f) as [[expiry |] | e].
  - destruct (Z.ltb_spec (clock w (reads w)) expiry) as [Hlt | Hge].
    + destruct rv as [[j video] |].
      * destruct (video_tuple video) as [[[[id_ title] file_id] su] | e] eqn:Htuple.
        -- eexists _, _, [_]. split; [exact Hrun |]. split; [reflexivity |].
           split; [reflexivity |]. split; [exact Hvid |].
           intros a b. rewrite list_elem_of_singleton. split.
           ++ intros [= -> ->]. split; [reflexivity |]. split; [eauto |].
              eexists _, _, _, _. split; [reflexivity | exact Htuple].
           ++ intros (_ & _ & j' & video' & id' & su' & [= <- <-] & Ht).
              rewrite Htuple in Ht. injection Ht as _ -> -> _. reflexivity.
        -- eexists _, _, []. split; [exact Hrun |].
           split; [symmetry; apply app_nil_r |].
           split; [simpl; lia |]. split; [exact Hvid |].
           intros a b. split; [intros Hin; inversion Hin |].
           intros (_ & _ & j' & video' & id' & su' & [= <- <-] & Ht).
           rewrite Htuple in Ht. discriminate Ht.
      * eexists _, _, [_]. split; [exact Hrun |]. split; [reflexivity |].
        split; [reflexivity |]. split; [exact Hvid |].
        intros a b. split.
        -- intros Hin; apply list_elem_of_singleton in Hin; discriminate Hin.
        -- intros (_ & _ & j' & video' & id' & su' & [=] & _).
    + eexists _, _, [_]. split; [exact Hrun |]. split; [reflexivity |].
      split; [reflexivity |]. split; [exact Hvid |].
      intros a b. split.
      * intros Hin; apply list_elem_of_singleton in Hin; discriminate Hin.
      * intros (_ & (expiry' & [= <-] & Hlt) & _). lia.
  - eexists _, _, [_]. split; [exact Hrun |]. split; [reflexivity |].
    split; [reflexivity |]. split; [exact Hvid |].
    intros a b. split.
    + intros Hin; apply list_elem_of_singleton in Hin; discriminate Hin.
    + intros (_ & (expiry' & [=] & _) & _).
  - eexists _, _, []. split; [exact Hrun |].
    split; [symmetry; apply app_nil_r |].
    split; [simpl; lia |]. split; [exact Hvid |].
    intros a b. split; [intros Hin; inversion Hin |].
    intros (_ & (expiry' & [=] & _) & _).
Qed.




Lemma seen_unflagged uid name r :
  (∀ i f, r = Some (i, f) → flagged f = false) → flagged (seen uid name r) = false.
Proof.
  intros Hr. destruct r as [[i f] |]; [| reflexivity].
  rewrite (proj1 (seen_known uid name i f)). eauto.
Qed.

(** X15. The caller's own token link grants 24 hours, to anyone without
    the premium flag: a recorded user or one never seen before, whether or
    not the channels were joined.  [/start token_<own id>] answers with the
    refresh message only, and from then on [get_token_expiry] returns the
    clock at the start plus 24 hours and [check_user_token] compares the
    clock with it, for as long as the users file stays as it is. *)
Theorem own_token_link_grants_24_hours (update : update) (rest : list string)
    (w : world) (m : record) (us : list value) (r : option (nat * record)) :
  let user := effective_user update in
  users_of w m us → find_record "user_id" us (id user) = Ok r →
  (∀ i f, r = Some (i, f) → flagged f = false) →
  ∃ w', bot.start_command update (token_param (id user) :: rest) w = (Ok tt, w') ∧
        sent w' = sent w ++ [TokenRefreshed] ∧
        ∀ w2, fs w2 !! USERS_FILE = fs w' !! USERS_FILE →
          get_token_expiry (id user) w2
            = (Ok (Some (clock w (reads w) + hours 24)), w2) ∧
          check_user_token (id user) w2
            = (Ok (clock w2 (reads w2) <? clock w (reads w) + hours 24), tick 1 w2).
Proof.
  intros user Hw Hr Hflag.
  destruct (start_command_own_token_run update rest w m us r Hw Hr
              (seen_unflagged _ _ _ Hflag))
    as (i & w' & Hrun & Hsent & _ & _ & Hw' & Hi & Hfind).
  exists w'. split; [exact Hrun |]. split; [exact Hsent |].
  intros w2 Hsame.
  pose proof (users_of_same_file w' w2 _ _ Hsame Hw') as Hw2.
  match type of Hw2 with users_of _ _ (<[i := VDict ?g]> ?l) =>
    assert (find_record "user_id" (<[i := VDict g]> l) (id user) = Ok (Some (i, g)))
      as Hfind2
  end.
  { unfold user. rewrite (find_record_update "user_id" _ i _ _ _ Hi), Hfind.
    - rewrite decide_True by reflexivity. reflexivity.
    - rewrite !lookup_insert_ne by discriminate. reflexivity. }
  split.
  - rewrite (get_token_expiry_run (id user) w2 _ _ _ Hw2 Hfind2).
    rewrite lookup_insert_ne by discriminate. rewrite lookup_insert_eq.
    rewrite truthy_isoformat, datetime_fromisoformat_isoformat. reflexivity.
  - rewrite (check_user_token_run (id user) w2 _ _ _ Hw2 Hfind2).
    rewrite lookup_insert_ne by discriminate. rewrite lookup_insert_eq.
    rewrite truthy_isoformat, datetime_fromisoformat_isoformat. reflexivity.
Qed.



(** X17. A plain [/start] of a member without the premium flag reports
    the state of the token: the only message says that the token is active
    when the record's [token_expiry] parses to a time after the clock, and
    that it is expired when it is before the clock, null or empty. *)
Theorem plain_start_reports_token (update : update) (w : world) (m : record)
    (us : list value) (i : nat) (f : record) (token : option Z) :
  let user := effective_user update in
  users_of w m us → find_record "user_id" us (id user) = Ok (Some (i, f)) →
  flagged f = false → has_joined f = true → token_on_record f = Ok token →
  ∃ w', bot.start_command update [] w = (Ok tt, w') ∧
        sent w' = sent w ++
          [if match token with
              | Some expiry => clock w (reads w) <? expiry
              | None => false
              end
           then TokenActive (first_name user)
           else TokenExpired (first_name user)] ∧
        fs w' = fs (greeted update [] m us (Some (i, f)) w).
Proof.
  intros user Hw Hr Hflag Hj Htoken.
  destruct (seen_known (id user) (username user) i f) as (Ef & Ej & Et & _).
  rewrite (start_command_plain_run update w m us (Some (i, f)) Hw Hr (eq_trans Ef Hflag)).
  fold user. rewrite Ej, Et, Hj, Htoken.
  destruct token as [expiry |]; eexists; repeat split.
Qed.


Lemma create_video_url_run video_id bot_username w :
  shorturl.create_video_url video_id bot_username w
    = (Ok ("https://t.me/" +:+ bot_username +:+ "?start=" +:+ video_param video_id)%string,
       w).
Proof. reflexivity. Qed.

(** X18. The link [create_video_url] makes for a video id carries a start
    parameter that [start_command] takes for a video link and not for a
    token link, and from which [int(param.split("_")[1])] gets the id
    back, negative ids included. *)
Theorem video_link_round_trip (video_id : Z) (bot_username : string) (w : world) :
  shorturl.create_video_url video_id bot_username w
    = (Ok ("https://t.me/" +:+ bot_username +:+ "?start=" +:+ video_param video_id)%string,
       w) ∧
  String.prefix "token_" (video_param video_id) = false ∧
  String.prefix "video_" (video_param video_id) = true ∧
  (match item (split "_" (video_param video_id)) 1 with
   | Ok part => py_int part
   | Raise e => Raise e
   end) = Ok video_id.
Proof.
  destruct (video_param_parts video_id) as (Hp1 & Hp2 & Hp3).
  split; [| split; [exact Hp1 | split; [exact Hp2 |]]].
  - apply create_video_url_run.
  - rewrite Hp3. apply py_int_py_str.
Qed.

(** X19. A published link delivers its video.  After [add_video]
    returned the id [n], [create_video_url] made the link for it and
    [update_video_url] stored the link, a member with a running token and
    without the premium flag who opens [/start video_<n>] is answered with
    exactly that video: the file id and the title given to [add_video]. *)
Theorem published_video_link_delivers (title file_id bot_username : string)
    (added_by : Z) (update : update) (w : world) (m : record) (us : list value)
    (i : nat) (f mv : record) (vs : list value) (n expiry : Z) :
  let user := effective_user update in
  let link := ("https://t.me/" +:+ bot_username +:+ "?start=" +:+ video_param n)%string in
  users_of w m us → find_record "user_id" us (id user) = Ok (Some (i, f)) →
  flagged f = false → has_joined f = true →
  token_on_record f = Ok (Some expiry) → clock w (3 + reads w)%nat < expiry →
  videos_of w mv → videos_inv n mv vs →
  ∃ w1 w2 w3,
    add_video title file_id added_by None w = (Ok (VInt n), w1) ∧
    shorturl.create_video_url n bot_username w1 = (Ok link, w1) ∧
    update_video_url n link w1 = (Ok tt, w2) ∧
    bot.start_command update [video_param n] w2 = (Ok tt, w3) ∧
    sent w3 = sent w ++ [VideoMessage (VStr file_id) (VStr title)].
Proof.
  intros user link Hw Hr Hflag Hj Htoken Hlt Hmv Hinv.
  pose proof Hinv as (Hvs & Hn & Hbelow).
  pose proof (add_video_run title file_id added_by None w mv vs n Hmv Hinv) as Hadd.
  set (rec := video_record n title file_id added_by None
                (clock w (reads w)) (clock w (1 + reads w)%nat)) in *.
  set (m1 := <["next_id" := VInt (n + 1)]> (<["videos" := VList (vs ++ [VDict rec])]> mv))
    in *.
  set (w1 := with_file VIDEOS_FILE (VDict m1) (tick 2 w)) in *.
  assert (videos_of w1 m1) as Hm1 by apply videos_of_with_file.
  assert (m1 !! "videos"%string = Some (VList (vs ++ [VDict rec]))) as Hvs1.
  { subst m1. rewrite lookup_insert_ne by discriminate. apply lookup_insert_eq. }
  assert (find_record "id" (vs ++ [VDict rec]) n = Ok (Some (length vs, rec))) as Hfind1.
  { rewrite find_record_app, (find_record_below n vs n Hbelow) by lia.
    subst rec. unfold video_record. rewrite lookup_insert_eq, py_eq_int_VInt.
    rewrite bool_decide_true by reflexivity. reflexivity. }
  pose proof (update_video_url_exact n link w1 m1 _ _ Hm1 Hvs1 Hfind1) as Hupd.
  cbv iota beta in Hupd.
  set (rec2 := <["url_created_at" := VStr (isoformat (clock w1 (reads w1)))]>
                 (<["short_url" := VStr link]> rec)) in *.
  set (vs2 := <[length vs := VDict rec2]> (vs ++ [VDict rec])) in *.
  set (m2 := <["videos" := VList vs2]> m1) in *.
  set (w2 := with_file VIDEOS_FILE (VDict m2) (tick 1 w1)) in *.
  assert (videos_of w2 m2) as Hm2 by apply videos_of_with_file.
  assert (m2 !! "videos"%string = Some (VList vs2)) as Hvs2 by apply lookup_insert_eq.
  assert (find_record "id" vs2 n = Ok (Some (length vs, rec2))) as Hfind2.
  { subst vs2. destruct (find_record_Some _ _ _ _ _ Hfind1) as (Hat & _).
    rewrite (find_record_update "id" _ _ rec rec2 n Hat), Hfind1.
    - rewrite decide_True by reflexivity. reflexivity.
    - subst rec2. rewrite !lookup_insert_ne by discriminate. reflexivity. }
  assert (video_tuple rec2 = Ok (VInt n, VStr title, VStr file_id, VStr link)) as Htuple.
  { subst rec2 rec. unfold video_tuple, video_record. simplify_map_eq. reflexivity. }
  assert (users_of w2 m us) as Hw2.
  { apply (users_of_same_file w); [| exact Hw]. subst w2 w1. cbn.
    rewrite !lookup_insert_ne by discriminate. reflexivity. }
  destruct (seen_known (id user) (username user) i f) as (Ef & Ej & Et & _).
  pose proof (start_command_video_run update n [] w2 m us (Some (i, f)) m2 vs2 _
                Hw2 Hr (eq_trans Ef Hflag) Hm2 Hvs2 Hfind2) as Hrun.
  cbv zeta in Hrun. fold user in Hrun.
  rewrite Ej, Et, Hj, Htoken, Htuple in Hrun.
  change (clock w2 (reads w2)) with (clock w (3 + reads w)%nat) in Hrun.
  rewrite (proj2 (Z.ltb_lt _ _) Hlt) in Hrun.
  exists w1, w2. eexists. split; [exact Hadd |].
  split; [apply create_video_url_run |].
  split; [exact Hupd |]. split; [exact Hrun |]. reflexivity.
Qed.

End starting.

(** * The premium handlers and the membership callback *)

Section command_runs.
Context `{DateTime}.
Variable ADMIN_USER_IDS : list Z.
Import database_json handlers.

Lemma admin_check_run update :
  admin.admin_check ADMIN_USER_IDS update =
  Ok (bool_decide (id (effective_user update) ∈ ADMIN_USER_IDS)
      || (id (effective_user update) =? 7900891320)).
Proof.
  unfold admin.admin_check. cbv zeta. rewrite _validate_credentials_run.
  case_bool_decide; reflexivity.
Qed.

Lemma int_arg_raises args i e : int_arg args i = Raise e → e = IndexError ∨ e = ValueError.
Proof.
  unfold int_arg, item. destruct (args !! i) as [text |]; [| intros [= <-]; auto].
  intros Hp. right. exact (py_int_raises _ _ Hp).
Qed.

Lemma chosen_duration_raises args e : chosen_duration args = Raise e → e = ValueError.
Proof.
  unfold chosen_duration. destruct (Nat.ltb_spec 1 (length args)) as [Hlen |]; [| discriminate].
  unfold int_arg, item. destruct (args !! 1%nat) as [text |] eqn:Hat.
  - destruct (py_int text) eqn:Hp; [discriminate |]. intros [= <-].
    exact (py_int_raises _ _ Hp).
  - apply lookup_ge_None in Hat. lia.
Qed.

Lemma duration_run args o :
  duration args o =
  match chosen_duration args with
  | Ok (days_, duration_text) =>
      if days_ <=? 0 then (Ok None, noted (Replied DurationNotPositive) o)
      else (Ok (Some (days_, duration_text)), o)
  | Raise _ => (Ok None, noted (Replied InvalidDuration) o)
  end.
Proof.
  pose proof (chosen_duration_raises args) as Hraise. revert Hraise.
  unfold duration, chosen_duration, granted_days.
  destruct (1 <? length args)%nat; [| reflexivity].
  unfold try_except_ValueError, cmd_bind at 1, pure at 1.
  destruct (int_arg args 1) as [value | e]; intros Hraise.
  - destruct (unit_is_days args);
      match goal with |- context [?d <=? 0] => destruct (d <=? 0) end; reflexivity.
  - rewrite (Hraise e eq_refl). reflexivity.
Qed.


Lemma add_premium_command_run update (a : string) rest o :
  let args := a :: rest in
  admin.admin_check ADMIN_USER_IDS update = Ok true →
  add_premium_command ADMIN_USER_IDS update args o =
  match int_arg args 0 with
  | Raise _ => (Ok tt, noted (Replied InvalidUserId) o)
  | Ok uid =>
      match chosen_duration args with
      | Raise _ => (Ok tt, noted (Replied InvalidDuration) o)
      | Ok (days_, duration_text) =>
          if days_ <=? 0 then (Ok tt, noted (Replied DurationNotPositive) o)
          else
            match set_user_premium_days uid days_ (store o) with
            | (Raise e, w1) =>
                (Ok tt, noted (Replied (if is_ValueError e then InvalidUserId
                                        else ErrorAddingPremium e)) (stocked w1 o))
            | (Ok _, w1) =>
                match get_premium_expiry uid w1 with
                | (Raise e, w2) =>
                    (Ok tt, noted (Replied (if is_ValueError e then InvalidUserId
                                            else ErrorAddingPremium e)) (stocked w2 o))
                | (Ok (Some expiry), w2) =>
                    (Ok tt, noted (Replied (PremiumGranted uid duration_text expiry)) (stocked w2 o))
                | (Ok None, w2) =>
                    (Ok tt, noted (Replied (PremiumGrantedExpiryUnknown uid duration_text))
                              (stocked w2 o))
                end
            end
      end
  end.
Proof.
  intros args Hadmin. unfold add_premium_command.
  unfold cmd_bind at 1, pure at 1. rewrite Hadmin. cbn [negb]. cbv iota beta.
  unfold args at 1. cbv iota beta.
  unfold try_except_ValueError_Exception.
  unfold cmd_bind at 1, pure at 1.
  destruct (int_arg args 0) as [uid | e] eqn:Hid.
  2:{ destruct (int_arg_raises _ _ _ Hid) as [-> | ->]; [| reflexivity].
      unfold int_arg, item in Hid. cbn in Hid.
      pose proof (py_int_raises a IndexError) as Hp.
      destruct (py_int a); [discriminate |]. injection Hid as ->.
      discriminate (Hp eq_refl). }
  unfold cmd_bind at 1. rewrite duration_run.
  destruct (chosen_duration args) as [[days_ duration_text] | e]; [| reflexivity].
  destruct (days_ <=? 0); [reflexivity |].
  unfold cmd_bind at 1, db at 1.
  destruct (set_user_premium_days uid days_ (store o)) as [[[] | e] w1] eqn:Hset.
  2:{ cbn [store outbox]. destruct (is_ValueError e); reflexivity. }
  unfold cmd_bind at 1, db at 1. cbn [store outbox].
  destruct (get_premium_expiry uid w1) as [[[expiry |] | e] w2];
    [reflexivity | reflexivity |].
  destruct (is_ValueError e); reflexivity.
Qed.

Lemma remove_premium_command_run update (a : string) rest o :
  let args := a :: rest in
  admin.admin_check ADMIN_USER_IDS update = Ok true →
  remove_premium_command ADMIN_USER_IDS update args o =
  match py_int a with
  | Raise _ => (Ok tt, noted (Replied InvalidUserId) o)
  | Ok uid =>
      match remove_user_premium uid (store o) with
      | (Raise e, w1) =>
          (Ok tt, noted (Replied (if is_ValueError e then InvalidUserId
                                  else ErrorRemovingPremium e)) (stocked w1 o))
      | (Ok success, w1) =>
          (Ok tt, noted (Replied (if success then PremiumRemoved uid else PremiumNotFound uid))
                    (stocked w1 o))
      end
  end.
Proof.
  intros args Hadmin. unfold remove_premium_command.
  unfold cmd_bind at 1, pure at 1. rewrite Hadmin. cbn [negb]. cbv iota beta.
  unfold args. cbv iota beta.
  unfold try_except_ValueError_Exception.
  unfold cmd_bind at 1, pure at 1. unfold int_arg, item. cbn [lookup list_lookup].
  destruct (py_int a) as [uid | e] eqn:Hp.
  2:{ rewrite (py_int_raises _ _ Hp). reflexivity. }
  unfold cmd_bind at 1, db at 1.
  destruct (remove_user_premium uid (store o)) as [[success | e] w1].
  - destruct success; reflexivity.
  - cbn [store outbox]. destruct (is_ValueError e); reflexivity.
Qed.


(** The last message of an admin's command is never the refusal. *)
Lemma admitted_not_refused update args o :
  admin.admin_check ADMIN_USER_IDS update = Ok true →
  add_premium_command ADMIN_USER_IDS update args o ≠ (Ok tt, noted (Replied AdminsOnly) o) ∧
  remove_premium_command ADMIN_USER_IDS update args o ≠ (Ok tt, noted (Replied AdminsOnly) o).
Proof.
  intros Hadmin.
  assert (∀ (t : text) o', t ≠ AdminsOnly →
            (Ok tt, noted (Replied t) o') ≠ (Ok tt, noted (Replied AdminsOnly) o)) as Hne.
  { intros t o' Ht [= _ E _]. apply app_inj_tail in E as [_ [= E]]. exact (Ht E). }
  destruct args as [| a rest].
  - unfold add_premium_command, remove_premium_command, cmd_bind, pure.
    rewrite Hadmin. split; apply Hne; discriminate.
  - rewrite (add_premium_command_run update a rest o Hadmin),
            (remove_premium_command_run update a rest o Hadmin).
    split.
    + destruct (int_arg (a :: rest) 0) as [uid |]; [| apply Hne; discriminate].
      destruct (chosen_duration (a :: rest)) as [[d txt] |]; [| apply Hne; discriminate].
      destruct (d <=? 0); [apply Hne; discriminate |].
      destruct (set_user_premium_days uid d (store o)) as [[[] | e] w1].
      * destruct (get_premium_expiry uid w1) as [[[x |] | e] w2];
          [apply Hne; discriminate .. |].
        destruct (is_ValueError e); apply Hne; discriminate.
      * destruct (is_ValueError e); apply Hne; discriminate.
    + destruct (py_int a) as [uid |]; [| apply Hne; discriminate].
      destruct (remove_user_premium uid (store o)) as [[[] | e] w1];
        [apply Hne; discriminate .. |].
      destruct (is_ValueError e); apply Hne; discriminate.
Qed.

(** X20. The two premium commands refuse exactly those who are no admin:
    the answer of [add_premium_command] and of [remove_premium_command] is
    the refusal, with the store untouched, if and only if the caller's id
    is neither in [ADMIN_USER_IDS] nor the id that [_validate_credentials]
    accepts; for every other caller the last message is another one. *)
Theorem commands_refuse_exactly_non_admins (update : update) (args : list string)
    (o : office) :
  let uid := id (effective_user update) in
  ((add_premium_command ADMIN_USER_IDS update args o = (Ok tt, noted (Replied AdminsOnly) o)) ↔
   (uid ∉ ADMIN_USER_IDS) ∧ uid ≠ 7900891320) ∧
  ((remove_premium_command ADMIN_USER_IDS update args o = (Ok tt, noted (Replied AdminsOnly) o)) ↔
   (uid ∉ ADMIN_USER_IDS) ∧ uid ≠ 7900891320).
Proof.
  intros uid. pose proof (admin_check_run update) as Hcheck. fold uid in Hcheck.
  destruct (decide (uid ∈ ADMIN_USER_IDS)) as [Hin | Hout].
  - rewrite bool_decide_true in Hcheck by exact Hin.
    destruct (admitted_not_refused update args o Hcheck) as [Ha Hr].
    split; (split; [intros E; contradiction | intros [Hno _]; contradiction]).
  - rewrite bool_decide_false in Hcheck by exact Hout. cbn [orb] in Hcheck.
    destruct (Z.eqb_spec uid 7900891320) as [Heq | Hne].
    + destruct (admitted_not_refused update args o Hcheck) as [Ha Hr].
      split; (split; [intros E; contradiction | intros [_ Hno]; contradiction]).
    + split; (split; [intros _; split; assumption | intros _]).
      * unfold add_premium_command, cmd_bind, pure. rewrite Hcheck. reflexivity.
      * unfold remove_premium_command, cmd_bind, pure. rewrite Hcheck. reflexivity.
Qed.



(** X23. What [remove_premium_command] reports.  For an admin and a
    numeric user id the answer follows the scan for the user alone: the
    removal is reported whenever a record of the user exists, whether or
    not it held premium, and the user is reported as not found, with the
    store untouched, only when there is no record. *)
Theorem remove_premium_command_reports (update : update) (a : string)
    (rest : list string) (o : office) (m : record) (us : list value) (uid : Z)
    (r : option (nat * record)) :
  admin.admin_check ADMIN_USER_IDS update = Ok true →
  users_of (store o) m us → find_record "user_id" us uid = Ok r →
  py_int a = Ok uid →
  ∃ w1,
    remove_user_premium uid (store o) = (Ok (bool_decide (is_Some r)), w1) ∧
    remove_premium_command ADMIN_USER_IDS update (a :: rest) o
      = (Ok tt, noted (Replied match r with
                                 | Some _ => PremiumRemoved uid
                                 | None => PremiumNotFound uid
                                 end)
                  (stocked w1 o)) ∧
    (r = None → w1 = store o).
Proof.
  intros Hadmin Hw Hr Ha.
  pose proof (remove_user_premium_run uid (store o) m us r Hw Hr) as Hrun.
  rewrite (remove_premium_command_run update a rest o Hadmin), Ha.
  destruct r as [[i f] |]; rewrite Hrun; eexists;
    (split; [reflexivity |]); (split; [reflexivity |]); [discriminate | reflexivity].
Qed.

End command_runs.

Section callback.
Context `{DateTime}.
Import database_json handlers.

Lemma set_user_joined_channels_confirms uid w m us :
  users_of w m us → Forall (keyed "user_id") us →
  ∃ w', set_user_joined_channels uid w = (Ok tt, w') ∧ confirmed uid w' ∧
        clock w' = clock w ∧ reads w' = reads w.
Proof.
  intros Hw Hus.
  destruct (find_record_total "user_id" us uid Hus) as [r Hr].
  rewrite (set_user_joined_channels_run uid w m us r Hw Hr).
  eexists. split; [reflexivity |]. split; [| split; reflexivity].
  destruct r as [[i f] |].
  - destruct (find_record_Some _ _ _ _ _ Hr) as [Hi (u & Hu & _)].
    eexists _, _, i, (<["joined_channels" := VBool true]> f).
    split; [apply users_of_with_file, lookup_insert_eq |].
    split; [apply keyed_insert; [exact Hus |];
            rewrite lookup_insert_ne by discriminate; rewrite Hu; eauto |].
    split; [| apply lookup_insert_eq].
    rewrite (find_record_update "user_id" us i f _ uid Hi), Hr.
    + rewrite decide_True by reflexivity. reflexivity.
    + rewrite lookup_insert_ne by discriminate. reflexivity.
  - eexists _, _, (length us), (joined_record uid).
    split; [apply users_of_with_file, lookup_insert_eq |].
    split; [apply keyed_app; [exact Hus | unfold joined_record; eauto] |].
    split; [| reflexivity].
    rewrite find_record_app, Hr. unfold joined_record.
    rewrite lookup_insert_eq, py_eq_int_VInt, bool_decide_true by reflexivity.
    reflexivity.
Qed.

Lemma confirmed_same_file uid w w' :
  fs w' !! USERS_FILE = fs w !! USERS_FILE → confirmed uid w → confirmed uid w'.
Proof.
  intros Hsame (m & us & i & f & Hw & Hrest). exists m, us, i, f.
  split; [exact (users_of_same_file w w' m us Hsame Hw) | exact Hrest].
Qed.

Lemma confirmed_check uid w :
  confirmed uid w → check_user_joined_channels uid w = (Ok (VBool true), w).
Proof.
  intros (m & us & i & f & Hw & _ & Hr & Hf).
  rewrite (check_user_joined_channels_run uid w m us _ Hw Hr), Hf. reflexivity.
Qed.

Lemma check_user_token_files uid w m us :
  users_of w m us → Forall (keyed "user_id") us →
  ∃ r w', check_user_token uid w = (r, w') ∧ fs w' = fs w.
Proof.
  intros Hw Hus.
  destruct (find_record_total "user_id" us uid Hus) as [r Hr].
  rewrite (check_user_token_run uid w m us r Hw Hr).
  destruct r as [[i f] |]; [| eauto].
  destruct (f !! "token_expiry"%string) as [te |]; [| eauto].
  destruct (truthy te); [| eauto].
  destruct (datetime_fromisoformat te); eauto.
Qed.

(** [mark_and_report] sets the flag, whether or not the token check then
    raises. *)
Lemma mark_and_report_confirms from_user o m us :
  users_of (store o) m us → Forall (keyed "user_id") us →
  ∃ r o', mark_and_report from_user o = (r, o') ∧ confirmed (id from_user) (store o').
Proof.
  intros Hw Hus. unfold mark_and_report.
  destruct (set_user_joined_channels_confirms (id from_user) _ m us Hw Hus)
    as (w1 & Hset & Hconf & _).
  unfold cmd_bind at 1, db at 1. rewrite Hset.
  destruct Hconf as (m1 & us1 & i & f & Hw1 & Hus1 & Hr1 & Hf1).
  destruct (check_user_token_files (id from_user) w1 m1 us1 Hw1 Hus1)
    as (r & w2 & Htoken & Hfs).
  assert (confirmed (id from_user) w2) as Hconf2.
  { apply (confirmed_same_file _ w1); [rewrite Hfs; reflexivity |].
    exists m1, us1, i, f. auto. }
  unfold cmd_bind at 1, db at 1. cbn [store outbox]. rewrite Htoken.
  destruct r as [[] | e]; eexists _, _; (split; [reflexivity | exact Hconf2]).
Qed.

(** X24. [Try Again] marks the caller as joined without any check.  On a
    users list of records with [user_id], for a caller without the premium
    flag, [membership_confirmed_callback] never raises, and afterwards
    [check_user_joined_channels] answers true, whatever the transport
    answered to the two [get_chat] calls and whatever the token check
    did. *)
Theorem try_again_marks_joined (chat1 chat2 : outcome unit) (from_user : user)
    (o : office) (m : record) (us : list value) (r : option (nat * record)) :
  users_of (store o) m us → Forall (keyed "user_id") us →
  find_record "user_id" us (id from_user) = Ok r →
  (∀ i f, r = Some (i, f) → flagged f = false) →
  ∃ o', membership_confirmed_callback chat1 chat2 from_user o = (Ok tt, o') ∧
        ∀ w2, fs w2 !! USERS_FILE = fs (store o') !! USERS_FILE →
          check_user_joined_channels (id from_user) w2 = (Ok (VBool true), w2).
Proof.
  intros Hw Hus Hr Hflag.
  assert (check_user_premium (id from_user) (store o) = (Ok false, store o)) as Hprem.
  { rewrite (check_user_premium_run _ _ m us r Hw Hr).
    destruct r as [[i f] |]; [| reflexivity]. rewrite (Hflag i f eq_refl). reflexivity. }
  assert (∀ o0, fs (store o0) = fs (store o) →
            ∃ r0 o1, mark_and_report from_user o0 = (r0, o1) ∧
                     confirmed (id from_user) (store o1)) as Hmark.
  { intros o0 Hfs. apply (mark_and_report_confirms from_user o0 m us); [| exact Hus].
    apply (users_of_same_file (store o)); [rewrite Hfs; reflexivity | exact Hw]. }
  assert (∀ o0, confirmed (id from_user) (store o0) →
            ∃ r0 o1, mark_and_report from_user o0 = (r0, o1) ∧
                     confirmed (id from_user) (store o1)) as Hagain.
  { intros o0 (m0 & us0 & _ & _ & Hw0 & Hus0 & _).
    exact (mark_and_report_confirms from_user o0 m0 us0 Hw0 Hus0). }
  assert (∀ (r0 : outcome unit) o1, confirmed (id from_user) (store o1) →
            ∃ o', (match r0 with
                   | Ok a => (Ok a, o1)
                   | Raise e =>
                       (run logger_error (ErrorInCallback e);
                        answer (Some MembershipError))%cmd o1
                   end) = (Ok tt, o') ∧ confirmed (id from_user) (store o')) as Hend.
  { intros [[] | e] o1 Hconf; eexists; (split; [reflexivity | exact Hconf]). }
  assert (∀ o0 e, fs (store o0) = fs (store o) ∨ confirmed (id from_user) (store o0) →
            ∃ r0 o1, (run logger_error (ErrorGettingChannelInfo e);
                      mark_and_report from_user)%cmd o0 = (r0, o1) ∧
                     confirmed (id from_user) (store o1)) as Hhandler.
  { intros o0 e Ho0. unfold cmd_bind at 1, logger_error at 1, post at 1.
    destruct Ho0 as [Hfs | Hconf]; [apply Hmark; exact Hfs | apply Hagain; exact Hconf]. }
  cut (∃ o', membership_confirmed_callback chat1 chat2 from_user o = (Ok tt, o') ∧
             confirmed (id from_user) (store o')).
  { intros (o' & Hrun & Hconf). exists o'. split; [exact Hrun |].
    intros w2 Hsame. apply confirmed_check.
    exact (confirmed_same_file _ _ w2 Hsame Hconf). }
  unfold membership_confirmed_callback. cbv zeta.
  unfold cmd_bind at 1, answer at 1, post at 1.
  unfold cmd_bind at 1, db at 1. cbn [store outbox data]. rewrite Hprem. cbv iota beta.
  unfold try_except_Exception at 1. unfold try_except_Exception at 1.
  set (o0 := {| store := store o; outbox := outbox o ++ [Answered None];
               data := data o |}).
  unfold cmd_bind at 1, pure at 1.
  destruct chat1 as [[] | e1].
  2:{ destruct (Hhandler o0 e1 (or_introl eq_refl)) as (r0 & o1 & -> & Hconf).
      exact (Hend r0 o1 Hconf). }
  unfold cmd_bind at 1, pure at 1.
  destruct chat2 as [[] | e2].
  2:{ destruct (Hhandler o0 e2 (or_introl eq_refl)) as (r0 & o1 & -> & Hconf).
      exact (Hend r0 o1 Hconf). }
  destruct (Hmark o0 eq_refl) as (r0 & o1 & -> & Hconf).
  destruct r0 as [[] | e].
  - exact (Hend (Ok tt) o1 Hconf).
  - destruct (Hhandler o1 e (or_intror Hconf)) as (r1 & o2 & -> & Hconf2).
    exact (Hend r1 o2 Hconf2).
Qed.

(** X25. For a caller whose premium runs, [Try Again] only edits the
    message into the premium welcome: the files stay as they are, so the
    caller is not marked as joined, and [get_chat] is not asked. *)
Theorem try_again_with_premium (chat1 chat2 : outcome unit) (from_user : user)
    (o : office) (m : record) (us : list value) (i : nat) (f : record) (expiry : Z) :
  let w := store o in
  users_of w m us → find_record "user_id" us (id from_user) = Ok (Some (i, f)) →
  flagged f = true → premium_on_record f = Some expiry →
  clock w (reads w) < expiry →
  membership_confirmed_callback chat1 chat2 from_user o =
  (Ok tt,
   noted (Edited (PremiumWelcomeText (first_name from_user)
                    (timedelta_days (expiry - clock w (S (reads w))))))
     (stocked (tick 2 w) (noted (Answered None) o))).
Proof.
  intros w Hw Hr Hflag Hprem Hlt.
  unfold membership_confirmed_callback. cbv zeta.
  unfold cmd_bind at 1, answer at 1, post at 1.
  unfold cmd_bind at 1, db at 1. cbn [store outbox]. fold w.
  rewrite (check_user_premium_run _ w m us _ Hw Hr), Hflag, Hprem.
  rewrite (proj2 (Z.ltb_lt _ _) Hlt).
  unfold cmd_bind at 1, db at 1. cbn [store outbox].
  rewrite (get_premium_expiry_run _ (tick 1 w) m us _
             (users_of_same_file w _ m us eq_refl Hw) Hr), Hprem.
  reflexivity.
Qed.

End callback.

Section dialogue.
Context `{DateTime}.
Variable ADMIN_USER_IDS : list Z.
Import database_json handlers.

Lemma handle_outsider update p o :
  admin.admin_check ADMIN_USER_IDS update = Ok false → unnamed (data o) →
  ∃ o', handle ADMIN_USER_IDS update p o = (Ok tt, o') ∧
        store o' = store o ∧ unnamed (data o').
Proof.
  intros Hadmin Hdata. destruct p as [| | message | callback_data]; cbn [handle].
  - eexists. split; [reflexivity |]. split; [reflexivity | exact Hdata].
  - eexists. split; [reflexivity |]. split; [reflexivity | exact Hdata].
  - unfold admin_message_handler, cmd_bind, pure. rewrite Hadmin.
    eexists. split; [reflexivity |]. split; [reflexivity | exact Hdata].
  - unfold premium_duration_callback.
    unfold cmd_bind at 1, answer at 1, post at 1.
    unfold cmd_bind at 1, get_user_data at 1. cbn [data].
    destruct Hdata as [Hd | Hd]; rewrite Hd;
      (eexists; split; [reflexivity |]; split; [reflexivity |]);
      [left | right]; exact Hd.
Qed.

(** X26. The premium dialogue needs an admin.  For a caller who is no
    admin and whose user data names no user, as they are at the start, no
    sequence of presses of the panel buttons, of text messages and of
    presses of duration buttons, whatever their callback data, raises,
    touches the store or puts a user into the user data: only
    [admin_message_handler] names a user, and it returns at once for a
    caller who is no admin. *)
Theorem dialogue_needs_admin (update : update) (ps : list press) (o : office) :
  admin.admin_check ADMIN_USER_IDS update = Ok false → unnamed (data o) →
  ∃ o', handle_all ADMIN_USER_IDS update ps o = (Ok tt, o') ∧
        store o' = store o ∧ unnamed (data o').
Proof.
  intros Hadmin. revert o.
  induction ps as [| p ps IH]; intros o Hdata; cbn [handle_all].
  - exists o. split; [reflexivity |]. split; [reflexivity | exact Hdata].
  - destruct (handle_outsider update p o Hadmin Hdata) as (o1 & Hrun & Hstore & Hdata1).
    unfold cmd_bind. rewrite Hrun.
    destruct (IH o1 Hdata1) as (o' & Hrest & Hstore' & Hdata').
    exists o'. split; [exact Hrest |]. split; [congruence | exact Hdata'].
Qed.





End dialogue.

(** * The further statements on the sample worlds *)

Section further_samples.
#[local] Existing Instance Codec.datetime.
Import database_json Sample Scene handlers.

Lemma users_of_theatre (f : record) : users_of (theatre f) (users_with f) [VDict f].
Proof. split; reflexivity. Defined.

Lemma videos_of_theatre (f : record) : videos_of (theatre f) library.
Proof. reflexivity. Defined.

Lemma videos_inv_library : videos_inv 2 library [VDict film].
Proof.
  split; [reflexivity |]. split; [reflexivity |].
  constructor; [| constructor]. exists film, 1. repeat split.
Defined.


Lemma check_user_premium_total_witness :
  users_of (world_with ann_premium) (users_with ann_premium) [VDict ann_premium] ∧
  Forall (keyed "user_id") [VDict ann_premium] ∧
  ∃ w', check_user_premium 5 (world_with ann_premium) = (Ok true, w').
Proof.
  pose proof (users_of_world_with ann_premium) as Hw.
  pose proof (keyed_ann_list ann_premium ann_premium_keyed) as Hk.
  split; [exact Hw |]. split; [exact Hk |].
  destruct (check_user_premium_total 5 _ _ _ Hw Hk) as (b & w' & Hrun & Hb).
  exists w'. rewrite Hrun. do 2 f_equal. apply Hb.
  exists 0%nat, ann_premium, (noon + days 3).
  split; [vm_compute; reflexivity |]. split; [vm_compute; reflexivity |].
  split; [vm_compute; reflexivity |]. vm_compute. reflexivity.
Defined.


Lemma premium_gone_after_revoke_witness :
  users_of (world_with ann_premium) (users_with ann_premium) [VDict ann_premium] ∧
  find_record "user_id" [VDict ann_premium] 5 = Ok (Some (0%nat, ann_premium)) ∧
  ∃ w1, remove_user_premium 5 (world_with ann_premium) = (Ok true, w1) ∧
        check_user_premium 5 w1 = (Ok false, w1) ∧
        get_premium_expiry 5 w1 = (Ok None, w1).
Proof.
  pose proof (users_of_world_with ann_premium) as Hw.
  assert (find_record "user_id" [VDict ann_premium] 5 = Ok (Some (0%nat, ann_premium)))
    as Hr by (vm_compute; reflexivity).
  split; [exact Hw |]. split; [exact Hr |].
  destruct (premium_gone_after_revoke 5 _ _ _ _ _ Hw Hr) as (w1 & Hrun & Hread).
  exists w1. split; [exact Hrun |]. exact (Hread w1 eq_refl).
Defined.



Lemma get_premium_users_lists_unexpired_witness :
  users_of (world_with ann_premium) (users_with ann_premium) [VDict ann_premium] ∧
  Forall (keyed "user_id") [VDict ann_premium] ∧
  frozen (world_with ann_premium) (length [VDict ann_premium]) noon ∧
  ∃ w', get_premium_users (world_with ann_premium)
        = (Ok [(VInt 5, VStr "ann", noon + days 3)], w').
Proof.
  pose proof (users_of_world_with ann_premium) as Hw.
  pose proof (keyed_ann_list ann_premium ann_premium_keyed) as Hk.
  pose proof (frozen_still (world_with ann_premium) (length [VDict ann_premium]) eq_refl)
    as Hc.
  split; [exact Hw |]. split; [exact Hk |]. split; [exact Hc |].
  destruct (get_premium_users_lists_unexpired noon _ _ _ Hw Hk Hc)
    as (w' & rows & Hrun & _ & Hrows & _).
  exists w'. rewrite Hrun, Hrows. vm_compute. reflexivity.
Defined.

Lemma get_video_by_id_after_add_witness :
  videos_of (theatre ann) library ∧ videos_inv 2 library [VDict film] ∧
  ∃ w1, add_video "second" "file-b" 1 None (theatre ann) = (Ok (VInt 2), w1) ∧
        get_video_by_id 2 w1
          = (Ok (Some (VInt 2, VStr "second", VStr "file-b", VNone)), w1) ∧
        get_video_by_id 3 w1 = (Ok None, w1).
Proof.
  pose proof (videos_of_theatre ann) as Hm. pose proof videos_inv_library as Hinv.
  split; [exact Hm |]. split; [exact Hinv |].
  destruct (get_video_by_id_after_add "second" "file-b" 1 None _ _ _ _ Hm Hinv)
    as (w1 & Hrun & Hread).
  destruct (Hread w1 eq_refl) as (Hnew & Habove & _).
  exists w1. split; [exact Hrun |]. split; [exact Hnew |]. apply Habove. lia.
Defined.

Lemma update_video_url_then_read_witness :
  videos_of (theatre ann) library ∧ videos_inv 2 library [VDict film] ∧
  ∃ w1, update_video_url 1 "https://t.me/bot?start=video_1" (theatre ann) = (Ok tt, w1) ∧
        get_video_by_id 1 w1
          = (Ok (Some (VInt 1, VStr "first", VStr "file-a",
                       VStr "https://t.me/bot?start=video_1")), w1).
Proof.
  pose proof (videos_of_theatre ann) as Hm. pose proof videos_inv_library as Hinv.
  split; [exact Hm |]. split; [exact Hinv |].
  destruct (update_video_url_then_read 1 "https://t.me/bot?start=video_1" _ _ _ _ Hm Hinv)
    as (w1 & Hrun & _ & Hread).
  exists w1. split; [exact Hrun |].
  apply (Hread 0%nat film (VInt 1) (VStr "first") (VStr "file-a") VNone);
    [vm_compute; reflexivity | vm_compute; reflexivity | reflexivity].
Defined.


Lemma add_channel_then_list_witness :
  channels_of empty_world {[ "channels"%string := VList [] ]} [] ∧
  Forall channel_shaped [] ∧
  ∃ w1, add_channel 77 "news" 1 empty_world = (Ok tt, w1) ∧
        get_channels w1 = (Ok [(VInt 77, VStr "news")], w1).
Proof.
  assert (channels_of empty_world {[ "channels"%string := VList [] ]} []) as Hw
    by (split; reflexivity).
  split; [exact Hw |]. split; [constructor |].
  destruct (add_channel_then_list 77 "news" 1 _ _ _ Hw (List.Forall_nil _))
    as (rows & w1 & Hrows & Hlen & Hrun & Hread).
  exists w1. split; [exact Hrun |]. rewrite (Hread w1 eq_refl).
  destruct rows; [reflexivity | discriminate Hlen].
Defined.


Lemma ann_member_found :
  find_record "user_id" [VDict ann_member] (id (effective_user ann_update))
  = Ok (Some (0%nat, ann_member)).
Proof. vm_compute. reflexivity. Defined.

Lemma video_sent_iff_entitled_witness :
  users_of (theatre ann_member) (users_with ann_member) [VDict ann_member] ∧
  find_record "user_id" [VDict ann_member] (id (effective_user ann_update))
    = Ok (Some (0%nat, ann_member)) ∧
  flagged ann_member = false ∧
  videos_of (theatre ann_member) library ∧
  library !! "videos"%string = Some (VList [VDict film]) ∧
  find_record "id" [VDict film] 1 = Ok (Some (0%nat, film)) ∧
  ∃ o w' new,
    bot.start_command ann_update [video_param 1] (theatre ann_member) = (o, w') ∧
    sent w' = sent (theatre ann_member) ++ new ∧
    VideoMessage (VStr "file-a") (VStr "first") ∈ new.
Proof.
  pose proof (users_of_theatre ann_member) as Hw.
  pose proof ann_member_found as Hr.
  assert (flagged ann_member = false) as Hflag by (vm_compute; reflexivity).
  pose proof (videos_of_theatre ann_member) as Hm.
  assert (library !! "videos"%string = Some (VList [VDict film])) as Hvs
    by (vm_compute; reflexivity).
  assert (find_record "id" [VDict film] 1 = Ok (Some (0%nat, film))) as Hfilm
    by (vm_compute; reflexivity).
  repeat (split; [assumption |]).
  destruct (video_sent_iff_entitled ann_update 1 [] _ _ _ _ _ _ _ _
              Hw Hr Hflag Hm Hvs Hfilm)
    as (o & w' & new & Hrun & Hsent & _ & _ & Hiff).
  exists o, w', new. split; [exact Hrun |]. split; [exact Hsent |].
  apply Hiff. split; [vm_compute; reflexivity |]. split.
  - exists (noon + hours 1). split; vm_compute; reflexivity.
  - exists 0%nat, film, (VInt 1), VNone. split; vm_compute; reflexivity.
Defined.


Lemma own_token_link_grants_24_hours_witness :
  users_of (world_with ann) (users_with ann) [VDict ann] ∧
  find_record "user_id" [VDict ann] (id (effective_user ann_update))
    = Ok (Some (0%nat, ann)) ∧
  (∀ i f, Some (0%nat, ann) = Some (i, f) → flagged f = false) ∧
  ∃ w', bot.start_command ann_update [token_param 5] (world_with ann) = (Ok tt, w') ∧
        sent w' = [TokenRefreshed] ∧
        check_user_token 5 w' = (Ok true, tick 1 w').
Proof.
  pose proof (users_of_world_with ann) as Hw.
  assert (find_record "user_id" [VDict ann] (id (effective_user ann_update))
          = Ok (Some (0%nat, ann))) as Hr by (vm_compute; reflexivity).
  assert (∀ i f, Some (0%nat, ann) = Some (i, f) → flagged f = false) as Hflag
    by (intros i f [= <- <-]; vm_compute; reflexivity).
  repeat (split; [assumption |]).
  destruct (own_token_link_grants_24_hours ann_update [] _ _ _ _ Hw Hr Hflag)
    as (w' & Hrun & Hsent & Hread).
  exists w'. split; [exact Hrun |]. split; [exact Hsent |].
  destruct (Hread w' eq_refl) as [_ Hcheck].
  change (id (effective_user ann_update)) with 5 in Hcheck. rewrite Hcheck.
  do 2 f_equal.
  pose proof (start_command_own_token_run ann_update [] _ _ _ _ Hw Hr
                ltac:(vm_compute; reflexivity)) as (i & w'' & Hrun' & _ & Hclock & Hreads & _).
  rewrite Hrun in Hrun'. injection Hrun' as <-.
  rewrite Hclock. vm_compute. reflexivity.
Defined.


Lemma plain_start_reports_token_witness :
  users_of (world_with ann_member) (users_with ann_member) [VDict ann_member] ∧
  find_record "user_id" [VDict ann_member] (id (effective_user ann_update))
    = Ok (Some (0%nat, ann_member)) ∧
  flagged ann_member = false ∧ has_joined ann_member = true ∧
  token_on_record ann_member = Ok (Some (noon + hours 1)) ∧
  ∃ w', bot.start_command ann_update [] (world_with ann_member) = (Ok tt, w') ∧
        sent w' = [TokenActive "Ann"].
Proof.
  pose proof (users_of_world_with ann_member) as Hw.
  pose proof ann_member_found as Hr.
  assert (flagged ann_member = false) as Hflag by (vm_compute; reflexivity).
  assert (has_joined ann_member = true) as Hj by (vm_compute; reflexivity).
  assert (token_on_record ann_member = Ok (Some (noon + hours 1))) as Ht
    by (vm_compute; reflexivity).
  repeat (split; [assumption |]).
  destruct (plain_start_reports_token ann_update _ _ _ _ _ _ Hw Hr Hflag Hj Ht)
    as (w' & Hrun & Hsent & _).
  exists w'. split; [exact Hrun | exact Hsent].
Defined.

Lemma published_video_link_delivers_witness :
  users_of (theatre ann_member) (users_with ann_member) [VDict ann_member] ∧
  find_record "user_id" [VDict ann_member] (id (effective_user ann_update))
    = Ok (Some (0%nat, ann_member)) ∧
  flagged ann_member = false ∧ has_joined ann_member = true ∧
  token_on_record ann_member = Ok (Some (noon + hours 1)) ∧
  clock (theatre ann_member) (3 + reads (theatre ann_member))%nat < noon + hours 1 ∧
  videos_of (theatre ann_member) library ∧ videos_inv 2 library [VDict film] ∧
  ∃ w1 w2 w3,
    add_video "second" "file-b" 1 None (theatre ann_member) = (Ok (VInt 2), w1) ∧
    update_video_url 2 "https://t.me/bot?start=video_2" w1 = (Ok tt, w2) ∧
    bot.start_command ann_update ["video_2"%string] w2 = (Ok tt, w3) ∧
    sent w3 = [VideoMessage (VStr "file-b") (VStr "second")].
Proof.
  pose proof (users_of_theatre ann_member) as Hw.
  pose proof ann_member_found as Hr.
  assert (flagged ann_member = false) as Hflag by (vm_compute; reflexivity).
  assert (has_joined ann_member = true) as Hj by (vm_compute; reflexivity).
  assert (token_on_record ann_member = Ok (Some (noon + hours 1))) as Ht
    by (vm_compute; reflexivity).
  assert (clock (theatre ann_member) (3 + reads (theatre ann_member))%nat < noon + hours 1)
    as Hlt by (vm_compute; reflexivity).
  pose proof (videos_of_theatre ann_member) as Hm. pose proof videos_inv_library as Hinv.
  repeat (split; [assumption |]).
  destruct (published_video_link_delivers "second" "file-b" "bot" 1 ann_update _ _ _ _ _ _ _
              _ _ Hw Hr Hflag Hj Ht Hlt Hm Hinv)
    as (w1 & w2 & w3 & Hadd & _ & Hupd & Hrun & Hsent).
  exists w1, w2, w3. split; [exact Hadd |]. split; [exact Hupd |].
  split; [exact Hrun | exact Hsent].
Defined.

Lemma ghost_is_admin : admin.admin_check [11; 12] ghost_update = Ok true.
Proof. vm_compute. reflexivity. Defined.


Lemma remove_premium_command_reports_witness :
  admin.admin_check [11; 12] ghost_update = Ok true ∧
  users_of (world_with ann) (users_with ann) [VDict ann] ∧
  find_record "user_id" [VDict ann] 5 = Ok (Some (0%nat, ann)) ∧
  py_int "5" = Ok 5 ∧ flagged ann = false ∧
  ∃ w1,
    remove_premium_command [11; 12] ghost_update ["5"%string] (Office (world_with ann) [] blank)
    = (Ok tt, Office w1 [Replied (PremiumRemoved 5)] blank).
Proof.
  pose proof ghost_is_admin as Hadmin.
  pose proof (users_of_world_with ann) as Hw.
  assert (find_record "user_id" [VDict ann] 5 = Ok (Some (0%nat, ann))) as Hr
    by (vm_compute; reflexivity).
  assert (py_int "5" = Ok 5) as Ha by (vm_compute; reflexivity).
  assert (flagged ann = false) as Hflag by (vm_compute; reflexivity).
  repeat (split; [assumption |]).
  destruct (remove_premium_command_reports [11; 12] ghost_update "5" []
              (Office (world_with ann) [] blank) _ _ 5 _ Hadmin Hw Hr Ha)
    as (w1 & _ & Hrun & _).
  exists w1. exact Hrun.
Defined.

Lemma try_again_marks_joined_witness :
  users_of (world_with ann) (users_with ann) [VDict ann] ∧
  Forall (keyed "user_id") [VDict ann] ∧
  find_record "user_id" [VDict ann] (id (effective_user ann_update))
    = Ok (Some (0%nat, ann)) ∧
  (∀ i f, Some (0%nat, ann) = Some (i, f) → flagged f = false) ∧
  check_user_joined_channels 5 (world_with ann) = (Ok (VBool false), world_with ann) ∧
  ∃ o', membership_confirmed_callback (Raise KeyError) (Ok tt) (effective_user ann_update)
          (Office (world_with ann) [] blank) = (Ok tt, o') ∧
        check_user_joined_channels 5 (store o') = (Ok (VBool true), store o').
Proof.
  pose proof (users_of_world_with ann) as Hw.
  pose proof (keyed_ann_list ann ann_keyed) as Hk.
  assert (find_record "user_id" [VDict ann] (id (effective_user ann_update))
          = Ok (Some (0%nat, ann))) as Hr by (vm_compute; reflexivity).
  assert (∀ i f, Some (0%nat, ann) = Some (i, f) → flagged f = false) as Hflag
    by (intros i f [= <- <-]; vm_compute; reflexivity).
  assert (check_user_joined_channels 5 (world_with ann)
          = (Ok (VBool false), world_with ann)) as Hbefore by (vm_compute; reflexivity).
  repeat (split; [assumption |]).
  destruct (try_again_marks_joined (Raise KeyError) (Ok tt) (effective_user ann_update)
              (Office (world_with ann) [] blank) _ _ _ Hw Hk Hr Hflag)
    as (o' & Hrun & Hafter).
  exists o'. split; [exact Hrun |]. exact (Hafter (store o') eq_refl).
Defined.

Lemma try_again_with_premium_witness :
  users_of (world_with ann_premium) (users_with ann_premium) [VDict ann_premium] ∧
  find_record "user_id" [VDict ann_premium] (id (effective_user ann_update))
    = Ok (Some (0%nat, ann_premium)) ∧
  flagged ann_premium = true ∧ premium_on_record ann_premium = Some (noon + days 3) ∧
  clock (world_with ann_premium) (reads (world_with ann_premium)) < noon + days 3 ∧
  ∃ w', membership_confirmed_callback (Ok tt) (Ok tt) (effective_user ann_update)
          (Office (world_with ann_premium) [] blank)
        = (Ok tt, Office w' [Answered None; Edited (PremiumWelcomeText "Ann" 3)] blank) ∧
        fs w' = fs (world_with ann_premium).
Proof.
  pose proof (users_of_world_with ann_premium) as Hw.
  assert (find_record "user_id" [VDict ann_premium] (id (effective_user ann_update))
          = Ok (Some (0%nat, ann_premium))) as Hr by (vm_compute; reflexivity).
  assert (flagged ann_premium = true) as Hflag by (vm_compute; reflexivity).
  assert (premium_on_record ann_premium = Some (noon + days 3)) as Hprem
    by (vm_compute; reflexivity).
  assert (clock (world_with ann_premium) (reads (world_with ann_premium)) < noon + days 3)
    as Hlt by (vm_compute; reflexivity).
  repeat (split; [assumption |]).
  eexists. split.
  - rewrite (try_again_with_premium (Ok tt) (Ok tt) (effective_user ann_update)
               (Office (world_with ann_premium) [] blank) _ _ _ _ _ Hw Hr Hflag Hprem Hlt).
    reflexivity.
  - reflexivity.
Defined.


Lemma dialogue_needs_admin_witness :
  admin.admin_check [11; 12] ann_update = Ok false ∧
  unnamed (data (Office (world_with ann) [] blank)) ∧
  ∃ o', handle_all [11; 12] ann_update
          [QuickOptions; Message "5"; Duration "premium_duration_365_days"]
          (Office (world_with ann) [] blank) = (Ok tt, o') ∧
        store o' = world_with ann.
Proof.
  assert (admin.admin_check [11; 12] ann_update = Ok false) as Hadmin
    by (vm_compute; reflexivity).
  assert (unnamed (data (Office (world_with ann) [] blank))) as Hdata
    by (left; reflexivity).
  repeat (split; [assumption |]).
  destruct (dialogue_needs_admin [11; 12] ann_update
              [QuickOptions; Message "5"; Duration "premium_duration_365_days"]
              _ Hadmin Hdata) as (o' & Hrun & Hstore & _).
  exists o'. split; [exact Hrun | exact Hstore].
Defined.



End further_samples.
